(** * Movie playback sessions over libav

    A shallow embedding of [engine/client/avi/avi_ffmpeg.c]: the session
    structure [movie_state_s], the seek helpers, video frame retrieval, the
    audio cache-and-refill retrieval, session opening and the query accessors.

    Conventions of the embedding.
    - C [int] and [int64_t] values are integers of [Z]; the result of an [int]
      computation is reduced with [to_int], that of an [int64_t] computation
      with [to_int64] (two's complement wrap-around).
    - Pointers are addresses in [Z], [NULL] being 0.  The objects that the
      session's pointers designate (packets, the frame, the destination image,
      the audio cache block) and the state of the demuxer and of the two
      decoders live in a separate record, [avworld].
    - libavformat, libavcodec, libswscale, libswresample and the engine's
      allocator are outside the repository.  Their behaviour is a parameter:
      the record [avlib] for the playback calls, [open_env] for the calls made
      while opening a file.  The container is a finite list of packets that
      [av_read_frame] hands out in order.
    - Floating-point values are carried as opaque bit patterns; arithmetic on
      them is left to [avlib]. *)

From Stdlib Require Import ZArith List Bool Lia.
From Stdlib Require String.
From Stdlib Require Import Strings.Byte.
From coqutil Require Import Datatypes.RecordSetters.
Import ListNotations.
Import RecordSetters.TriangleBracketNotations.
Local Open Scope Z_scope.

(** Getters applied to setters, reduced. *)
Ltac rsimpl := try record.simp.

(** ** Machine integers, pointers and libav constants *)

Definition INT_MAX : Z := 2147483647.
Definition INT_MIN : Z := -2147483648.
Definition INT64_MIN : Z := -9223372036854775808.
Definition INT64_MAX : Z := 9223372036854775807.

Definition to_int (z : Z) : Z := (z + 2 ^ 31) mod 2 ^ 32 - 2 ^ 31.
Definition to_int64 (z : Z) : Z := (z + 2 ^ 63) mod 2 ^ 64 - 2 ^ 63.
Definition to_size_t (z : Z) : Z := z mod 2 ^ 64.

Definition in_int (z : Z) : Prop := INT_MIN <= z <= INT_MAX.

Definition ptr := Z.
Definition NULL : ptr := 0.

(** A C [float] or [double], as its bit pattern. *)
Definition fbits := Z.

Definition EPERM : Z := 1.
Definition EAGAIN : Z := 11.
Definition ENOMEM : Z := 12.
Definition EINVAL : Z := 22.
Definition AVERROR (e : Z) : Z := - e.
(** [FFERRTAG('E','O','F',' ')], negated. *)
Definition AVERROR_EOF : Z := - 541478725.
Definition AV_NOPTS_VALUE : Z := INT64_MIN.
Definition AVSEEK_FLAG_ANY : Z := 4.
Definition AV_PIX_FMT_BGRA : Z := 28.
Definition AV_SAMPLE_FMT_S16 : Z := 1.

Inductive AVMediaType := AVMEDIA_TYPE_VIDEO | AVMEDIA_TYPE_AUDIO.

Record AVRational := { num : Z; den : Z }.

(** A packet: the stream it belongs to, its decode timestamp in the stream's
    time base, and its payload.  A blank packet (what [av_packet_alloc] and
    [av_packet_unref] leave) has no payload. *)
Record AVPacket := { stream_index : Z; dts : Z; data : list byte }.

Definition blank_packet : AVPacket :=
  {| stream_index := 0; dts := AV_NOPTS_VALUE; data := [] |}.

Definition is_blank (p : AVPacket) : bool :=
  match data p with [] => true | _ :: _ => false end.

(** A decoded frame: picture geometry, number of audio samples, raw content. *)
Record AVFrame :=
  { width : Z; height : Z; format : Z; nb_samples : Z; frame_data : list byte }.

Definition blank_frame : AVFrame :=
  {| width := 0; height := 0; format := -1; nb_samples := 0; frame_data := [] |}.

(** ** The session structure, [struct movie_state_s] *)

Record movie_state := {
  active : bool;
  quiet : bool;
  fmt_ctx : ptr;
  video_ctx : ptr;
  audio_ctx : ptr;
  sws_ctx : ptr;
  swr_ctx : ptr;
  frame : ptr;
  pkt : ptr;
  pkt_seek : ptr;
  video_stream : Z;
  xres : Z;
  yres : Z;
  duration : fbits;
  pix_fmt : Z;
  audio_stream : Z;
  channels : Z;
  rate : Z;
  s_fmt : Z;
  dst0 : ptr;                  (* dst[0], the only plane of a BGRA image *)
  dst_linesize0 : Z;
  keyframe_ts : Z;
  currentframe_ts : Z;
  cached_audio_buf_len : Z;
  cached_audio_len : Z;
  cached_audio_off : Z;
  audio_eof_position : Z;
  have_audio_cache : bool;
  cached_audio : ptr
}.

(** What [memset( Avi, 0, sizeof( *Avi ))] and [Mem_Calloc] leave. *)
Definition zero_state : movie_state :=
  {| active := false; quiet := false; fmt_ctx := NULL; video_ctx := NULL;
     audio_ctx := NULL; sws_ctx := NULL; swr_ctx := NULL; frame := NULL;
     pkt := NULL; pkt_seek := NULL; video_stream := 0; xres := 0; yres := 0;
     duration := 0; pix_fmt := 0; audio_stream := 0; channels := 0; rate := 0;
     s_fmt := 0; dst0 := NULL; dst_linesize0 := 0; keyframe_ts := 0;
     currentframe_ts := 0; cached_audio_buf_len := 0; cached_audio_len := 0;
     cached_audio_off := 0; audio_eof_position := 0;
     have_audio_cache := false; cached_audio := NULL |}.

(** ** The world behind the session's pointers *)

Record avworld (codec : Type) := {
  file : list AVPacket;        (* the container, in read order *)
  cursor : list AVPacket;      (* what av_read_frame has yet to return *)
  video_dec : codec;           (* state of *video_ctx *)
  audio_dec : codec;           (* state of *audio_ctx *)
  video_flushes : nat;         (* calls of avcodec_flush_buffers so far *)
  pkt_obj : AVPacket;          (* *pkt *)
  pkt_seek_obj : AVPacket;     (* *pkt_seek *)
  frame_obj : AVFrame;         (* *frame *)
  dst_image : list byte;       (* the block dst[0] points to *)
  cache_block : list byte      (* the block cached_audio points to *)
}.
Arguments file {codec}.
Arguments cursor {codec}.
Arguments video_dec {codec}.
Arguments audio_dec {codec}.
Arguments video_flushes {codec}.
Arguments pkt_obj {codec}.
Arguments pkt_seek_obj {codec}.
Arguments frame_obj {codec}.
Arguments dst_image {codec}.
Arguments cache_block {codec}.

(** ** The external library, as a parameter *)

Record avlib (codec : Type) := {
  (* avformat_seek_file( ctx, stream, min_ts, ts, max_ts, flags ): from the
     container and the current position, a return code and the new position *)
  avformat_seek_file :
    list AVPacket -> list AVPacket -> Z -> Z -> Z -> Z -> Z -> Z * list AVPacket;
  avcodec_send_packet : codec -> AVPacket -> Z * codec;
  avcodec_receive_frame : codec -> Z * AVFrame * codec;
  avcodec_flush_buffers : codec -> codec;
  (* sws_scale: the converted picture, from the frame and the old image *)
  sws_scale : AVFrame -> list byte -> list byte;
  (* swr_convert: the resampled bytes of a frame *)
  swr_convert : AVFrame -> list byte;
  av_get_bytes_per_sample : Z -> Z;
  stream_time_base : Z -> AVRational;
  (* the two conversions through av_q2d, rounded to int64_t by the compiler *)
  offset_to_ts_q2d : Z -> Z -> Z -> AVRational -> Z;
  ts_to_offset_q2d : Z -> Z -> Z -> AVRational -> Z;
  (* Q_rint( time / av_q2d( time_base )) and time / 1000.0f *)
  Q_rint_div_q2d : fbits -> AVRational -> Z;
  int_div_1000f : Z -> fbits;
  double_to_float : fbits -> fbits;
  (* Mem_Realloc( pool, ptr, size ): the address of the resized block *)
  Mem_Realloc : ptr -> Z -> ptr
}.
Arguments avformat_seek_file {codec}.
Arguments avcodec_send_packet {codec}.
Arguments avcodec_receive_frame {codec}.
Arguments avcodec_flush_buffers {codec}.
Arguments sws_scale {codec}.
Arguments swr_convert {codec}.
Arguments av_get_bytes_per_sample {codec}.
Arguments stream_time_base {codec}.
Arguments offset_to_ts_q2d {codec}.
Arguments ts_to_offset_q2d {codec}.
Arguments Q_rint_div_q2d {codec}.
Arguments int_div_1000f {codec}.
Arguments double_to_float {codec}.
Arguments Mem_Realloc {codec}.

(** [av_read_frame]: the next packet of the container, or end of file, which
    leaves the packet blank.  The reading loops of the source are written
    below by recursion on the packets still to come, one step a call. *)
Definition av_read_frame (cur : list AVPacket) : Z * AVPacket * list AVPacket :=
  match cur with
  | [] => (AVERROR_EOF, blank_packet, [])
  | p :: rest => (0, p, rest)
  end.

(** ** Memory blocks *)

(** The caller's memory around [audiodata], by address. *)
Definition memory := Z -> byte.

(** [memcpy( m + d, src + s, n )] for a source block [src]. *)
Definition memcpy (m : memory) (d : Z) (src : list byte) (s n : Z) : memory :=
  fun i =>
    if (d <=? i) && (i <? d + n)
    then nth (Z.to_nat (s + (i - d))) src x00
    else m i.

(** Storing [bytes] at index [off] of a block; a store does not leave the
    block. *)
Definition store (block : list byte) (off : Z) (bytes : list byte) : list byte :=
  let o := Z.to_nat off in
  firstn o block
    ++ firstn (length block - o) bytes
    ++ skipn (o + length bytes) block.

(** The engine's [Mem_Realloc]: the old content up to the new size, the rest
    cleared. *)
Definition realloc_block (block : list byte) (size : Z) : list byte :=
  let n := Z.to_nat size in
  firstn n block ++ repeat x00 (n - length block).

Section Playback.

Context {codec : Type}.
Variable L : avlib codec.

(** ** AVI_SeekAudio *)

(** The loop [while(( ret = av_read_frame( ... )) >= 0 )] of AVI_SeekAudio:
    [valid] and the current packet so far, over the packets still to read. *)
Fixpoint SeekAudio_scan (stream ts : Z) (cur : list AVPacket)
    (valid : bool) (p : AVPacket) : bool * AVPacket * list AVPacket :=
  match cur with
  | [] => (valid, p, [])
  | q :: rest =>
      if negb (stream_index q =? stream) then SeekAudio_scan stream ts rest valid p
      else if dts q >? ts then (valid, p, rest)
      else SeekAudio_scan stream ts rest true q
  end.

Definition AVI_SeekAudio (Avi : movie_state) (ts : Z) (w : avworld codec) : Z * avworld codec :=
  let '(ret, cur) :=
    avformat_seek_file L (file w) (cursor w) (audio_stream Avi)
      INT64_MIN ts ts AVSEEK_FLAG_ANY in
  let w := w <| cursor := cur |> in
  if (ret <? 0) && (ret =? AVERROR_EOF) then (AVERROR_EOF, w)
  else
    let '(valid, p, cur') :=
      SeekAudio_scan (audio_stream Avi) ts (cursor w) false (pkt_obj w) in
    let w := w <| cursor := cur' |> <| pkt_obj := p |>
               <| pkt_seek_obj := blank_packet |> in
    if negb valid then (AVERROR_EOF, w) else (0, w).

(** ** AVI_SeekVideo *)

(** The reading loop of AVI_SeekVideo: packets of other streams are dropped;
    the first video packet decides the result. *)
Fixpoint SeekVideo_scan (Avi : movie_state) (cur : list AVPacket)
    (w : avworld codec) : Z * movie_state * avworld codec :=
  match cur with
  | [] => (AVERROR_EOF, Avi,
           w <| cursor := [] |> <| pkt_seek_obj := blank_packet |>)
  | q :: rest =>
      if negb (stream_index q =? video_stream Avi) then SeekVideo_scan Avi rest w
      else
        let '(ret, Avi) :=
          if negb (keyframe_ts Avi =? dts q)
          then (AVERROR EAGAIN, Avi <| keyframe_ts := dts q |>)
          else (0, Avi) in
        (ret, Avi,
         w <| cursor := rest |> <| pkt_obj := q |>
           <| pkt_seek_obj := blank_packet |>)
  end.

Definition AVI_SeekVideo (Avi : movie_state) (ts : Z) (w : avworld codec)
  : Z * movie_state * avworld codec :=
  let '(ret, cur) :=
    avformat_seek_file L (file w) (cursor w) (video_stream Avi)
      INT64_MIN ts ts 0 in
  let w := w <| cursor := cur |> in
  if (ret <? 0) && (ret =? AVERROR_EOF) then (AVERROR_EOF, Avi, w)
  else SeekVideo_scan Avi (cursor w) w.

(** ** AVI_DecodePacket *)

Definition AVI_DecodePacket (ctx : codec) (p : AVPacket) (fr : AVFrame)
  : Z * codec * AVFrame :=
  let '(ret, ctx) := avcodec_send_packet L ctx p in
  if ret <? 0 then (ret, ctx, fr)
  else
    let '(ret, fr', ctx) := avcodec_receive_frame L ctx in
    if ret <? 0 then (ret, ctx, fr') else (0, ctx, fr').

(** ** Query accessors *)

Definition AVI_GetFrameNumber (Avi : movie_state) (stream_idx : Z) (time : fbits) : Z :=
  if negb (active Avi) then 0
  else Q_rint_div_q2d L time (stream_time_base L stream_idx).

Definition AVI_GetVideoFrameNumber (Avi : movie_state) (time : fbits) : Z :=
  AVI_GetFrameNumber Avi (video_stream Avi) time.

Definition AVI_TimeToSoundPosition (Avi : movie_state) (time : Z) : Z :=
  AVI_GetFrameNumber Avi (audio_stream Avi) (int_div_1000f L time).

(** The three output parameters may be null pointers: [None].  The result is
    the return value and the content of the three outputs afterwards. *)
Definition AVI_GetVideoInfo (Avi : movie_state)
    (xres_out yres_out : option Z) (duration_out : option fbits)
  : bool * option Z * option Z * option fbits :=
  if negb (active Avi) then (false, xres_out, yres_out, duration_out)
  else
    (true,
     option_map (fun _ => xres Avi) xres_out,
     option_map (fun _ => yres Avi) yres_out,
     option_map (fun _ => double_to_float L (duration Avi)) duration_out).

(** The fields of [wavdata_t] that this file writes. *)
Record wavdata := {
  snd_rate : Z; snd_width : Z; snd_channels : Z; snd_loopStart : Z; snd_size : Z
}.

Definition AVI_GetAudioInfo (Avi : movie_state) (snd_info : wavdata) : bool * wavdata :=
  if negb (active Avi) || (audio_stream Avi <? 0) then (false, snd_info)
  else
    let w := av_get_bytes_per_sample L (s_fmt Avi) in
    (true,
     {| snd_rate := rate Avi;
        snd_width := w;
        snd_channels := channels Avi;
        snd_loopStart := 0;
        snd_size := to_size_t (to_size_t (to_size_t (rate Avi) * w) * channels Avi) |}).

(** ** AVI_GetVideoFrame *)

(** The loop that reads on after an unchanged keyframe: packets of other
    streams and packets not later than the last decoded one are dropped. *)
Fixpoint GetVideoFrame_scan (Avi : movie_state) (cur : list AVPacket)
  : bool * AVPacket * list AVPacket :=
  match cur with
  | [] => (false, blank_packet, [])
  | q :: rest =>
      if negb (stream_index q =? video_stream Avi) then GetVideoFrame_scan Avi rest
      else if dts q <=? currentframe_ts Avi then GetVideoFrame_scan Avi rest
      else (true, q, rest)
  end.

(** Which packet to decode, if any: the part of AVI_GetVideoFrame up to the
    test of [valid]. *)
Definition GetVideoFrame_select (Avi : movie_state) (target : Z) (w : avworld codec)
  : bool * movie_state * avworld codec :=
  let '(ret, Avi, w) := AVI_SeekVideo Avi target w in
  if ret =? 0 then
    if dts (pkt_obj w) <? target then
      let '(valid, p, cur) := GetVideoFrame_scan Avi (cursor w) in
      (valid, Avi, w <| pkt_obj := p |> <| cursor := cur |>)
    else (true, Avi, w)
  else if ret =? AVERROR EAGAIN then
    (true, Avi,
     w <| video_dec := avcodec_flush_buffers L (video_dec w) |>
       <| video_flushes := S (video_flushes w) |>)
  else (false, Avi, w).

Definition frame_drifted (Avi : movie_state) (fr : AVFrame) : bool :=
  negb (width fr =? xres Avi) || negb (height fr =? yres Avi)
  || negb (format fr =? pix_fmt Avi).

Definition AVI_GetVideoFrame (Avi : movie_state) (target : Z) (w : avworld codec)
  : ptr * movie_state * avworld codec :=
  if negb (active Avi) then (NULL, Avi, w)
  else
    let '(valid, Avi, w) := GetVideoFrame_select Avi target w in
    if negb valid then (dst0 Avi, Avi, w)
    else
      let Avi := Avi <| currentframe_ts := dts (pkt_obj w) |> in
      let '(ret, ctx, fr) := AVI_DecodePacket (video_dec w) (pkt_obj w) (frame_obj w) in
      let w := w <| video_dec := ctx |> <| frame_obj := fr |>
                 <| pkt_obj := blank_packet |> in
      if ret <? 0 then (dst0 Avi, Avi, w)
      else
        let w :=
          if frame_drifted Avi (frame_obj w) then w
          else w <| dst_image := sws_scale L (frame_obj w) (dst_image w) |> in
        (dst0 Avi, Avi, w <| frame_obj := blank_frame |>).

(** ** Audio: serving from the cache *)

(** AVI_GetAudioChunkFromCache: the amount still to decode, and the caller's
    memory after the copy.  A negative [len] (an enormous [size_t] for
    [memcpy]) is outside the model. *)
Definition AVI_GetAudioChunkFromCache (Avi : movie_state) (w : avworld codec)
    (out : memory) (audiodata pos len : Z) : Z * memory :=
  let size := cached_audio_len Avi in
  let wrapped := to_int (to_int (pos + len) - size) in
  if wrapped <? 0 then (0, memcpy out audiodata (cache_block w) pos len)
  else
    let remaining := to_int (size - pos) in
    let out :=
      if remaining >? 0 then memcpy out audiodata (cache_block w) pos remaining
      else out in
    (wrapped, out).

(** Division by zero and [INT_MIN / -1] are undefined in C; [Z.quot] gives
    them a value. *)
Definition AVI_AudioOffsetToTimestamp (offset bytes_per_sample rate : Z)
    (time_base : AVRational) : Z :=
  if offset =? 0 then 0
  else if (num time_base =? 1) && (den time_base =? rate)
  then Z.quot offset bytes_per_sample
  else offset_to_ts_q2d L offset bytes_per_sample rate time_base.

Definition AVI_AudioTimestampToOffset (ts bytes_per_sample rate : Z)
    (time_base : AVRational) : Z :=
  if ts =? 0 then 0
  else if (num time_base =? 1) && (den time_base =? rate)
  then to_int64 (ts * bytes_per_sample)
  else ts_to_offset_q2d L ts bytes_per_sample rate time_base.

(** The first part of AVI_GetAudioChunk, lines 462 to 481: either the call
    returns [length] at once, or it goes on to seek with a session, a memory,
    an output pointer and a length that the cache may have changed. *)
Inductive cache_outcome :=
| CacheReturn (ret : Z) (out : memory)
| CacheGoOn (Avi : movie_state) (out : memory) (audiodata length : Z).

Definition GetAudioChunk_cache (Avi : movie_state) (w : avworld codec)
    (out : memory) (audiodata offset length : Z) : cache_outcome :=
  if have_audio_cache Avi && (offset >=? cached_audio_off Avi) then
    let cache_pos := to_int (offset - cached_audio_off Avi) in
    let '(newlen, out) :=
      AVI_GetAudioChunkFromCache Avi w out audiodata cache_pos length in
    if newlen >=? length
    then CacheGoOn (Avi <| have_audio_cache := false |>) out audiodata length
    else if newlen =? 0 then CacheReturn length out
    else if newlen <? length
    then CacheGoOn Avi out (audiodata + newlen) (to_int (length - newlen))
    else CacheGoOn Avi out audiodata length
  else CacheGoOn Avi out audiodata length.

(** ** Audio: refilling the cache *)

(** The inner loop of the refill, which reads up to the next audio packet. *)
Fixpoint next_audio_packet (stream : Z) (cur : list AVPacket)
  : Z * bool * AVPacket * list AVPacket :=
  match cur with
  | [] => (AVERROR_EOF, false, blank_packet, [])
  | q :: rest =>
      if negb (stream_index q =? stream) then next_audio_packet stream rest
      else (0, true, q, rest)
  end.

(** How one round of the [while( true )] loop ends. *)
Inductive loop_exit := LoopReturn0 | LoopBreak | LoopAgain.

(** One round of the [while( true )] loop of AVI_GetAudioChunk, lines 498 to
    553. *)
Definition refill_round (bytes_per_sample : Z) (Avi : movie_state)
    (w : avworld codec) : loop_exit * movie_state * avworld codec :=
  let '(ret, ctx, fr) :=
    AVI_DecodePacket (audio_dec w) (pkt_obj w) (frame_obj w) in
  let w := w <| audio_dec := ctx |> <| frame_obj := fr |>
             <| pkt_obj := blank_packet |> in
  if ret <? 0 then (LoopReturn0, Avi, w)
  else
    let size := to_int (nb_samples (frame_obj w) * bytes_per_sample) in
    let overflow :=
      to_int (cached_audio_len Avi + size) >? cached_audio_buf_len Avi in
    if overflow && negb (cached_audio_len Avi =? 0) then (LoopBreak, Avi, w)
    else
      let '(Avi, w) :=
        if overflow then
          let newsize := to_size_t (to_size_t size * 2) in
          (Avi <| cached_audio := Mem_Realloc L (cached_audio Avi) newsize |>,
           w <| cache_block := realloc_block (cache_block w) newsize |>)
        else (Avi, w) in
      let w :=
        w <| cache_block :=
               store (cache_block w) (cached_audio_len Avi)
                 (firstn (Z.to_nat size) (swr_convert L (frame_obj w))) |> in
      let Avi := Avi <| cached_audio_len := to_int (cached_audio_len Avi + size) |> in
      let w := w <| frame_obj := blank_frame |> in
      if to_int (cached_audio_len Avi + cached_audio_off Avi)
           >=? audio_eof_position Avi
      then (LoopBreak, Avi, w)
      else
        let '(ret, valid, p, cur) :=
          next_audio_packet (audio_stream Avi) (cursor w) in
        let w := w <| cursor := cur |> <| pkt_seek_obj := blank_packet |> in
        let w := if valid then w <| pkt_obj := p |> else w in
        let Avi :=
          if (ret =? AVERROR_EOF) || negb valid
          then Avi <| audio_eof_position :=
                        to_int (cached_audio_off Avi + cached_audio_len Avi) |>
          else Avi in
        (LoopAgain, Avi, w).

(** The [while( true )] loop; [None] when [fuel] rounds did not end it. *)
Fixpoint refill (fuel : nat) (bytes_per_sample : Z) (Avi : movie_state)
    (w : avworld codec) : option (loop_exit * movie_state * avworld codec) :=
  match fuel with
  | O => None
  | S fuel' =>
      let '(how, Avi, w) := refill_round bytes_per_sample Avi w in
      match how with
      | LoopAgain => refill fuel' bytes_per_sample Avi w
      | _ => Some (how, Avi, w)
      end
  end.

(** ** AVI_GetAudioChunk *)

Definition audio_bytes_per_sample (Avi : movie_state) : Z :=
  to_int (channels Avi * av_get_bytes_per_sample L (s_fmt Avi)).

(** The seek and the reinitialisation of the cache, lines 483 to 496:
    [None] when the seek failed and the call returns 0. *)
Definition GetAudioChunk_seek (Avi : movie_state) (w : avworld codec) (offset : Z)
  : option movie_state * avworld codec :=
  let bytes_per_sample := audio_bytes_per_sample Avi in
  let time_base := stream_time_base L (audio_stream Avi) in
  let ts := AVI_AudioOffsetToTimestamp offset bytes_per_sample (rate Avi) time_base in
  let '(ret, w) := AVI_SeekAudio Avi ts w in
  if ret <? 0 then (None, w)
  else
    (Some (Avi <| cached_audio_off :=
                    to_int (AVI_AudioTimestampToOffset (dts (pkt_obj w))
                              bytes_per_sample (rate Avi) time_base) |>
               <| cached_audio_len := 0 |>
               <| have_audio_cache := true |>), w).

(** What a call of AVI_GetAudioChunk leaves: the value returned, the session,
    the world and the caller's memory. *)
Definition chunk_result : Type := Z * movie_state * avworld codec * memory.

Definition chunk_value (r : option chunk_result) : option Z :=
  option_map (fun x => fst (fst (fst x))) r.


(** One pass through the body of AVI_GetAudioChunk: the call returns, or it
    reaches the call of itself at line 559 with the arguments given, or the
    refill loop did not end within [fuel] rounds. *)
Inductive pass_outcome :=
| PassReturn (r : chunk_result)
| PassRetry (Avi : movie_state) (w : avworld codec) (out : memory)
    (audiodata length : Z)
| PassLoops.

Definition GetAudioChunk_pass (fuel : nat) (Avi : movie_state) (w : avworld codec)
    (out : memory) (audiodata offset length : Z) : pass_outcome :=
  match GetAudioChunk_cache Avi w out audiodata offset length with
  | CacheReturn ret out => PassReturn (ret, Avi, w, out)
  | CacheGoOn Avi out audiodata length =>
      match GetAudioChunk_seek Avi w offset with
      | (None, w) => PassReturn (0, Avi, w, out)
      | (Some Avi, w) =>
          match refill fuel (audio_bytes_per_sample Avi) Avi w with
          | None => PassLoops
          | Some (LoopReturn0, Avi, w) => PassReturn (0, Avi, w, out)
          | Some (_, Avi, w) =>
              if cached_audio_len Avi =? 0 then PassReturn (0, Avi, w, out)
              else PassRetry Avi w out audiodata length
          end
      end
  end.

(** The session and the world that a pass ends with. *)
Definition pass_state (p : pass_outcome)
    (Avi : movie_state) (w : avworld codec) : movie_state * avworld codec :=
  match p with
  | PassReturn (_, Avi', w', _) => (Avi', w')
  | PassRetry Avi' w' _ _ _ => (Avi', w')
  | PassLoops => (Avi, w)
  end.

(** The arguments, the caller's memory apart, with which a pass reaches the
    call of AVI_GetAudioChunk to itself. *)
Definition pass_retry (p : pass_outcome)
  : option (movie_state * avworld codec * Z * Z) :=
  match p with
  | PassRetry Avi w _ audiodata length => Some (Avi, w, audiodata, length)
  | _ => None
  end.

(** AVI_GetAudioChunk.  The function calls itself at its end; [fuel] bounds
    the depth of these calls and the rounds of each refill, and the result is
    [None] when it does not suffice. *)
Fixpoint AVI_GetAudioChunk (fuel : nat) (Avi : movie_state) (w : avworld codec)
    (out : memory) (audiodata offset length : Z) : option chunk_result :=
  match fuel with
  | O => None
  | S fuel' =>
      match GetAudioChunk_pass fuel' Avi w out audiodata offset length with
      | PassReturn r => Some r
      | PassRetry Avi w out audiodata length =>
          AVI_GetAudioChunk fuel' Avi w out audiodata offset length
      | PassLoops => None
      end
  end.

(** ** Sequences of retrieval calls *)

Inductive retrieval :=
| AudioChunk (audiodata offset length : Z)
| VideoFrame (target : Z).

Definition retrieve (fuel : nat) (op : retrieval)
    (st : movie_state * avworld codec * memory)
  : option (movie_state * avworld codec * memory) :=
  let '(Avi, w, out) := st in
  match op with
  | AudioChunk audiodata offset length =>
      match AVI_GetAudioChunk fuel Avi w out audiodata offset length with
      | Some (_, Avi, w, out) => Some (Avi, w, out)
      | None => None
      end
  | VideoFrame target =>
      let '(_, Avi, w) := AVI_GetVideoFrame Avi target w in Some (Avi, w, out)
  end.

Fixpoint retrieve_all (fuel : nat) (ops : list retrieval)
    (st : movie_state * avworld codec * memory)
  : option (movie_state * avworld codec * memory) :=
  match ops with
  | [] => Some st
  | op :: ops' =>
      match retrieve fuel op st with
      | Some st' => retrieve_all fuel ops' st'
      | None => None
      end
  end.

(** ** Notions used in the statements *)

(** The packets of one stream, in read order. *)
Definition packets_of (stream : Z) (cur : list AVPacket) : list AVPacket :=
  filter (fun q => stream_index q =? stream) cur.

(** The last packet of [l] with a timestamp up to [ts]. *)
Fixpoint last_not_after (ts : Z) (l : list AVPacket) : option AVPacket :=
  match l with
  | [] => None
  | q :: rest =>
      match last_not_after ts rest with
      | Some r => Some r
      | None => if dts q <=? ts then Some q else None
      end
  end.

(** Decode timestamps do not go back. *)
Fixpoint dts_sorted (l : list AVPacket) : bool :=
  match l with
  | [] => true
  | q :: rest => forallb (fun r => dts q <=? dts r) rest && dts_sorted rest
  end.

(** How a call of AVI_GetVideoFrame on an active session goes. *)
Inductive frame_outcome := NoPacket | DecodeFailed | FormatDrift | Converted.

Definition GetVideoFrame_outcome (Avi : movie_state) (target : Z)
    (w : avworld codec) : frame_outcome :=
  let '(valid, Avi, w) := GetVideoFrame_select Avi target w in
  if negb valid then NoPacket
  else
    let '(ret, _, fr) := AVI_DecodePacket (video_dec w) (pkt_obj w) (frame_obj w) in
    if ret <? 0 then DecodeFailed
    else if frame_drifted Avi fr then FormatDrift
    else Converted.

(** libavcodec's contract on the end of a stream: a blank packet puts the
    decoder into draining mode, and a draining decoder refuses every packet
    until it is flushed. *)
Record drain_contract (draining : codec -> bool) : Prop := {
  blank_starts_draining :
    forall d p, is_blank p = true ->
                draining (snd (avcodec_send_packet L d p)) = true;
  draining_refuses :
    forall d p, draining d = true -> fst (avcodec_send_packet L d p) < 0;
  draining_after_send :
    forall d p, draining d = true ->
                draining (snd (avcodec_send_packet L d p)) = true;
  draining_after_receive :
    forall d, draining d = true ->
              draining (snd (avcodec_receive_frame L d)) = true
}.

(** The request lies within the cache. *)
Definition cache_covers (Avi : movie_state) (offset length : Z) : Prop :=
  have_audio_cache Avi = true
  /\ cached_audio_off Avi <= offset
  /\ offset + length <= cached_audio_off Avi + cached_audio_len Avi.

End Playback.

(** ** Opening and closing a session *)

(** The outcome of every call that AVI_OpenVideo and AVI_OpenCodecContext make
    into libav and the engine's allocator, for the file being opened. *)
Record open_env := {
  avformat_open_input : String.string -> Z * ptr;
  avformat_find_stream_info : Z;
  av_find_best_stream : AVMediaType -> Z;
  avcodec_find_decoder : AVMediaType -> ptr;
  avcodec_alloc_context3 : AVMediaType -> ptr;
  avcodec_parameters_to_context : AVMediaType -> Z;
  avcodec_open2 : AVMediaType -> Z;
  av_packet_alloc_pkt : ptr;          (* the first av_packet_alloc *)
  av_packet_alloc_pkt_seek : ptr;     (* the second one *)
  av_frame_alloc : ptr;
  video_ctx_width : Z;
  video_ctx_height : Z;
  video_ctx_pix_fmt : Z;
  (* fmt_ctx->duration / (double)AV_TIME_BASE *)
  fmt_ctx_duration_seconds : fbits;
  sws_getContext : ptr;
  (* av_image_alloc: return code, dst[0] and dst_linesize[0] on success *)
  av_image_alloc : Z * ptr * Z;
  swr_alloc_set_opts : ptr;
  Mem_Malloc : Z -> ptr;
  MAX_RAW_SAMPLES : Z
}.

(** AVI_OpenCodecContext: the value returned and the content of
    [*dst_dec_ctx] afterwards. *)
Definition AVI_OpenCodecContext (E : open_env) (dst_dec_ctx : ptr)
    (type : AVMediaType) : Z * ptr :=
  let ret := av_find_best_stream E type in
  if ret <? 0 then (ret, dst_dec_ctx)
  else
    let idx := ret in
    if avcodec_find_decoder E type =? NULL then (AVERROR EINVAL, dst_dec_ctx)
    else
      let dec_ctx := avcodec_alloc_context3 E type in
      if dec_ctx =? NULL then (AVERROR ENOMEM, dst_dec_ctx)
      else
        let ret := avcodec_parameters_to_context E type in
        if ret <? 0 then (ret, dst_dec_ctx)
        else
          let ret := avcodec_open2 E type in
          if ret <? 0 then (ret, dst_dec_ctx)
          else (idx, dec_ctx).

(** The audio part of AVI_OpenVideo, under [if( load_audio )]. *)
Definition OpenVideo_audio (E : open_env) (Avi : movie_state) : movie_state :=
  let '(ret, ctx) := AVI_OpenCodecContext E (audio_ctx Avi) AVMEDIA_TYPE_AUDIO in
  let Avi := Avi <| audio_stream := ret |> <| audio_ctx := ctx |> in
  if audio_stream Avi <? 0 then Avi
  else
    Avi <| swr_ctx := swr_alloc_set_opts E |>
        <| channels := 2 |>
        <| s_fmt := AV_SAMPLE_FMT_S16 |>
        <| rate := 44100 |>
        <| cached_audio_buf_len := MAX_RAW_SAMPLES E |>
        <| cached_audio := Mem_Malloc E (MAX_RAW_SAMPLES E) |>
        <| audio_eof_position := INT_MAX |>.

(** AVI_OpenVideo; a null [filename] is [None]. *)
Definition AVI_OpenVideo (E : open_env) (Avi : movie_state)
    (filename : option String.string) (load_audio : bool) (quiet_arg : Z)
  : movie_state :=
  match filename with
  | None => Avi <| active := false |>
  | Some name =>
      let Avi := Avi <| active := false |>
                     <| quiet := negb (quiet_arg =? 0) |>
                     <| video_ctx := NULL |> <| audio_ctx := NULL |>
                     <| fmt_ctx := NULL |> in
      let '(ret, ctx) := avformat_open_input E name in
      if ret <? 0 then Avi
      else
        let Avi := Avi <| fmt_ctx := ctx |> in
        if avformat_find_stream_info E <? 0 then Avi
        else
          let '(ret, ctx) := AVI_OpenCodecContext E (video_ctx Avi) AVMEDIA_TYPE_VIDEO in
          let Avi := Avi <| video_stream := ret |> <| video_ctx := ctx |> in
          if video_stream Avi <? 0 then Avi
          else
            let Avi := Avi <| pkt := av_packet_alloc_pkt E |> in
            if pkt Avi =? NULL then Avi
            else
              let Avi := Avi <| pkt_seek := av_packet_alloc_pkt_seek E |> in
              if pkt_seek Avi =? NULL then Avi
              else
                let Avi := Avi <| frame := av_frame_alloc E |> in
                if frame Avi =? NULL then Avi
                else
                  let Avi := Avi <| xres := video_ctx_width E |>
                                 <| yres := video_ctx_height E |>
                                 <| pix_fmt := video_ctx_pix_fmt E |>
                                 <| duration := fmt_ctx_duration_seconds E |>
                                 <| active := true |>
                                 <| currentframe_ts := INT64_MIN |>
                                 <| keyframe_ts := INT64_MIN |> in
                  let Avi := Avi <| sws_ctx := sws_getContext E |> in
                  if sws_ctx Avi =? NULL then Avi
                  else
                    let '(ret, d0, ls0) := av_image_alloc E in
                    if ret <? 0 then Avi
                    else
                      let Avi := Avi <| dst0 := d0 |> <| dst_linesize0 := ls0 |> in
                      if load_audio then OpenVideo_audio E Avi else Avi
  end.

(** One of the steps of AVI_OpenVideo up to the allocation of the packet and
    frame holders fails. *)
Definition holders_fail (E : open_env) (filename : option String.string) : bool :=
  match filename with
  | None => true
  | Some name =>
      (fst (avformat_open_input E name) <? 0)
      || (avformat_find_stream_info E <? 0)
      || (fst (AVI_OpenCodecContext E NULL AVMEDIA_TYPE_VIDEO) <? 0)
      || (av_packet_alloc_pkt E =? NULL)
      || (av_packet_alloc_pkt_seek E =? NULL)
      || (av_frame_alloc E =? NULL)
  end.

(** The pixel converter and the destination image are obtained. *)
Definition image_ready (E : open_env) : bool :=
  negb (sws_getContext E =? NULL) && negb (fst (fst (av_image_alloc E)) <? 0).

(** AVI_CloseVideo ends with [memset( Avi, 0, sizeof( *Avi ))]; what it frees
    before is not part of the session structure. *)
Definition AVI_CloseVideo (Avi : movie_state) : movie_state := zero_state.

Definition AVI_IsActive (Avi : option movie_state) : bool :=
  match Avi with
  | Some s => active s
  | None => false
  end.

(** ** A concrete library and media files *)

(** A pass-through codec in the shape of libavcodec's send/receive interface:
    a packet's payload is its decoded content (four bytes per audio sample),
    a blank packet starts draining, and a draining decoder takes no more
    input.  The demuxer seeks to the last packet of the stream that is not
    later than the target. *)
Module Demo.

Record codec_state := { draining : bool; pending : option AVPacket }.

Definition fresh_codec : codec_state := {| draining := false; pending := None |}.

Definition frame_of (p : AVPacket) : AVFrame :=
  {| width := 2; height := 2; format := 0;
     nb_samples := Z.of_nat (length (data p)) / 4;
     frame_data := data p |}.

Definition send_packet (d : codec_state) (p : AVPacket) : Z * codec_state :=
  if draining d then (AVERROR_EOF, d)
  else if is_blank p then (0, {| draining := true; pending := None |})
  else (0, {| draining := false; pending := Some p |}).

Definition receive_frame (d : codec_state) : Z * AVFrame * codec_state :=
  match pending d with
  | Some p => (0, frame_of p, {| draining := draining d; pending := None |})
  | None =>
      (if draining d then AVERROR_EOF else AVERROR EAGAIN, blank_frame, d)
  end.

(** The suffix of [l] that starts at its last packet of [stream] with a
    timestamp up to [ts]. *)
Fixpoint seek_position (stream ts : Z) (l : list AVPacket) : option (list AVPacket) :=
  match l with
  | [] => None
  | p :: rest =>
      match seek_position stream ts rest with
      | Some r => Some r
      | None =>
          if (stream_index p =? stream) && (dts p <=? ts) then Some l else None
      end
  end.

Definition seek_file (file cur : list AVPacket) (stream min_ts ts max_ts flags : Z)
  : Z * list AVPacket :=
  match seek_position stream ts file with
  | Some pos => (0, pos)
  | None => (AVERROR EPERM, cur)
  end.

Definition lib : avlib codec_state :=
  {| avformat_seek_file := seek_file;
     avcodec_send_packet := send_packet;
     avcodec_receive_frame := receive_frame;
     avcodec_flush_buffers := fun _ => fresh_codec;
     sws_scale := fun fr _ => frame_data fr;
     swr_convert := frame_data;
     av_get_bytes_per_sample := fun fmt => if fmt =? AV_SAMPLE_FMT_S16 then 2 else 4;
     stream_time_base :=
       fun idx => if idx =? 1 then {| num := 1; den := 44100 |}
                  else {| num := 1; den := 25 |};
     (* the value of the rational product, truncated *)
     offset_to_ts_q2d :=
       fun offset bps rate tb => Z.quot (offset * num tb) (bps * rate * den tb);
     ts_to_offset_q2d :=
       fun ts bps rate tb => Z.quot (ts * bps * num tb) (rate * den tb);
     (* times are carried in milliseconds here *)
     Q_rint_div_q2d := fun time tb => Z.quot (time * den tb) (1000 * num tb);
     int_div_1000f := fun time => time;
     double_to_float := fun d => d;
     Mem_Realloc := fun p _ => p |}.

(** Stream 0 is the video stream, stream 1 the audio stream. *)
Definition vpkt (ts : Z) : AVPacket :=
  {| stream_index := 0; dts := ts; data := [x10; x20; x30; x40] |}.

(** An audio packet of [n] samples. *)
Definition apkt (ts : Z) (n : nat) : AVPacket :=
  {| stream_index := 1; dts := ts; data := repeat x07 (4 * n) |}.

(** A file that opens without error, with both streams. *)
Definition env : open_env :=
  {| avformat_open_input := fun _ => (0, 4096);
     avformat_find_stream_info := 0;
     av_find_best_stream :=
       fun t => match t with AVMEDIA_TYPE_VIDEO => 0 | AVMEDIA_TYPE_AUDIO => 1 end;
     avcodec_find_decoder := fun _ => 8192;
     avcodec_alloc_context3 :=
       fun t => match t with AVMEDIA_TYPE_VIDEO => 12288 | AVMEDIA_TYPE_AUDIO => 16384 end;
     avcodec_parameters_to_context := fun _ => 0;
     avcodec_open2 := fun _ => 0;
     av_packet_alloc_pkt := 20480;
     av_packet_alloc_pkt_seek := 24576;
     av_frame_alloc := 28672;
     video_ctx_width := 2;
     video_ctx_height := 2;
     video_ctx_pix_fmt := 0;
     fmt_ctx_duration_seconds := 10000;
     sws_getContext := 32768;
     av_image_alloc := (16, 36864, 8);
     swr_alloc_set_opts := 40960;
     Mem_Malloc := fun _ => 45056;
     MAX_RAW_SAMPLES := 8192 |}.

(** The same file without a decodable audio stream. *)
Definition env_no_audio : open_env :=
  {| avformat_open_input := avformat_open_input env;
     avformat_find_stream_info := 0;
     av_find_best_stream :=
       fun t => match t with
                | AVMEDIA_TYPE_VIDEO => 0
                | AVMEDIA_TYPE_AUDIO => -1381258232 (* AVERROR_STREAM_NOT_FOUND *)
                end;
     avcodec_find_decoder := avcodec_find_decoder env;
     avcodec_alloc_context3 := avcodec_alloc_context3 env;
     avcodec_parameters_to_context := avcodec_parameters_to_context env;
     avcodec_open2 := avcodec_open2 env;
     av_packet_alloc_pkt := av_packet_alloc_pkt env;
     av_packet_alloc_pkt_seek := av_packet_alloc_pkt_seek env;
     av_frame_alloc := av_frame_alloc env;
     video_ctx_width := 2;
     video_ctx_height := 2;
     video_ctx_pix_fmt := 0;
     fmt_ctx_duration_seconds := 10000;
     sws_getContext := sws_getContext env;
     av_image_alloc := av_image_alloc env;
     swr_alloc_set_opts := swr_alloc_set_opts env;
     Mem_Malloc := Mem_Malloc env;
     MAX_RAW_SAMPLES := 8192 |}.

Import String.StringSyntax.
Local Open Scope string_scope.
Definition movie_name : String.string := "media/movie.avi".
Local Close Scope string_scope.

(** The session that opening [env] with audio gives. *)
Definition session : movie_state :=
  AVI_OpenVideo env zero_state (Some movie_name) true 0.

(** The world right after opening a container with the packets [packets]. *)
Definition world_of (packets : list AVPacket) : avworld codec_state :=
  {| file := packets; cursor := packets;
     video_dec := fresh_codec; audio_dec := fresh_codec; video_flushes := 0;
     pkt_obj := blank_packet; pkt_seek_obj := blank_packet;
     frame_obj := blank_frame;
     dst_image := repeat x00 16;
     cache_block := repeat x00 (Z.to_nat 8192) |}.

(** The caller's buffer before any call. *)
Definition silence : memory := fun _ => x00.

(** Two seconds' worth of nothing special: video and audio interleaved, the
    audio contiguous, 1024 samples (4096 bytes) a packet. *)
Definition movie : list AVPacket :=
  [ vpkt 0; apkt 0 1024; apkt 1024 1024; vpkt 1; apkt 2048 1024;
    apkt 3072 1024; vpkt 2 ].

(** A file whose audio has a hole: nothing between samples 1024 and 10000. *)
Definition movie_with_gap : list AVPacket :=
  [ vpkt 0; apkt 0 1024; apkt 10000 1024; apkt 11024 1024;
    apkt 12048 1024; apkt 13072 1024 ].

(** A world in which the current packet decodes to a frame of 3000 samples,
    more than the nominal capacity of the cache holds. *)
Definition loaded_world : avworld codec_state :=
  {| file := [apkt 0 3000]; cursor := [];
     video_dec := fresh_codec; audio_dec := fresh_codec; video_flushes := 0;
     pkt_obj := apkt 0 3000; pkt_seek_obj := blank_packet;
     frame_obj := blank_frame;
     dst_image := repeat x00 16;
     cache_block := repeat x00 (Z.to_nat 8192) |}.

(** The session with a cache that is full. *)
Definition full_session : movie_state :=
  session <| cached_audio_len := 8192 |> <| have_audio_cache := true |>.

(** The session and the world after a first request for the bytes 0 to 4000
    of the sound track of [movie]. *)
Definition first_chunk : option (chunk_result (codec := codec_state)) :=
  AVI_GetAudioChunk lib 20 session (world_of movie) silence 0 0 4000.

Definition warm_session : movie_state :=
  match first_chunk with
  | Some (_, Avi, _, _) => Avi
  | None => session
  end.

Definition warm_world : avworld codec_state :=
  match first_chunk with
  | Some (_, _, w, _) => w
  | None => world_of movie
  end.

(** The session and the world with which AVI_GetAudioChunk calls itself when
    it is asked, after that first request, for no bytes at offset 4000. *)
Definition empty_pass : pass_outcome (codec := codec_state) :=
  GetAudioChunk_pass lib 8 warm_session warm_world silence 0 4000 0.

Definition empty_session : movie_state :=
  match empty_pass with
  | PassRetry Avi _ _ _ _ => Avi
  | _ => session
  end.

Definition empty_world : avworld codec_state :=
  match empty_pass with
  | PassRetry _ w _ _ _ => w
  | _ => world_of movie
  end.

(** The session and the world with which AVI_GetAudioChunk calls itself when
    it is asked for 100 bytes at offset 20000 of [movie_with_gap]. *)
Definition gap_pass : pass_outcome (codec := codec_state) :=
  GetAudioChunk_pass lib 8 session (world_of movie_with_gap) silence 0 20000 100.

Definition gap_session : movie_state :=
  match gap_pass with
  | PassRetry Avi _ _ _ _ => Avi
  | _ => session
  end.

Definition gap_world : avworld codec_state :=
  match gap_pass with
  | PassRetry _ w _ _ _ => w
  | _ => world_of movie_with_gap
  end.

(** The session, the world and the caller's memory after a request past the
    end of the sound track of [movie], which runs into the end of the file. *)
Definition last_chunk : option (chunk_result (codec := codec_state)) :=
  AVI_GetAudioChunk lib 20 session (world_of movie) silence 0 100000 100.

Definition ended_session : movie_state :=
  match last_chunk with
  | Some (_, Avi, _, _) => Avi
  | None => session
  end.

Definition ended_world : avworld codec_state :=
  match last_chunk with
  | Some (_, _, w, _) => w
  | None => world_of movie
  end.

(** Three more calls after the end of the file was met. *)
Definition later_calls : list retrieval :=
  [AudioChunk 0 0 4000; VideoFrame 1; AudioChunk 0 8192 100].

Definition later_state : option (movie_state * avworld codec_state * memory) :=
  retrieve_all lib 20 later_calls (ended_session, ended_world, silence).

Definition later_session : movie_state :=
  match later_state with
  | Some (Avi, _, _) => Avi
  | None => session
  end.

Definition later_world : avworld codec_state :=
  match later_state with
  | Some (_, w, _) => w
  | None => world_of movie
  end.

End Demo.


(** ** Further notions used in the statements *)

(** The last element of a list, if any. *)
Definition last_packet (l : list AVPacket) : option AVPacket :=
  match rev l with
  | [] => None
  | q :: _ => Some q
  end.

(** Every packet of [stream] in [l] has a timestamp up to [ts]. *)
Definition none_after (stream ts : Z) (l : list AVPacket) : bool :=
  forallb (fun q => dts q <=? ts) (packets_of stream l).

(** The fields of the session other than the cache's address, length, offset
    and validity and the end-of-audio position. *)
Definition fields_outside_cache (Avi : movie_state) :=
  (active Avi, quiet Avi, fmt_ctx Avi, video_ctx Avi, audio_ctx Avi,
   sws_ctx Avi, swr_ctx Avi, frame Avi, pkt Avi, pkt_seek Avi,
   video_stream Avi, xres Avi, yres Avi, duration Avi, pix_fmt Avi,
   audio_stream Avi, channels Avi, rate Avi, s_fmt Avi,
   dst0 Avi, dst_linesize0 Avi, keyframe_ts Avi, currentframe_ts Avi,
   cached_audio_buf_len Avi).

(** The fields of the session other than the two video timestamps. *)
Definition fields_outside_video (Avi : movie_state) :=
  (active Avi, quiet Avi, fmt_ctx Avi, video_ctx Avi, audio_ctx Avi,
   sws_ctx Avi, swr_ctx Avi, frame Avi, pkt Avi, pkt_seek Avi,
   video_stream Avi, xres Avi, yres Avi, duration Avi, pix_fmt Avi,
   audio_stream Avi, channels Avi, rate Avi, s_fmt Avi,
   dst0 Avi, dst_linesize0 Avi,
   cached_audio_buf_len Avi, cached_audio_len Avi, cached_audio_off Avi,
   audio_eof_position Avi, have_audio_cache Avi, cached_audio Avi).

(** The part of the world that belongs to the video side, and the part that
    belongs to the audio side. *)
Definition video_side {codec : Type} (w : avworld codec) :=
  (file w, video_dec w, video_flushes w, dst_image w).

Definition audio_side {codec : Type} (w : avworld codec) :=
  (file w, audio_dec w, cache_block w).

(** The cache lies within its block: its length and its nominal capacity do
    not exceed the size of the block, which is at most [2 * K] bytes. *)
Definition cache_fits {codec : Type} (K : Z) (Avi : movie_state)
    (w : avworld codec) : Prop :=
  0 <= cached_audio_len Avi <= Z.of_nat (length (cache_block w))
  /\ 0 <= cached_audio_buf_len Avi <= Z.of_nat (length (cache_block w))
  /\ Z.of_nat (length (cache_block w)) <= 2 * K.

(** Every frame that the decoder gives takes between 0 and [K] bytes at
    [bps] bytes a sample. *)
Definition frames_within {codec : Type} (L : avlib codec) (bps K : Z) : Prop :=
  forall (d : codec) (p : AVPacket) (fr : AVFrame),
    0 <= fst (fst (AVI_DecodePacket L d p fr)) ->
    0 <= nb_samples (snd (AVI_DecodePacket L d p fr)) * bps <= K.


(** ** What AVI_CloseVideo releases *)

(** A release function of libav called on the pointer [p] (av_freep,
    sws_freeContext, av_frame_free, av_packet_free, avcodec_free_context,
    avformat_close_input): a null pointer is let be, any other joins the
    pointers released so far. *)
Definition release (p : ptr) (freed : list ptr) : list ptr :=
  if p =? NULL then freed else freed ++ [p].

(** AVI_CloseVideo up to its [memset], lines 677 to 690: the pointers
    released, in the order of the calls, and the structure.  [Mem_Free] is
    called on a cache that is not null; av_freep, av_frame_free,
    av_packet_free, avcodec_free_context and avformat_close_input take the
    address of the field and set the field to null, sws_freeContext does
    not. *)
Definition CloseVideo_frees (Avi : movie_state) : list ptr * movie_state :=
  if active Avi then
    let freed := if negb (cached_audio Avi =? NULL) then [cached_audio Avi] else [] in
    let freed := release (dst0 Avi) freed in
    let Avi := Avi <| dst0 := NULL |> in
    let freed := release (sws_ctx Avi) freed in
    let freed := release (frame Avi) freed in
    let Avi := Avi <| frame := NULL |> in
    let freed := release (pkt Avi) freed in
    let Avi := Avi <| pkt := NULL |> in
    let freed := release (pkt Avi) freed in
    let Avi := Avi <| pkt := NULL |> in
    let freed := release (audio_ctx Avi) freed in
    let Avi := Avi <| audio_ctx := NULL |> in
    let freed := release (video_ctx Avi) freed in
    let Avi := Avi <| video_ctx := NULL |> in
    let freed := release (fmt_ctx Avi) freed in
    let Avi := Avi <| fmt_ctx := NULL |> in
    (freed, Avi)
  else ([], Avi).

(** The pointers of a session that own something: what AVI_OpenVideo and
    AVI_GetAudioChunk have obtained from libav and the engine's allocator. *)
Definition owned (Avi : movie_state) : list ptr :=
  filter (fun p => negb (p =? NULL))
    [fmt_ctx Avi; video_ctx Avi; audio_ctx Avi; sws_ctx Avi; swr_ctx Avi;
     frame Avi; pkt Avi; pkt_seek Avi; dst0 Avi; cached_audio Avi].

(** ** Loading and freeing a movie *)

(** The file system and the string functions of the engine that AVI_LoadVideo
    calls; their code is not in this file. *)
Record fs_env := {
  (* Q_snprintf( path, sizeof( path ), "media/%s", filename ) and then
     COM_DefaultExtension( path, ".avi", sizeof( path )) *)
  media_path : String.string -> String.string;
  (* a null result is [None] *)
  FS_GetDiskPath : String.string -> option String.string;
  FS_FileExists : String.string -> bool
}.

(** The state behind AVI_LoadVideo and AVI_FreeVideo: the flag
    [avi_initialized] and the blocks of [cls.mempool] that hold a session,
    by address, the latest first. *)
Record loader := {
  avi_initialized : bool;
  mempool : list (ptr * movie_state)
}.

Definition Mem_IsAllocatedExt (pool : list (ptr * movie_state)) (a : ptr) : bool :=
  existsb (fun e => fst e =? a) pool.

Definition Mem_Free (pool : list (ptr * movie_state)) (a : ptr)
  : list (ptr * movie_state) :=
  filter (fun e => negb (fst e =? a)) pool.

(** AVI_FreeVideo: AVI_CloseVideo clears the block, which Mem_Free then takes
    out of the pool. *)
Definition AVI_FreeVideo (st : loader) (Avi : ptr) : loader :=
  if Avi =? NULL then st
  else if Mem_IsAllocatedExt (mempool st) Avi
  then st <| mempool := Mem_Free (mempool st) Avi |>
  else st.

(** AVI_LoadVideo, for the address [block] that Mem_Calloc returns: the
    pointer returned and the state afterwards. *)
Definition AVI_LoadVideo (F : fs_env) (E : open_env) (block : ptr) (st : loader)
    (filename : String.string) (load_audio : bool) : ptr * loader :=
  if negb (avi_initialized st) then (NULL, st)
  else
    let path := media_path F filename in
    let fullpath := FS_GetDiskPath F path in
    if FS_FileExists F path
       && match fullpath with None => true | Some _ => false end
    then (NULL, st)
    else
      let Avi := AVI_OpenVideo E zero_state fullpath load_audio 0 in
      let st := st <| mempool := (block, Avi) :: mempool st |> in
      if negb (AVI_IsActive (Some Avi)) then (NULL, AVI_FreeVideo st block)
      else (block, st).

(** AVI_Initailize, for the outcome of [Sys_CheckParm( "-noavi" )]. *)
Definition AVI_Initailize (noavi : bool) (st : loader) : bool * loader :=
  if noavi then (false, st)
  else (true, st <| avi_initialized := true |>).

Definition AVI_Shutdown (st : loader) : loader :=
  st <| avi_initialized := false |>.

(** ** crtlib.h: the inline string functions *)

(** A buffer of characters is a list of bytes, a null pointer is [None].  The
    C string that a buffer holds ends before its first NUL. *)
Fixpoint strlen (s : list byte) : nat :=
  match s with
  | [] => O
  | c :: rest => if Byte.eqb c x00 then O else S (strlen rest)
  end.

Definition c_string (buf : list byte) : list byte := firstn (strlen buf) buf.

(** The buffer holds a NUL: [strlen] and the copies below stay inside it. *)
Definition terminated (buf : list byte) : bool := existsb (Byte.eqb x00) buf.

(** Q_strncpy: the value returned and the destination afterwards.  [siz] is a
    [size_t]. *)
Definition Q_strncpy (dst src : option (list byte)) (siz : Z)
  : Z * option (list byte) :=
  match dst, src with
  | Some d, Some s =>
      if siz =? 0 then (0, dst)
      else
        let len := Z.of_nat (strlen s) in
        if to_size_t (len + 1) >? siz then
          let d := store d 0 (firstn (Z.to_nat (to_size_t (siz - 1))) s) in
          (len, Some (store d (to_size_t (siz - 1)) [x00]))
        else (len, Some (store d 0 (firstn (Z.to_nat (to_size_t (len + 1))) s)))
  | _, _ => (0, dst)
  end.

(** The cache's offset leaves room for [3 * K] bytes within [int]. *)
Definition offset_fits (K : Z) (Avi : movie_state) : Prop :=
  INT_MIN <= cached_audio_off Avi /\ cached_audio_off Avi + 3 * K <= INT_MAX.

(** A decoder without delay: asked to drain (sent a blank packet), it has no
    frame left to give. *)
Definition decoder_without_delay {codec : Type} (L : avlib codec) : Prop :=
  forall (d : codec) (p : AVPacket) (fr : AVFrame),
    is_blank p = true -> fst (fst (AVI_DecodePacket L d p fr)) < 0.

(** ** More sample data *)

Module Samples.

(** An audio packet of two samples. *)
Definition spkt (ts : Z) : AVPacket :=
  {| stream_index := 1; dts := ts;
     data := [x01; x02; x03; x04; x05; x06; x07; x08] |}.

(** A short file: video and audio interleaved, 32 bytes of sound. *)
Definition track : list AVPacket :=
  [ Demo.vpkt 0; spkt 0; spkt 2; Demo.vpkt 1; spkt 4; spkt 6; Demo.vpkt 2 ].

(** A file of three pictures, ten ticks apart. *)
Definition reel : list AVPacket :=
  [ Demo.vpkt 0; Demo.vpkt 10; Demo.vpkt 20 ].

(** The pass-through codec with frames of at most 1024 samples. *)
Definition capped_receive (d : Demo.codec_state)
  : Z * AVFrame * Demo.codec_state :=
  let '(ret, fr, d') := Demo.receive_frame d in
  (ret,
   {| width := width fr; height := height fr; format := format fr;
      nb_samples := Z.min (nb_samples fr) 1024;
      frame_data := frame_data fr |},
   d').

Definition capped_lib : avlib Demo.codec_state :=
  {| avformat_seek_file := Demo.seek_file;
     avcodec_send_packet := Demo.send_packet;
     avcodec_receive_frame := capped_receive;
     avcodec_flush_buffers := avcodec_flush_buffers Demo.lib;
     sws_scale := sws_scale Demo.lib;
     swr_convert := swr_convert Demo.lib;
     av_get_bytes_per_sample := av_get_bytes_per_sample Demo.lib;
     stream_time_base := stream_time_base Demo.lib;
     offset_to_ts_q2d := offset_to_ts_q2d Demo.lib;
     ts_to_offset_q2d := ts_to_offset_q2d Demo.lib;
     Q_rint_div_q2d := Q_rint_div_q2d Demo.lib;
     int_div_1000f := int_div_1000f Demo.lib;
     double_to_float := double_to_float Demo.lib;
     Mem_Realloc := Mem_Realloc Demo.lib |}.

(** [Demo.env] with one of its answers changed. *)
Definition env_with (frame_holder converter : ptr) : open_env :=
  {| avformat_open_input := avformat_open_input Demo.env;
     avformat_find_stream_info := avformat_find_stream_info Demo.env;
     av_find_best_stream := av_find_best_stream Demo.env;
     avcodec_find_decoder := avcodec_find_decoder Demo.env;
     avcodec_alloc_context3 := avcodec_alloc_context3 Demo.env;
     avcodec_parameters_to_context := avcodec_parameters_to_context Demo.env;
     avcodec_open2 := avcodec_open2 Demo.env;
     av_packet_alloc_pkt := av_packet_alloc_pkt Demo.env;
     av_packet_alloc_pkt_seek := av_packet_alloc_pkt_seek Demo.env;
     av_frame_alloc := frame_holder;
     video_ctx_width := video_ctx_width Demo.env;
     video_ctx_height := video_ctx_height Demo.env;
     video_ctx_pix_fmt := video_ctx_pix_fmt Demo.env;
     fmt_ctx_duration_seconds := fmt_ctx_duration_seconds Demo.env;
     sws_getContext := converter;
     av_image_alloc := av_image_alloc Demo.env;
     swr_alloc_set_opts := swr_alloc_set_opts Demo.env;
     Mem_Malloc := Mem_Malloc Demo.env;
     MAX_RAW_SAMPLES := MAX_RAW_SAMPLES Demo.env |}.

(** No frame holder to be had; no pixel converter to be had. *)
Definition env_no_frame : open_env := env_with NULL (sws_getContext Demo.env).
Definition env_no_image : open_env := env_with (av_frame_alloc Demo.env) NULL.

Import String.StringSyntax.
Local Open Scope string_scope.
Definition clip_name : String.string := "movie".

(** A file system in which every movie is a file on the disk. *)
Definition disk : fs_env :=
  {| media_path := fun name => String.append "media/" (String.append name ".avi");
     FS_GetDiskPath := fun path => Some path;
     FS_FileExists := fun _ => true |}.
Local Close Scope string_scope.

(** The loader after AVI_Initailize, with nothing loaded. *)
Definition ready : loader :=
  snd (AVI_Initailize false {| avi_initialized := false; mempool := [] |}).

(** The session and the world after a first AVI_GetVideoFrame on [reel], for
    the target 15. *)
Definition reel_session : movie_state :=
  snd (fst (AVI_GetVideoFrame Demo.lib Demo.session 15 (Demo.world_of reel))).

Definition reel_world : avworld Demo.codec_state :=
  snd (AVI_GetVideoFrame Demo.lib Demo.session 15 (Demo.world_of reel)).

(** The seek of AVI_GetAudioChunk on [track], for the byte offset 22. *)
Definition sought_session : movie_state :=
  match fst (GetAudioChunk_seek Demo.lib Demo.session (Demo.world_of track) 22) with
  | Some Avi => Avi
  | None => Demo.session
  end.

Definition sought_world : avworld Demo.codec_state :=
  snd (GetAudioChunk_seek Demo.lib Demo.session (Demo.world_of track) 22).

(** A request for the bytes 12000 to 12100 of the sound track of
    [Demo.movie], on the session just opened: the refill runs into the end of
    the file. *)
Definition tail_chunk : option (chunk_result (codec := Demo.codec_state)) :=
  AVI_GetAudioChunk Demo.lib 20 Demo.session (Demo.world_of Demo.movie)
    Demo.silence 0 12000 100.

Definition tail_session : movie_state :=
  match tail_chunk with
  | Some (_, Avi, _, _) => Avi
  | None => Demo.session
  end.

Definition tail_world : avworld Demo.codec_state :=
  match tail_chunk with
  | Some (_, _, w, _) => w
  | None => Demo.world_of Demo.movie
  end.

(** The same request with the capped codec. *)
Definition capped_chunk : option (chunk_result (codec := Demo.codec_state)) :=
  AVI_GetAudioChunk capped_lib 20 Demo.session (Demo.world_of Demo.movie)
    Demo.silence 0 12000 100.

Definition capped_session : movie_state :=
  match capped_chunk with
  | Some (_, Avi, _, _) => Avi
  | None => Demo.session
  end.

Definition capped_world : avworld Demo.codec_state :=
  match capped_chunk with
  | Some (_, _, w, _) => w
  | None => Demo.world_of Demo.movie
  end.

(** The seek of AVI_GetAudioChunk on [Demo.movie] for the byte offset 0, with
    the capped codec. *)
Definition started_session : movie_state :=
  match fst (GetAudioChunk_seek capped_lib Demo.session
               (Demo.world_of Demo.movie) 0) with
  | Some Avi => Avi
  | None => Demo.session
  end.

Definition started_world : avworld Demo.codec_state :=
  snd (GetAudioChunk_seek capped_lib Demo.session (Demo.world_of Demo.movie) 0).

(** A destination buffer of eight dots and a source that holds "movie". *)
Definition dots : list byte := repeat x2e 8.
Definition movie_bytes : list byte :=
  [x6d; x6f; x76; x69; x65; x00; x78; x78].

(** A file that holds sound only. *)
Definition sound_only : list AVPacket := [ spkt 0; spkt 2 ].

End Samples.

(** A file whose sound packets are not in the order of their timestamps, and
    a demuxer that knows one seek point only, the start of the file: its seek
    reports the end of the file for a target after every timestamp of the
    stream, and goes to the start of the file otherwise. *)
Module Rewind.

Definition shuffled : list AVPacket :=
  [ Samples.spkt 0; Samples.spkt 3000; Samples.spkt 1000 ].

Definition seek_file (file cur : list AVPacket) (stream min_ts ts max_ts flags : Z)
  : Z * list AVPacket :=
  if forallb (fun p => dts p <? ts) (packets_of stream file)
  then (AVERROR_EOF, cur)
  else (0, file).

Definition lib : avlib Demo.codec_state :=
  {| avformat_seek_file := seek_file;
     avcodec_send_packet := Demo.send_packet;
     avcodec_receive_frame := Demo.receive_frame;
     avcodec_flush_buffers := avcodec_flush_buffers Demo.lib;
     sws_scale := sws_scale Demo.lib;
     swr_convert := swr_convert Demo.lib;
     av_get_bytes_per_sample := av_get_bytes_per_sample Demo.lib;
     stream_time_base := stream_time_base Demo.lib;
     offset_to_ts_q2d := offset_to_ts_q2d Demo.lib;
     ts_to_offset_q2d := ts_to_offset_q2d Demo.lib;
     Q_rint_div_q2d := Q_rint_div_q2d Demo.lib;
     int_div_1000f := int_div_1000f Demo.lib;
     double_to_float := double_to_float Demo.lib;
     Mem_Realloc := Mem_Realloc Demo.lib |}.

End Rewind.

(** * Properties *)

(** ** Machine arithmetic *)

Lemma to_int_id (z : Z) : in_int z -> to_int z = z.
Proof.
  unfold in_int, to_int, INT_MIN, INT_MAX. intros H.
  rewrite Z.mod_small; lia.
Qed.

Lemma to_int_range (z : Z) : in_int (to_int z).
Proof.
  unfold in_int, to_int, INT_MIN, INT_MAX.
  pose proof (Z.mod_pos_bound (z + 2 ^ 31) (2 ^ 32) ltac:(lia)). lia.
Qed.

Lemma to_size_t_id (z : Z) : 0 <= z < 2 ^ 64 -> to_size_t z = z.
Proof. intros H. unfold to_size_t. apply Z.mod_small. exact H. Qed.

(** ** The audio seek *)

Section SeekAudioFacts.

Context {codec : Type}.
Variable L : avlib codec.

Lemma last_not_after_none_sorted (ts : Z) (q : AVPacket) (l : list AVPacket) :
  forallb (fun r => dts q <=? dts r) l = true ->
  ts < dts q ->
  last_not_after ts l = None.
Proof.
  induction l as [|r l IH]; simpl; intros Hall Hq; [reflexivity|].
  apply andb_prop in Hall. destruct Hall as [Hr Hall].
  rewrite (IH Hall Hq).
  apply Z.leb_le in Hr.
  destruct (dts r <=? ts) eqn:E; [apply Z.leb_le in E; lia | reflexivity].
Qed.

(** What the scan leaves, over a stream whose timestamps do not go back: the
    last packet of the stream not later than [ts] if there is one, and what
    it started from if there is none. *)
Lemma SeekAudio_scan_sorted (stream ts : Z) (cur : list AVPacket) :
  dts_sorted (packets_of stream cur) = true ->
  forall valid p,
    fst (SeekAudio_scan stream ts cur valid p)
    = match last_not_after ts (packets_of stream cur) with
      | Some q => (true, q)
      | None => (valid, p)
      end.
Proof.
  induction cur as [|q rest IH]; intros Hs valid p; simpl; [reflexivity|].
  unfold packets_of in *. simpl in Hs |- *.
  destruct (stream_index q =? stream) eqn:Eq; simpl in Hs |- *.
  - apply andb_prop in Hs. destruct Hs as [Hall Hs].
    destruct (dts q >? ts) eqn:Et.
    + rewrite (last_not_after_none_sorted ts q _ Hall) by lia.
      assert ((dts q <=? ts) = false) as -> by lia. reflexivity.
    + rewrite (IH Hs true q).
      assert ((dts q <=? ts) = true) as -> by lia.
      destruct (last_not_after ts _); reflexivity.
  - apply IH. exact Hs.
Qed.

Lemma last_not_after_closest (ts : Z) (l : list AVPacket) (p : AVPacket) :
  dts_sorted l = true ->
  last_not_after ts l = Some p ->
  In p l /\ dts p <= ts
  /\ forall q, In q l -> dts q <= ts -> dts q <= dts p.
Proof.
  induction l as [|r l IH]; simpl; intros Hs Hl; [discriminate|].
  apply andb_prop in Hs. destruct Hs as [Hall Hs].
  destruct (last_not_after ts l) as [r'|] eqn:E.
  - inversion Hl; subst r'. destruct (IH Hs eq_refl) as (Hin & Hts & Hmax).
    repeat split; auto.
    intros q [<-|Hq] Hq'; [|auto].
    rewrite forallb_forall in Hall. specialize (Hall p Hin). lia.
  - destruct (dts r <=? ts) eqn:Er; [|discriminate].
    inversion Hl; subst r. repeat split; auto; [lia|].
    intros q [<-|Hq] Hq'; [lia|].
    exfalso. clear - E Hq Hq'.
    induction l as [|x l IH]; simpl in *; [contradiction|].
    destruct (last_not_after ts l); [discriminate|].
    destruct (dts x <=? ts) eqn:Ex; [discriminate|].
    destruct Hq as [<-|Hq]; [lia | auto].
Qed.

(** C6.  After a seek of the demuxer that does not report the end of the file,
    AVI_SeekAudio reads on over the packets that follow; packets of other
    streams do not count.  When the audio packets come in decode order, the
    session's current packet becomes the last audio packet whose timestamp is
    at most [ts], which is the closest one not exceeding the target, and the
    call returns 0; when there is no such packet the call fails with
    AVERROR_EOF and the current packet is left as it was. *)
Theorem SeekAudio_retains_last_not_after :
  forall (Avi : movie_state) (ts : Z) (w : avworld codec) (ret0 : Z)
         (cur : list AVPacket),
    avformat_seek_file L (file w) (cursor w) (audio_stream Avi)
      INT64_MIN ts ts AVSEEK_FLAG_ANY = (ret0, cur) ->
    ret0 <> AVERROR_EOF ->
    dts_sorted (packets_of (audio_stream Avi) cur) = true ->
    match last_not_after ts (packets_of (audio_stream Avi) cur) with
    | Some p =>
        fst (AVI_SeekAudio L Avi ts w) = 0
        /\ pkt_obj (snd (AVI_SeekAudio L Avi ts w)) = p
        /\ stream_index p = audio_stream Avi
        /\ In p cur
        /\ dts p <= ts
        /\ forall q, In q cur -> stream_index q = audio_stream Avi ->
                     dts q <= ts -> dts q <= dts p
    | None =>
        fst (AVI_SeekAudio L Avi ts w) = AVERROR_EOF
        /\ pkt_obj (snd (AVI_SeekAudio L Avi ts w)) = pkt_obj w
    end.
Proof.
  intros Avi ts w ret0 cur Hseek Hret Hsorted.
  unfold AVI_SeekAudio. rewrite Hseek.
  assert ((ret0 <? 0) && (ret0 =? AVERROR_EOF) = false) as ->.
  { apply andb_false_iff. right. apply Z.eqb_neq. exact Hret. }
  rsimpl.
  pose proof (SeekAudio_scan_sorted (audio_stream Avi) ts cur Hsorted false (pkt_obj w)) as Hscan.
  destruct (SeekAudio_scan (audio_stream Avi) ts cur false (pkt_obj w))
    as [[valid p] cur'] eqn:Escan.
  simpl in Hscan.
  destruct (last_not_after ts (packets_of (audio_stream Avi) cur)) as [q|] eqn:El.
  - inversion Hscan; subst valid p. cbn [negb fst snd]. rsimpl.
    destruct (last_not_after_closest ts _ q Hsorted El) as (Hin & Hts & Hmax).
    unfold packets_of in Hin. apply filter_In in Hin. destruct Hin as [Hin Hst].
    apply Z.eqb_eq in Hst.
    repeat split; auto.
    intros r Hr Hrs Hrt. apply Hmax; [|exact Hrt].
    unfold packets_of. apply filter_In. split; [exact Hr | apply Z.eqb_eq; exact Hrs].
  - inversion Hscan; subst valid p. cbn [negb fst snd]. rsimpl.
    split; reflexivity.
Qed.

End SeekAudioFacts.

(** The audio seek to sample 2500 of [Demo.movie]: the packet at 2048 is kept. *)
Lemma SeekAudio_retains_last_not_after_witness :
  avformat_seek_file Demo.lib (file (Demo.world_of Demo.movie))
    (cursor (Demo.world_of Demo.movie)) (audio_stream Demo.session)
    INT64_MIN 2500 2500 AVSEEK_FLAG_ANY
  = (0, [Demo.apkt 2048 1024; Demo.apkt 3072 1024; Demo.vpkt 2])
  /\ dts_sorted (packets_of (audio_stream Demo.session)
                   [Demo.apkt 2048 1024; Demo.apkt 3072 1024; Demo.vpkt 2]) = true
  /\ fst (AVI_SeekAudio Demo.lib Demo.session 2500 (Demo.world_of Demo.movie)) = 0
  /\ pkt_obj (snd (AVI_SeekAudio Demo.lib Demo.session 2500 (Demo.world_of Demo.movie)))
     = Demo.apkt 2048 1024.
Proof.
  assert (Hseek :
    avformat_seek_file Demo.lib (file (Demo.world_of Demo.movie))
      (cursor (Demo.world_of Demo.movie)) (audio_stream Demo.session)
      INT64_MIN 2500 2500 AVSEEK_FLAG_ANY
    = (0, [Demo.apkt 2048 1024; Demo.apkt 3072 1024; Demo.vpkt 2]))
    by (vm_compute; reflexivity).
  assert (Hsorted :
    dts_sorted (packets_of (audio_stream Demo.session)
                  [Demo.apkt 2048 1024; Demo.apkt 3072 1024; Demo.vpkt 2]) = true)
    by (vm_compute; reflexivity).
  assert (Hret : 0 <> AVERROR_EOF) by (unfold AVERROR_EOF; lia).
  pose proof (SeekAudio_retains_last_not_after Demo.lib Demo.session 2500
                (Demo.world_of Demo.movie) 0 _ Hseek Hret Hsorted) as H.
  assert (El :
    last_not_after 2500
      (packets_of (audio_stream Demo.session)
         [Demo.apkt 2048 1024; Demo.apkt 3072 1024; Demo.vpkt 2])
    = Some (Demo.apkt 2048 1024)) by (vm_compute; reflexivity).
  rewrite El in H. destruct H as (H1 & H2 & _).
  repeat split; assumption.
Defined.

(** C6, against the claim as written.  Sound packets with the timestamps 0,
    3000 and 1000, read from the start of the file, and the target 2000: the
    loop stops at the packet 3000, the first one after the target, and the
    call returns 0 with the packet 0 as the current one, while the packet
    1000, which comes later in the file, is the closest one not after the
    target.  And the sound packets 0, 2, 4, 6 of [Samples.track] with the
    target 100, for which the demuxer's seek reports the end of the file: the
    call fails with AVERROR_EOF and reads nothing, while the packet 6 is not
    after the target. *)
Lemma SeekAudio_stops_at_first_later_packet :
  (avformat_seek_file Rewind.lib (file (Demo.world_of Rewind.shuffled))
     (cursor (Demo.world_of Rewind.shuffled)) (audio_stream Demo.session)
     INT64_MIN 2000 2000 AVSEEK_FLAG_ANY
   = (0, Rewind.shuffled)
   /\ fst (AVI_SeekAudio Rewind.lib Demo.session 2000
             (Demo.world_of Rewind.shuffled)) = 0
   /\ pkt_obj (snd (AVI_SeekAudio Rewind.lib Demo.session 2000
                      (Demo.world_of Rewind.shuffled))) = Samples.spkt 0
   /\ last_not_after 2000
        (packets_of (audio_stream Demo.session) Rewind.shuffled)
      = Some (Samples.spkt 1000)
   /\ In (Samples.spkt 1000) Rewind.shuffled
   /\ stream_index (Samples.spkt 1000) = audio_stream Demo.session
   /\ dts (Samples.spkt 0) < dts (Samples.spkt 1000) <= 2000
   /\ dts_sorted (packets_of (audio_stream Demo.session) Rewind.shuffled)
      = false)
  /\ (fst (avformat_seek_file Rewind.lib (file (Demo.world_of Samples.track))
             (cursor (Demo.world_of Samples.track)) (audio_stream Demo.session)
             INT64_MIN 100 100 AVSEEK_FLAG_ANY)
      = AVERROR_EOF
      /\ fst (AVI_SeekAudio Rewind.lib Demo.session 100
                (Demo.world_of Samples.track)) = AVERROR_EOF
      /\ pkt_obj (snd (AVI_SeekAudio Rewind.lib Demo.session 100
                         (Demo.world_of Samples.track)))
         = pkt_obj (Demo.world_of Samples.track)
      /\ dts_sorted (packets_of (audio_stream Demo.session) Samples.track)
         = true
      /\ last_not_after 100
           (packets_of (audio_stream Demo.session) Samples.track)
         = Some (Samples.spkt 6)).
Proof.
  split.
  - split; [reflexivity|].
    split; [vm_compute; reflexivity|].
    split; [vm_compute; reflexivity|].
    split; [vm_compute; reflexivity|].
    split; [right; right; left; reflexivity|].
    split; [vm_compute; reflexivity|].
    split; [vm_compute; split; [reflexivity | discriminate]|].
    vm_compute; reflexivity.
  - split; [vm_compute; reflexivity|].
    split; [vm_compute; reflexivity|].
    split; [vm_compute; reflexivity|].
    split; vm_compute; reflexivity.
Qed.

(** ** The video seek and video frames *)

Section VideoFacts.

Context {codec : Type}.
Variable L : avlib codec.

(** The reading loop of AVI_SeekVideo, by the first video packet to come. *)
Lemma SeekVideo_scan_first (Avi : movie_state) (cur : list AVPacket) :
  forall w : avworld codec,
    let r := SeekVideo_scan Avi cur w in
    file (snd r) = file w
    /\ video_dec (snd r) = video_dec w
    /\ audio_dec (snd r) = audio_dec w
    /\ video_flushes (snd r) = video_flushes w
    /\ dst_image (snd r) = dst_image w
    /\ match hd_error (packets_of (video_stream Avi) cur) with
       | None => fst r = (AVERROR_EOF, Avi)
       | Some q =>
           pkt_obj (snd r) = q
           /\ fst r = if keyframe_ts Avi =? dts q then (0, Avi)
                      else (AVERROR EAGAIN, Avi <| keyframe_ts := dts q |>)
       end.
Proof.
  induction cur as [|q rest IH]; intros w r; subst r.
  - simpl. rsimpl. repeat split; reflexivity.
  - unfold packets_of in *. cbn [SeekVideo_scan filter].
    destruct (stream_index q =? video_stream Avi) eqn:E; cbn [negb].
    + cbn [hd_error].
      destruct (keyframe_ts Avi =? dts q); cbn [negb fst snd]; rsimpl;
        repeat split; reflexivity.
    + apply IH.
Qed.

Lemma SeekVideo_spec (Avi : movie_state) (ts : Z) (w : avworld codec) :
  let r := AVI_SeekVideo L Avi ts w in
  let s := avformat_seek_file L (file w) (cursor w) (video_stream Avi)
             INT64_MIN ts ts 0 in
  file (snd r) = file w
  /\ video_dec (snd r) = video_dec w
  /\ audio_dec (snd r) = audio_dec w
  /\ video_flushes (snd r) = video_flushes w
  /\ dst_image (snd r) = dst_image w
  /\ if fst s =? AVERROR_EOF then fst r = (AVERROR_EOF, Avi)
     else match hd_error (packets_of (video_stream Avi) (snd s)) with
          | None => fst r = (AVERROR_EOF, Avi)
          | Some q =>
              pkt_obj (snd r) = q
              /\ fst r = if keyframe_ts Avi =? dts q then (0, Avi)
                         else (AVERROR EAGAIN, Avi <| keyframe_ts := dts q |>)
          end.
Proof.
  intros r s. subst r s. unfold AVI_SeekVideo.
  destruct (avformat_seek_file L (file w) (cursor w) (video_stream Avi)
              INT64_MIN ts ts 0) as [ret0 cur].
  cbn [fst snd]. rsimpl.
  destruct (ret0 =? AVERROR_EOF) eqn:E.
  - apply Z.eqb_eq in E. subst ret0. cbn. rsimpl. repeat split; reflexivity.
  - rewrite andb_false_r.
    pose proof (SeekVideo_scan_first Avi cur (w <| cursor := cur |>)) as H.
    cbv zeta in H. revert H. rsimpl. intros H. exact H.
Qed.

(** The seek leaves every field of the session but [keyframe_ts]. *)
Lemma SeekVideo_session (Avi : movie_state) (ts : Z) (w : avworld codec) :
  let Avi' := snd (fst (AVI_SeekVideo L Avi ts w)) in
  Avi' = Avi \/ Avi' = Avi <| keyframe_ts := keyframe_ts Avi' |>.
Proof.
  destruct (SeekVideo_spec Avi ts w) as (_ & _ & _ & _ & _ & H).
  cbv zeta. revert H.
  destruct (fst _ =? AVERROR_EOF).
  - intros ->. left. reflexivity.
  - destruct (hd_error _) as [q|].
    + intros [_ ->]. destruct (keyframe_ts Avi =? dts q); cbn [fst snd].
      * left. reflexivity.
      * right. rsimpl. reflexivity.
    + intros ->. left. reflexivity.
Qed.

Lemma GetVideoFrame_select_inv (Avi : movie_state) (target : Z) (w : avworld codec)
    (valid : bool) (Avi1 : movie_state) (w1 : avworld codec) :
  GetVideoFrame_select L Avi target w = (valid, Avi1, w1) ->
  Avi1 = snd (fst (AVI_SeekVideo L Avi target w))
  /\ file w1 = file w
  /\ audio_dec w1 = audio_dec w
  /\ dst_image w1 = dst_image w
  /\ video_flushes w1
     = if fst (fst (AVI_SeekVideo L Avi target w)) =? AVERROR EAGAIN
       then S (video_flushes w) else video_flushes w.
Proof.
  unfold GetVideoFrame_select.
  destruct (SeekVideo_spec Avi target w) as (Hf & _ & Ha & Hfl & Hd & _).
  destruct (AVI_SeekVideo L Avi target w) as [[ret Avi'] w'].
  cbn [fst snd] in *.
  destruct (ret =? 0) eqn:E0.
  - apply Z.eqb_eq in E0. subst ret.
    replace (0 =? AVERROR EAGAIN) with false by reflexivity.
    destruct (dts (pkt_obj w') <? target).
    + destruct (GetVideoFrame_scan Avi' (cursor w')) as [[v p] c].
      intros H. inversion H; subst. rsimpl. repeat split; assumption.
    + intros H. inversion H; subst. repeat split; assumption.
  - destruct (ret =? AVERROR EAGAIN) eqn:E1;
      intros H; inversion H; subst; rsimpl; repeat split; try assumption.
    rewrite Hfl. reflexivity.
Qed.

(** What a call of AVI_GetVideoFrame on an active session leaves alone. *)
Lemma GetVideoFrame_inv (Avi : movie_state) (target : Z) (w : avworld codec) :
  active Avi = true ->
  let r := AVI_GetVideoFrame L Avi target w in
  let Avi1 := snd (fst (AVI_SeekVideo L Avi target w)) in
  fst (fst r) = dst0 Avi1
  /\ snd (fst r) = Avi1 <| currentframe_ts := currentframe_ts (snd (fst r)) |>
  /\ file (snd r) = file w
  /\ audio_dec (snd r) = audio_dec w
  /\ video_flushes (snd r)
     = (if fst (fst (AVI_SeekVideo L Avi target w)) =? AVERROR EAGAIN
        then S (video_flushes w) else video_flushes w)
  /\ (GetVideoFrame_outcome L Avi target w <> Converted ->
      dst_image (snd r) = dst_image w).
Proof.
  intros Hact r Avi1. subst r Avi1.
  unfold AVI_GetVideoFrame, GetVideoFrame_outcome. rewrite Hact. cbn [negb].
  destruct (GetVideoFrame_select L Avi target w) as [[valid Avi1] w1] eqn:Esel.
  destruct (GetVideoFrame_select_inv _ _ _ _ _ _ Esel) as (-> & Hf & Ha & Hd & Hfl).
  set (Avi1 := snd (fst (AVI_SeekVideo L Avi target w))) in *.
  destruct valid; cbn [negb].
  - rsimpl.
    destruct (AVI_DecodePacket L (video_dec w1) (pkt_obj w1) (frame_obj w1))
      as [[ret ctx] fr].
    destruct (ret <? 0).
    + cbn [fst snd]. rsimpl.
      repeat split; try assumption; try reflexivity. intros _. assumption.
    + unfold frame_drifted. rsimpl.
      destruct (negb (width fr =? xres Avi1) || negb (height fr =? yres Avi1)
                || negb (format fr =? pix_fmt Avi1));
        cbn [fst snd]; rsimpl; repeat split; try assumption; try reflexivity.
      * intros _. assumption.
      * intros H. exfalso. apply H. reflexivity.
  - cbn [fst snd]. repeat split; try assumption.
    + destruct Avi1. reflexivity.
    + intros _. assumption.
Qed.

Lemma GetVideoFrame_session (Avi : movie_state) (target : Z) (w : avworld codec) :
  active Avi = true ->
  let Avi' := snd (fst (AVI_GetVideoFrame L Avi target w)) in
  active Avi' = true
  /\ video_stream Avi' = video_stream Avi
  /\ dst0 Avi' = dst0 Avi
  /\ dst0 (snd (fst (AVI_SeekVideo L Avi target w))) = dst0 Avi
  /\ keyframe_ts Avi' = keyframe_ts (snd (fst (AVI_SeekVideo L Avi target w)))
  /\ audio_eof_position Avi' = audio_eof_position Avi.
Proof.
  intros Hact Avi'. subst Avi'.
  destruct (GetVideoFrame_inv Avi target w Hact) as (_ & H & _).
  cbv zeta in H. rewrite H. rsimpl.
  generalize (currentframe_ts (snd (fst (AVI_GetVideoFrame L Avi target w)))).
  intros c. clear H.
  destruct (SeekVideo_session Avi target w) as [E|E]; cbv zeta in E.
  - rewrite E. rsimpl. repeat split; try reflexivity. exact Hact.
  - revert E. generalize (snd (fst (AVI_SeekVideo L Avi target w))).
    intros A E. rewrite E. rsimpl. repeat split; try reflexivity. exact Hact.
Qed.

(** What AVI_GetVideoFrame returns on an active session is the session's
    [dst[0]], which the call does not change; when no new picture is
    converted the bytes of the destination image stay as they were. *)
Lemma GetVideoFrame_returns_dst0 (Avi : movie_state) (target : Z)
    (w : avworld codec) :
  active Avi = true ->
  let r := AVI_GetVideoFrame L Avi target w in
  fst (fst r) = dst0 Avi
  /\ dst0 (snd (fst r)) = dst0 Avi
  /\ (GetVideoFrame_outcome L Avi target w <> Converted ->
      dst_image (snd r) = dst_image w).
Proof.
  intros Hact r. subst r.
  destruct (GetVideoFrame_inv Avi target w Hact) as (Hp & _ & _ & _ & _ & Himg).
  destruct (GetVideoFrame_session Avi target w Hact) as (_ & _ & Hd & Hd' & _).
  cbv zeta in *. rewrite Hp, Hd'. repeat split; assumption.
Qed.


End VideoFacts.


(** ** The query accessors *)

Section AccessorFacts.

Context {codec : Type}.
Variable L : avlib codec.

(** C10.  On a session that is not active the accessors return at once and
    touch nothing: AVI_GetVideoFrame returns NULL and leaves the session and
    the world as they are, AVI_GetVideoInfo and AVI_GetAudioInfo return false
    and leave their outputs as they are, AVI_GetVideoFrameNumber and
    AVI_TimeToSoundPosition return 0.  AVI_GetAudioInfo also returns false,
    writing nothing, when the audio stream index is negative. *)
Theorem inactive_accessors_short_circuit :
  forall Avi : movie_state,
    (active Avi = false ->
     (forall target (w : avworld codec),
         AVI_GetVideoFrame L Avi target w = (NULL, Avi, w))
     /\ (forall xres_out yres_out duration_out,
            AVI_GetVideoInfo L Avi xres_out yres_out duration_out
            = (false, xres_out, yres_out, duration_out))
     /\ (forall snd_info, AVI_GetAudioInfo L Avi snd_info = (false, snd_info))
     /\ (forall time, AVI_GetVideoFrameNumber L Avi time = 0)
     /\ (forall time, AVI_TimeToSoundPosition L Avi time = 0))
    /\ (active Avi = true -> audio_stream Avi < 0 ->
        forall snd_info, AVI_GetAudioInfo L Avi snd_info = (false, snd_info)).
Proof.
  intros Avi. split.
  - intros Hin.
    unfold AVI_GetVideoFrame, AVI_GetVideoInfo, AVI_GetAudioInfo,
      AVI_GetVideoFrameNumber, AVI_TimeToSoundPosition, AVI_GetFrameNumber.
    rewrite Hin. cbn [negb orb]. repeat split; reflexivity.
  - intros Hact Hneg snd_info. unfold AVI_GetAudioInfo.
    rewrite Hact. cbn [negb orb].
    apply Z.ltb_lt in Hneg. rewrite Hneg. reflexivity.
Qed.

End AccessorFacts.

(** The accessors on a zeroed session, and AVI_GetAudioInfo on a session
    opened without a usable audio stream. *)
Lemma inactive_accessors_short_circuit_witness :
  active zero_state = false
  /\ AVI_GetVideoFrame Demo.lib zero_state 7 (Demo.world_of Demo.movie)
     = (NULL, zero_state, Demo.world_of Demo.movie)
  /\ AVI_GetVideoInfo Demo.lib zero_state (Some 11) None (Some 13)
     = (false, Some 11, None, Some 13)
  /\ AVI_GetVideoFrameNumber Demo.lib zero_state 400 = 0
  /\ AVI_TimeToSoundPosition Demo.lib zero_state 400 = 0
  /\ active (AVI_OpenVideo Demo.env_no_audio zero_state (Some Demo.movie_name) true 0)
     = true
  /\ AVI_GetAudioInfo Demo.lib
       (AVI_OpenVideo Demo.env_no_audio zero_state (Some Demo.movie_name) true 0)
       {| snd_rate := 1; snd_width := 2; snd_channels := 3;
          snd_loopStart := 4; snd_size := 5 |}
     = (false, {| snd_rate := 1; snd_width := 2; snd_channels := 3;
                  snd_loopStart := 4; snd_size := 5 |}).
Proof.
  destruct (inactive_accessors_short_circuit Demo.lib zero_state) as [Hin _].
  destruct (Hin eq_refl) as (Hf & Hv & _ & Hn & Ht).
  destruct (inactive_accessors_short_circuit Demo.lib
              (AVI_OpenVideo Demo.env_no_audio zero_state (Some Demo.movie_name) true 0))
    as [_ Hneg].
  assert (Hact :
    active (AVI_OpenVideo Demo.env_no_audio zero_state (Some Demo.movie_name) true 0)
    = true) by (vm_compute; reflexivity).
  assert (Hidx :
    audio_stream (AVI_OpenVideo Demo.env_no_audio zero_state (Some Demo.movie_name) true 0)
    < 0) by (vm_compute; reflexivity).
  repeat split; auto.
Defined.

(** ** Opening a session *)

(** The audio part of the opening leaves [active] alone. *)
Lemma OpenVideo_audio_active (E : open_env) (Avi : movie_state) :
  active (OpenVideo_audio E Avi) = active Avi.
Proof.
  unfold OpenVideo_audio.
  destruct (AVI_OpenCodecContext E (audio_ctx Avi) AVMEDIA_TYPE_AUDIO) as [ret ctx].
  rsimpl. destruct (ret <? 0); rsimpl; reflexivity.
Qed.

(** C2, as the code has it.  When a step of AVI_OpenVideo up to the
    allocation of the packet and frame holders fails (a null file name,
    opening the input, the stream information, the video stream or its
    decoder, a packet or the frame), the session is left with [active] false.
    When these steps and the set-up of the image succeed, audio was asked for
    and the audio stream or its decoder cannot be set up, the session is left
    active, with a negative audio stream index: the movie plays without
    sound. *)
Theorem OpenVideo_failure_states :
  forall (E : open_env) (Avi : movie_state) (filename : option String.string)
         (load_audio : bool) (quiet_arg : Z),
    (holders_fail E filename = true ->
     active (AVI_OpenVideo E Avi filename load_audio quiet_arg) = false)
    /\ (holders_fail E filename = false ->
        image_ready E = true ->
        load_audio = true ->
        fst (AVI_OpenCodecContext E NULL AVMEDIA_TYPE_AUDIO) < 0 ->
        active (AVI_OpenVideo E Avi filename load_audio quiet_arg) = true
        /\ audio_stream (AVI_OpenVideo E Avi filename load_audio quiet_arg) < 0).
Proof.
  intros E Avi filename load_audio quiet_arg.
  unfold holders_fail, image_ready, AVI_OpenVideo.
  destruct filename as [name|].
  2:{ split; [intros _; rsimpl; reflexivity | discriminate]. }
  destruct (avformat_open_input E name) as [ret0 ctx0]. cbn [fst].
  destruct (ret0 <? 0); cbn [orb].
  { split; [intros _; rsimpl; reflexivity | discriminate]. }
  rsimpl.
  destruct (avformat_find_stream_info E <? 0); cbn [orb].
  { split; [intros _; rsimpl; reflexivity | discriminate]. }
  destruct (AVI_OpenCodecContext E NULL AVMEDIA_TYPE_VIDEO) as [ret1 ctx1].
  cbn [fst]. rsimpl.
  destruct (ret1 <? 0); cbn [orb].
  { split; [intros _; rsimpl; reflexivity | discriminate]. }
  destruct (av_packet_alloc_pkt E =? NULL); cbn [orb].
  { split; [intros _; rsimpl; reflexivity | discriminate]. }
  rsimpl.
  destruct (av_packet_alloc_pkt_seek E =? NULL); cbn [orb].
  { split; [intros _; rsimpl; reflexivity | discriminate]. }
  rsimpl.
  destruct (av_frame_alloc E =? NULL); cbn [orb].
  { split; [intros _; rsimpl; reflexivity | discriminate]. }
  rsimpl.
  split; [discriminate|].
  intros _ Himg Haudio Hfail. subst load_audio.
  apply andb_prop in Himg. destruct Himg as [Hsws Himg].
  apply negb_true_iff in Hsws. apply negb_true_iff in Himg.
  rewrite Hsws.
  destruct (av_image_alloc E) as [[ret2 d0] ls0]. cbn [fst] in Himg.
  rewrite Himg.
  rewrite OpenVideo_audio_active. rsimpl. split; [reflexivity|].
  unfold OpenVideo_audio. rsimpl.
  destruct (AVI_OpenCodecContext E NULL AVMEDIA_TYPE_AUDIO) as [ret3 ctx3].
  cbn [fst] in Hfail. rsimpl.
  apply Z.ltb_lt in Hfail. rewrite Hfail. rsimpl. apply Z.ltb_lt. exact Hfail.
Qed.

(** The rest of the late failures: when the holders are there and the pixel
    converter or the destination image cannot be had, AVI_OpenVideo returns
    with [active] set all the same, and with [dst[0]] as it found it. *)
Lemma OpenVideo_image_failure_leaves_active
    (E : open_env) (Avi : movie_state) (filename : option String.string)
    (load_audio : bool) (quiet_arg : Z) :
  holders_fail E filename = false ->
  image_ready E = false ->
  active (AVI_OpenVideo E Avi filename load_audio quiet_arg) = true
  /\ dst0 (AVI_OpenVideo E Avi filename load_audio quiet_arg) = dst0 Avi.
Proof.
  unfold holders_fail, image_ready, AVI_OpenVideo.
  destruct filename as [name|]; [|discriminate].
  destruct (avformat_open_input E name) as [ret0 ctx0]. cbn [fst].
  destruct (ret0 <? 0); cbn [orb]; [discriminate|]. rsimpl.
  destruct (avformat_find_stream_info E <? 0); cbn [orb]; [discriminate|].
  destruct (AVI_OpenCodecContext E NULL AVMEDIA_TYPE_VIDEO) as [ret1 ctx1].
  cbn [fst]. rsimpl.
  destruct (ret1 <? 0); cbn [orb]; [discriminate|].
  destruct (av_packet_alloc_pkt E =? NULL); cbn [orb]; [discriminate|]. rsimpl.
  destruct (av_packet_alloc_pkt_seek E =? NULL); cbn [orb]; [discriminate|]. rsimpl.
  destruct (av_frame_alloc E =? NULL); cbn [orb]; [discriminate|]. rsimpl.
  intros _ Himg.
  destruct (sws_getContext E =? NULL); cbn [negb andb] in Himg.
  - rsimpl. split; reflexivity.
  - destruct (av_image_alloc E) as [[ret2 d0] ls0]. cbn [fst] in Himg.
    apply negb_false_iff in Himg. rewrite Himg. rsimpl. split; reflexivity.
Qed.

(** A successful opening leaves the session active with the destination
    image that av_image_alloc gave. *)
Lemma OpenVideo_image_allocated
    (E : open_env) (Avi : movie_state) (filename : option String.string)
    (load_audio : bool) (quiet_arg : Z) :
  holders_fail E filename = false ->
  image_ready E = true ->
  active (AVI_OpenVideo E Avi filename load_audio quiet_arg) = true
  /\ dst0 (AVI_OpenVideo E Avi filename load_audio quiet_arg)
     = snd (fst (av_image_alloc E)).
Proof.
  unfold holders_fail, image_ready, AVI_OpenVideo.
  destruct filename as [name|]; [|discriminate].
  destruct (avformat_open_input E name) as [ret0 ctx0]. cbn [fst].
  destruct (ret0 <? 0); cbn [orb]; [discriminate|]. rsimpl.
  destruct (avformat_find_stream_info E <? 0); cbn [orb]; [discriminate|].
  destruct (AVI_OpenCodecContext E NULL AVMEDIA_TYPE_VIDEO) as [ret1 ctx1].
  cbn [fst]. rsimpl.
  destruct (ret1 <? 0); cbn [orb]; [discriminate|].
  destruct (av_packet_alloc_pkt E =? NULL); cbn [orb]; [discriminate|]. rsimpl.
  destruct (av_packet_alloc_pkt_seek E =? NULL); cbn [orb]; [discriminate|]. rsimpl.
  destruct (av_frame_alloc E =? NULL); cbn [orb]; [discriminate|]. rsimpl.
  intros _ Himg. apply andb_prop in Himg. destruct Himg as [Hsws Himg].
  apply negb_true_iff in Hsws. apply negb_true_iff in Himg. rewrite Hsws.
  destruct (av_image_alloc E) as [[ret2 d0] ls0]. cbn [fst snd] in *.
  rewrite Himg.
  destruct load_audio.
  - rewrite OpenVideo_audio_active. rsimpl. split; [reflexivity|].
    unfold OpenVideo_audio. rsimpl.
    destruct (AVI_OpenCodecContext E NULL AVMEDIA_TYPE_AUDIO) as [ret3 ctx3].
    rsimpl. destruct (ret3 <? 0); rsimpl; reflexivity.
  - rsimpl. split; reflexivity.
Qed.

(** A null file name, and a file without a usable audio stream. *)
Lemma OpenVideo_failure_states_witness :
  holders_fail Demo.env None = true
  /\ active (AVI_OpenVideo Demo.env Demo.session None true 0) = false
  /\ holders_fail Demo.env_no_audio (Some Demo.movie_name) = false
  /\ image_ready Demo.env_no_audio = true
  /\ fst (AVI_OpenCodecContext Demo.env_no_audio NULL AVMEDIA_TYPE_AUDIO) < 0
  /\ active (AVI_OpenVideo Demo.env_no_audio zero_state (Some Demo.movie_name) true 0)
     = true
  /\ audio_stream
       (AVI_OpenVideo Demo.env_no_audio zero_state (Some Demo.movie_name) true 0) < 0.
Proof.
  destruct (OpenVideo_failure_states Demo.env Demo.session None true 0) as [H1 _].
  destruct (OpenVideo_failure_states Demo.env_no_audio zero_state
              (Some Demo.movie_name) true 0) as [_ H2].
  assert (Ha : holders_fail Demo.env None = true) by reflexivity.
  assert (Hb : holders_fail Demo.env_no_audio (Some Demo.movie_name) = false)
    by (vm_compute; reflexivity).
  assert (Hc : image_ready Demo.env_no_audio = true) by (vm_compute; reflexivity).
  assert (Hd : fst (AVI_OpenCodecContext Demo.env_no_audio NULL AVMEDIA_TYPE_AUDIO) < 0)
    by (vm_compute; reflexivity).
  destruct (H2 Hb Hc eq_refl Hd) as [He Hf].
  repeat split; auto.
Defined.

(** C2, against the claim as written: a file without a usable audio stream,
    opened with audio asked for.  The set-up of the audio decoder fails, and
    the session is left active. *)
Lemma OpenVideo_audio_failure_leaves_active :
  fst (AVI_OpenCodecContext Demo.env_no_audio NULL AVMEDIA_TYPE_AUDIO) < 0
  /\ active (AVI_OpenVideo Demo.env_no_audio zero_state (Some Demo.movie_name) true 0)
     <> false.
Proof.
  split; [vm_compute; reflexivity | vm_compute; discriminate].
Qed.

(** ** A session loaded without its destination image *)

Section LoadedWithoutImage.

Context {codec : Type}.
Variable L : avlib codec.

(** C5, which the code does not keep.  AVI_OpenVideo sets [active] before it
    asks for the pixel converter and the destination image.  When the file,
    its streams and the packet and frame holders are there and one of these
    two is refused, AVI_LoadVideo finds the session active and returns it,
    with the [dst[0]] of the cleared block: a null pointer.  Every
    AVI_GetVideoFrame on this session that ends before the conversion (no
    packet after the seek, the end of the stream, a decoding error, a frame
    whose size or format drifted) returns this null pointer, and the session
    stays as it is: active, without a destination image. *)
Theorem GetVideoFrame_null_on_active_session :
  forall (F : fs_env) (E : open_env) (block : ptr) (st : loader)
         (filename fullpath : String.string) (load_audio : bool)
         (target : Z) (w : avworld codec),
    avi_initialized st = true ->
    block <> NULL ->
    FS_GetDiskPath F (media_path F filename) = Some fullpath ->
    holders_fail E (Some fullpath) = false ->
    image_ready E = false ->
    GetVideoFrame_outcome L
      (AVI_OpenVideo E zero_state (Some fullpath) load_audio 0) target w
    <> Converted ->
    let Avi := AVI_OpenVideo E zero_state (Some fullpath) load_audio 0 in
    let r := AVI_GetVideoFrame L Avi target w in
    AVI_LoadVideo F E block st filename load_audio
    = (block, st <| mempool := (block, Avi) :: mempool st |>)
    /\ fst (AVI_LoadVideo F E block st filename load_audio) <> NULL
    /\ AVI_IsActive (Some Avi) = true
    /\ fst (fst r) = NULL
    /\ AVI_IsActive (Some (snd (fst r))) = true
    /\ dst0 (snd (fst r)) = NULL.
Proof.
  intros F E block st filename fullpath load_audio target w
         Hinit Hblock Hpath Hhold Himg Hout Avi r.
  destruct (OpenVideo_image_failure_leaves_active E zero_state (Some fullpath)
              load_audio 0 Hhold Himg) as [Hact Hdst].
  fold Avi in Hact, Hdst.
  assert (Hload :
    AVI_LoadVideo F E block st filename load_audio
    = (block, st <| mempool := (block, Avi) :: mempool st |>)).
  { unfold AVI_LoadVideo. rewrite Hinit, Hpath. cbn [negb].
    rewrite andb_false_r. fold Avi. cbn [AVI_IsActive]. rewrite Hact.
    reflexivity. }
  destruct (GetVideoFrame_returns_dst0 L Avi target w Hact) as (Hp & Hd & _).
  destruct (GetVideoFrame_session L Avi target w Hact) as (Hact' & _).
  fold r in Hp, Hd. cbv zeta in Hact'. fold r in Hact'.
  split; [exact Hload|]. split; [rewrite Hload; exact Hblock|].
  split; [exact Hact|]. split; [rewrite Hp; exact Hdst|].
  split; [exact Hact'|]. rewrite Hd. exact Hdst.
Qed.

End LoadedWithoutImage.

(** A movie whose pixel converter is refused, and a file that holds sound
    only: AVI_LoadVideo returns the session, and the frame asked of it is a
    null pointer. *)
Lemma GetVideoFrame_null_on_active_session_witness :
  fst (AVI_LoadVideo Samples.disk Samples.env_no_image 49152 Samples.ready
         Samples.clip_name true) = 49152
  /\ GetVideoFrame_outcome Demo.lib
       (AVI_OpenVideo Samples.env_no_image zero_state
          (Some (media_path Samples.disk Samples.clip_name)) true 0)
       1 (Demo.world_of Samples.sound_only) = NoPacket
  /\ AVI_IsActive
       (Some (AVI_OpenVideo Samples.env_no_image zero_state
                (Some (media_path Samples.disk Samples.clip_name)) true 0))
     = true
  /\ fst (fst (AVI_GetVideoFrame Demo.lib
                 (AVI_OpenVideo Samples.env_no_image zero_state
                    (Some (media_path Samples.disk Samples.clip_name)) true 0)
                 1 (Demo.world_of Samples.sound_only))) = NULL.
Proof.
  assert (Hinit : avi_initialized Samples.ready = true) by reflexivity.
  assert (Hblock : 49152 <> NULL) by (vm_compute; discriminate).
  assert (Hpath :
    FS_GetDiskPath Samples.disk (media_path Samples.disk Samples.clip_name)
    = Some (media_path Samples.disk Samples.clip_name)) by reflexivity.
  assert (Hhold :
    holders_fail Samples.env_no_image
      (Some (media_path Samples.disk Samples.clip_name)) = false)
    by (vm_compute; reflexivity).
  assert (Himg : image_ready Samples.env_no_image = false)
    by (vm_compute; reflexivity).
  assert (Hout :
    GetVideoFrame_outcome Demo.lib
      (AVI_OpenVideo Samples.env_no_image zero_state
         (Some (media_path Samples.disk Samples.clip_name)) true 0)
      1 (Demo.world_of Samples.sound_only) = NoPacket)
    by (vm_compute; reflexivity).
  assert (Hnot :
    GetVideoFrame_outcome Demo.lib
      (AVI_OpenVideo Samples.env_no_image zero_state
         (Some (media_path Samples.disk Samples.clip_name)) true 0)
      1 (Demo.world_of Samples.sound_only) <> Converted)
    by (rewrite Hout; discriminate).
  destruct (GetVideoFrame_null_on_active_session Demo.lib Samples.disk
              Samples.env_no_image 49152 Samples.ready Samples.clip_name
              (media_path Samples.disk Samples.clip_name) true 1
              (Demo.world_of Samples.sound_only)
              Hinit Hblock Hpath Hhold Himg Hnot)
    as (Hload & _ & Hact & Hnull & _).
  split; [rewrite Hload; reflexivity|]. split; [exact Hout|].
  split; [exact Hact | exact Hnull].
Defined.

(** ** The refill of the audio cache *)

Lemma to_int_idem (z : Z) : to_int (to_int z) = to_int z.
Proof. apply to_int_id, to_int_range. Qed.

Lemma realloc_block_length (block : list byte) (size : Z) :
  length (realloc_block block size) = Z.to_nat size.
Proof.
  unfold realloc_block. rewrite length_app, length_firstn, repeat_length. lia.
Qed.

Lemma store_at_start (block bytes : list byte) :
  (length bytes <= length block)%nat ->
  store block 0 bytes = bytes ++ skipn (length bytes) block.
Proof.
  intros H. unfold store. cbn [Z.to_nat firstn app Nat.add].
  rewrite Nat.sub_0_r, firstn_all2 by exact H. reflexivity.
Qed.

Section RefillFacts.

Context {codec : Type}.
Variable L : avlib codec.

(** C9.  In a round of the refill in which the decoded frame does not fit
    into what is left of the cache's capacity: when the cache holds bytes
    already, the round ends the loop and neither the session (so neither the
    cache's length nor its address) nor the cache block changes; when the
    cache is empty, the block is reallocated to twice the size of the frame,
    so that the frame fits, and the frame's bytes are stored at its start,
    the cache's length becoming the size of the frame. *)
Theorem refill_round_overflow :
  forall (bytes_per_sample : Z) (Avi : movie_state) (w : avworld codec)
         (ret : Z) (ctx : codec) (fr : AVFrame),
    AVI_DecodePacket L (audio_dec w) (pkt_obj w) (frame_obj w) = (ret, ctx, fr) ->
    0 <= ret ->
    to_int (cached_audio_len Avi + to_int (nb_samples fr * bytes_per_sample))
      > cached_audio_buf_len Avi ->
    (cached_audio_len Avi <> 0 ->
     fst (refill_round L bytes_per_sample Avi w) = (LoopBreak, Avi)
     /\ cache_block (snd (refill_round L bytes_per_sample Avi w)) = cache_block w)
    /\ (cached_audio_len Avi = 0 ->
        0 <= cached_audio_buf_len Avi ->
        let size := to_int (nb_samples fr * bytes_per_sample) in
        let bytes := firstn (Z.to_nat size) (swr_convert L fr) in
        let r := refill_round L bytes_per_sample Avi w in
        fst (fst r) <> LoopReturn0
        /\ length (cache_block (snd r)) = Z.to_nat (2 * size)
        /\ (length bytes <= length (cache_block (snd r)))%nat
        /\ firstn (length bytes) (cache_block (snd r)) = bytes
        /\ cached_audio_len (snd (fst r)) = size
        /\ cached_audio (snd (fst r)) = Mem_Realloc L (cached_audio Avi) (2 * size)).
Proof.
  intros bps Avi w ret ctx fr Hdec Hret Hover.
  unfold refill_round. rewrite Hdec.
  assert ((ret <? 0) = false) as -> by lia.
  rsimpl.
  set (size := to_int (nb_samples fr * bps)) in *.
  assert ((to_int (cached_audio_len Avi + size) >? cached_audio_buf_len Avi) = true)
    as -> by lia.
  cbn [andb].
  split.
  - intros Hlen.
    assert ((cached_audio_len Avi =? 0) = false) as -> by lia.
    cbn [negb fst snd]. rsimpl. split; reflexivity.
  - intros Hlen Hcap. cbv zeta. rsimpl.
    rewrite Hlen in *. cbn [Z.eqb negb].
    set (bytes := firstn (Z.to_nat size) (swr_convert L fr)).
    replace (0 + size) with size in * by lia.
    assert (Hsize : to_int size = size) by apply to_int_idem.
    rewrite Hsize in *.
    pose proof (to_int_range (nb_samples fr * bps)) as Hr.
    fold size in Hr. unfold in_int, INT_MAX, INT_MIN in Hr.
    assert (Hnew : to_size_t (to_size_t size * 2) = 2 * size).
    { rewrite (to_size_t_id size) by lia. rewrite to_size_t_id by lia. lia. }
    rewrite Hnew. rsimpl.
    assert (Hfit : (length bytes
                    <= length (realloc_block (cache_block w) (2 * size)))%nat).
    { rewrite realloc_block_length. subst bytes. rewrite length_firstn. lia. }
    rewrite (store_at_start _ _ Hfit).
    assert (Hblock :
      length (bytes ++ skipn (length bytes) (realloc_block (cache_block w) (2 * size)))
      = Z.to_nat (2 * size)).
    { rewrite length_app, length_skipn, realloc_block_length.
      rewrite realloc_block_length in Hfit. lia. }
    assert (Hhead :
      firstn (length bytes)
        (bytes ++ skipn (length bytes) (realloc_block (cache_block w) (2 * size)))
      = bytes).
    { rewrite firstn_app, Nat.sub_diag, firstn_all. cbn [firstn].
      apply app_nil_r. }
    destruct (to_int (size + cached_audio_off Avi) >=? audio_eof_position Avi).
    + cbn [fst snd]. rsimpl.
      repeat split; try assumption; try reflexivity; try discriminate.
      rewrite Hblock. rewrite realloc_block_length in Hfit. exact Hfit.
    + destruct (next_audio_packet (audio_stream Avi) (cursor w))
        as [[[ret' valid] p] cur].
      rsimpl.
      destruct valid, (ret' =? AVERROR_EOF); cbn [orb negb fst snd]; rsimpl;
        (repeat split; try assumption; try reflexivity; try discriminate;
         rewrite Hblock; rewrite realloc_block_length in Hfit; exact Hfit).
Qed.

End RefillFacts.

(** A frame of 12000 bytes, met with a full cache and with an empty one. *)
Lemma refill_round_overflow_witness :
  AVI_DecodePacket Demo.lib (audio_dec Demo.loaded_world)
    (pkt_obj Demo.loaded_world) (frame_obj Demo.loaded_world)
  = (0, Demo.fresh_codec, Demo.frame_of (Demo.apkt 0 3000))
  /\ fst (refill_round Demo.lib 4 Demo.full_session Demo.loaded_world)
     = (LoopBreak, Demo.full_session)
  /\ cache_block (snd (refill_round Demo.lib 4 Demo.full_session Demo.loaded_world))
     = cache_block Demo.loaded_world
  /\ length (cache_block (snd (refill_round Demo.lib 4 Demo.session Demo.loaded_world)))
     = Z.to_nat 24000
  /\ cached_audio_len (snd (fst (refill_round Demo.lib 4 Demo.session Demo.loaded_world)))
     = 12000.
Proof.
  assert (Hdec :
    AVI_DecodePacket Demo.lib (audio_dec Demo.loaded_world)
      (pkt_obj Demo.loaded_world) (frame_obj Demo.loaded_world)
    = (0, Demo.fresh_codec, Demo.frame_of (Demo.apkt 0 3000)))
    by (vm_compute; reflexivity).
  assert (Hfull :
    to_int (cached_audio_len Demo.full_session
            + to_int (nb_samples (Demo.frame_of (Demo.apkt 0 3000)) * 4))
    > cached_audio_buf_len Demo.full_session) by (vm_compute; reflexivity).
  assert (Hempty :
    to_int (cached_audio_len Demo.session
            + to_int (nb_samples (Demo.frame_of (Demo.apkt 0 3000)) * 4))
    > cached_audio_buf_len Demo.session) by (vm_compute; reflexivity).
  destruct (refill_round_overflow Demo.lib 4 Demo.full_session Demo.loaded_world
              0 _ _ Hdec (Z.le_refl 0) Hfull) as [Hstop _].
  destruct (refill_round_overflow Demo.lib 4 Demo.session Demo.loaded_world
              0 _ _ Hdec (Z.le_refl 0) Hempty) as [_ Hgrow].
  assert (Hlen : cached_audio_len Demo.full_session <> 0)
    by (vm_compute; discriminate).
  assert (Hlen0 : cached_audio_len Demo.session = 0) by (vm_compute; reflexivity).
  assert (Hcap : 0 <= cached_audio_buf_len Demo.session) by (vm_compute; discriminate).
  destruct (Hstop Hlen) as [Hs1 Hs2].
  destruct (Hgrow Hlen0 Hcap) as (_ & Hg1 & _ & _ & Hg2 & _).
  split; [exact Hdec|]. split; [exact Hs1|]. split; [exact Hs2|].
  split; [exact Hg1 | exact Hg2].
Defined.

(** ** Audio chunks *)

Section ChunkFacts.

Context {codec : Type}.
Variable L : avlib codec.

Lemma memcpy_copies (m : memory) (d : Z) (src : list byte) (s n i : Z) :
  0 <= i < n ->
  memcpy m d src s n (d + i) = nth (Z.to_nat (s + i)) src x00.
Proof.
  intros Hi. unfold memcpy.
  assert ((d <=? d + i) && (d + i <? d + n) = true) as -> by lia.
  f_equal. f_equal. lia.
Qed.

(** The helper, on a request that the cache holds in full. *)
Lemma GetAudioChunkFromCache_covered (Avi : movie_state) (w : avworld codec)
    (out : memory) (audiodata pos len : Z) :
  in_int (cached_audio_len Avi) ->
  0 <= pos -> 0 < len ->
  pos + len <= cached_audio_len Avi ->
  AVI_GetAudioChunkFromCache Avi w out audiodata pos len
  = (0, memcpy out audiodata (cache_block w) pos len).
Proof.
  unfold in_int, INT_MIN, INT_MAX. intros Hr Hpos Hlen Hfit.
  unfold AVI_GetAudioChunkFromCache.
  rewrite (to_int_id (pos + len)) by (unfold in_int, INT_MIN, INT_MAX; lia).
  rewrite (to_int_id (pos + len - cached_audio_len Avi))
    by (unfold in_int, INT_MIN, INT_MAX; lia).
  destruct (pos + len - cached_audio_len Avi <? 0) eqn:E; [reflexivity|].
  assert (Heq : cached_audio_len Avi - pos = len) by lia.
  rewrite Heq, (to_int_id len) by (unfold in_int, INT_MIN, INT_MAX; lia).
  assert ((len >? 0) = true) as -> by lia.
  f_equal. lia.
Qed.


End ChunkFacts.



Section ChunkRange.

Context {codec : Type}.
Variable L : avlib codec.

Lemma GetAudioChunkFromCache_nonneg (Avi : movie_state) (w : avworld codec)
    (out : memory) (audiodata pos len : Z) :
  0 <= fst (AVI_GetAudioChunkFromCache Avi w out audiodata pos len).
Proof.
  unfold AVI_GetAudioChunkFromCache.
  destruct (to_int (to_int (pos + len) - cached_audio_len Avi) <? 0) eqn:E;
    cbn [fst]; lia.
Qed.

(** The length with which the call goes on after the cache was consulted is
    at most the one asked for. *)
Lemma GetAudioChunk_cache_length (Avi : movie_state) (w : avworld codec)
    (out : memory) (audiodata offset length : Z) :
  0 <= length -> in_int length ->
  match GetAudioChunk_cache Avi w out audiodata offset length with
  | CacheReturn ret _ => ret = length
  | CacheGoOn _ _ _ length' => 0 <= length' <= length
  end.
Proof.
  intros H0 Hr. unfold GetAudioChunk_cache.
  destruct (have_audio_cache Avi && (offset >=? cached_audio_off Avi)); [|lia].
  pose proof (GetAudioChunkFromCache_nonneg Avi w out audiodata
                (to_int (offset - cached_audio_off Avi)) length) as Hn.
  destruct (AVI_GetAudioChunkFromCache Avi w out audiodata
              (to_int (offset - cached_audio_off Avi)) length) as [newlen out'].
  cbn [fst] in Hn.
  destruct (newlen >=? length) eqn:E1; [lia|].
  destruct (newlen =? 0) eqn:E2; [reflexivity|].
  destruct (newlen <? length) eqn:E3; [|lia].
  rewrite to_int_id; unfold in_int, INT_MIN, INT_MAX in *; lia.
Qed.

Lemma GetAudioChunk_pass_length (fuel : nat) (Avi : movie_state)
    (w : avworld codec) (out : memory) (audiodata offset length : Z) :
  0 <= length -> in_int length ->
  match GetAudioChunk_pass L fuel Avi w out audiodata offset length with
  | PassReturn r => 0 <= fst (fst (fst r)) <= length
  | PassRetry _ _ _ _ length' => 0 <= length' <= length
  | PassLoops => True
  end.
Proof.
  intros H0 Hr. unfold GetAudioChunk_pass.
  pose proof (GetAudioChunk_cache_length Avi w out audiodata offset length H0 Hr) as Hc.
  destruct (GetAudioChunk_cache Avi w out audiodata offset length)
    as [ret out'|Avi' out' audiodata' length'].
  - cbn [fst]. lia.
  - destruct (GetAudioChunk_seek L Avi' w offset) as [[Avi''|] w'].
    + destruct (refill L fuel (audio_bytes_per_sample L Avi'') Avi'' w')
        as [[[how Avi3] w3]|]; [|exact I].
      destruct how; try (cbn [fst]; lia);
        destruct (cached_audio_len Avi3 =? 0); cbn [fst]; lia.
    + cbn [fst]. lia.
Qed.


End ChunkRange.



(** ** The call of AVI_GetAudioChunk to itself *)

Section RetryFacts.

Context {codec : Type}.
Variable L : avlib codec.

(** What a refill gives does not depend on the fuel that sufficed. *)
Lemma refill_det (fuel : nat) :
  forall (fuel' : nat) (bps : Z) (Avi : movie_state) (w : avworld codec) r r',
    refill L fuel bps Avi w = Some r ->
    refill L fuel' bps Avi w = Some r' ->
    r = r'.
Proof.
  induction fuel as [|fuel IH]; intros fuel' bps Avi w r r' H H'; [discriminate|].
  destruct fuel' as [|fuel']; [discriminate|].
  cbn [refill] in H, H'.
  destruct (refill_round L bps Avi w) as [[how Avi1] w1].
  destruct how; try congruence.
  exact (IH fuel' bps Avi1 w1 r r' H H').
Qed.

Lemma GetAudioChunk_pass_det (fuel fuel' : nat) (Avi : movie_state)
    (w : avworld codec) (out : memory) (audiodata offset length : Z) :
  GetAudioChunk_pass L fuel Avi w out audiodata offset length = PassLoops
  \/ GetAudioChunk_pass L fuel' Avi w out audiodata offset length = PassLoops
  \/ GetAudioChunk_pass L fuel Avi w out audiodata offset length
     = GetAudioChunk_pass L fuel' Avi w out audiodata offset length.
Proof.
  unfold GetAudioChunk_pass.
  destruct (GetAudioChunk_cache Avi w out audiodata offset length)
    as [ret out'|Avi' out' audiodata' length']; [right; right; reflexivity|].
  destruct (GetAudioChunk_seek L Avi' w offset) as [[Avi''|] w'];
    [|right; right; reflexivity].
  destruct (refill L fuel (audio_bytes_per_sample L Avi'') Avi'' w') as [r|] eqn:E;
    [|left; reflexivity].
  destruct (refill L fuel' (audio_bytes_per_sample L Avi'') Avi'' w') as [r'|] eqn:E';
    [|right; left; reflexivity].
  rewrite (refill_det _ _ _ _ _ _ _ E E'). right; right; reflexivity.
Qed.

(** A pass that leads back to the session and the world it started from,
    whatever the caller's memory: the call never returns. *)
Lemma GetAudioChunk_loops (Avi : movie_state) (w : avworld codec)
    (audiodata offset length : Z) (fuel0 : nat) :
  (forall out,
      pass_retry (GetAudioChunk_pass L fuel0 Avi w out audiodata offset length)
      = Some (Avi, w, audiodata, length)) ->
  forall fuel out,
    AVI_GetAudioChunk L fuel Avi w out audiodata offset length = None.
Proof.
  intros Hloop fuel. induction fuel as [|fuel IH]; intros out; [reflexivity|].
  cbn [AVI_GetAudioChunk].
  specialize (Hloop out).
  destruct (GetAudioChunk_pass_det fuel fuel0 Avi w out audiodata offset length)
    as [H|[H|H]].
  - rewrite H. reflexivity.
  - rewrite H in Hloop. discriminate.
  - rewrite H.
    destruct (GetAudioChunk_pass L fuel0 Avi w out audiodata offset length);
      try discriminate.
    cbn [pass_retry] in Hloop. inversion Hloop; subst. apply IH.
Qed.

(** The same, for a call that gets into such a state with its first pass. *)
Lemma GetAudioChunk_runs_into_loop (Avi : movie_state) (w : avworld codec)
    (out : memory) (audiodata offset length : Z)
    (Avi' : movie_state) (w' : avworld codec) (audiodata' length' : Z)
    (fuel0 : nat) :
  pass_retry (GetAudioChunk_pass L fuel0 Avi w out audiodata offset length)
  = Some (Avi', w', audiodata', length') ->
  (forall out',
      pass_retry (GetAudioChunk_pass L fuel0 Avi' w' out' audiodata' offset length')
      = Some (Avi', w', audiodata', length')) ->
  forall fuel,
    AVI_GetAudioChunk L fuel Avi w out audiodata offset length = None.
Proof.
  intros Hfirst Hloop [|fuel]; [reflexivity|].
  cbn [AVI_GetAudioChunk].
  destruct (GetAudioChunk_pass_det fuel fuel0 Avi w out audiodata offset length)
    as [H|[H|H]].
  - rewrite H. reflexivity.
  - rewrite H in Hfirst. discriminate.
  - rewrite H.
    destruct (GetAudioChunk_pass L fuel0 Avi w out audiodata offset length);
      try discriminate.
    cbn [pass_retry] in Hfirst. inversion Hfirst; subst.
    apply (GetAudioChunk_loops _ _ _ _ _ fuel0 Hloop).
Qed.

End RetryFacts.

(** C4, on the code.  A request for 100 bytes at offset 20000 of a sound track
    with nothing between the bytes 4096 and 40000.  The seek gives the packet
    at 0, the refill stops when the cache is full, at byte 8192, short of the
    offset asked for; the call to itself finds a cache that does not reach
    the offset, seeks and refills again, and is where it was: for no amount
    of fuel does the call return. *)
Theorem GetAudioChunk_gap_never_returns :
  forall fuel : nat,
    AVI_GetAudioChunk Demo.lib fuel Demo.session
      (Demo.world_of Demo.movie_with_gap) Demo.silence 0 20000 100 = None.
Proof.
  apply (GetAudioChunk_runs_into_loop Demo.lib _ _ _ _ _ _
           Demo.gap_session Demo.gap_world 0 100 8).
  - vm_compute. reflexivity.
  - intros out'. vm_compute. reflexivity.
Qed.

(** A request for no bytes fares no better, even when the cache holds its
    offset: with [length] 0 the test [newlen >= length] holds, the cache is
    dropped and refilled, and the function calls itself with the same
    arguments. *)
Lemma GetAudioChunk_empty_request_never_returns :
  cache_covers Demo.warm_session 4000 0
  /\ forall fuel : nat,
       AVI_GetAudioChunk Demo.lib fuel Demo.warm_session Demo.warm_world
         Demo.silence 0 4000 0 = None.
Proof.
  split; [repeat split; vm_compute; congruence|].
  apply (GetAudioChunk_runs_into_loop Demo.lib _ _ _ _ _ _
           Demo.empty_session Demo.empty_world 0 0 8).
  - vm_compute. reflexivity.
  - intros out'. vm_compute. reflexivity.
Qed.

(** ** The end-of-audio position *)

Section SentinelFacts.

Context {codec : Type}.
Variable L : avlib codec.
Variable draining : codec -> bool.
Hypothesis contract : drain_contract L draining.

Lemma DecodePacket_draining (d : codec) (p : AVPacket) (fr : AVFrame) :
  draining d = true ->
  fst (fst (AVI_DecodePacket L d p fr)) < 0
  /\ draining (snd (fst (AVI_DecodePacket L d p fr))) = true.
Proof.
  intros Hd. unfold AVI_DecodePacket.
  pose proof (draining_refuses L draining contract d p Hd) as Hret.
  pose proof (draining_after_send L draining contract d p Hd) as Hd'.
  destruct (avcodec_send_packet L d p) as [ret d']. cbn [fst snd] in *.
  assert ((ret <? 0) = true) as -> by lia.
  cbn [fst snd]. split; assumption.
Qed.

Lemma DecodePacket_blank (d : codec) (p : AVPacket) (fr : AVFrame) :
  is_blank p = true ->
  draining (snd (fst (AVI_DecodePacket L d p fr))) = true.
Proof.
  intros Hb. unfold AVI_DecodePacket.
  pose proof (blank_starts_draining L draining contract d p Hb) as Hd'.
  destruct (avcodec_send_packet L d p) as [ret d']. cbn [fst snd] in *.
  destruct (ret <? 0); [exact Hd'|].
  pose proof (draining_after_receive L draining contract d' Hd') as Hd''.
  destruct (avcodec_receive_frame L d') as [[ret' fr'] d''].
  cbn [fst snd] in *. destruct (ret' <? 0); exact Hd''.
Qed.

Lemma next_audio_packet_cases (stream : Z) (cur : list AVPacket) :
  (exists rest, next_audio_packet stream cur = (AVERROR_EOF, false, blank_packet, rest))
  \/ (exists q rest, next_audio_packet stream cur = (0, true, q, rest)).
Proof.
  induction cur as [|q rest IH]; cbn [next_audio_packet].
  - left. exists []. reflexivity.
  - destruct (negb (stream_index q =? stream)); [exact IH|].
    right. exists q, rest. reflexivity.
Qed.

(** One round of the refill: the decoder state comes from AVI_DecodePacket,
    and the round changes the end-of-audio position only when it goes round
    again with a blank current packet. *)
Lemma refill_round_inv (bps : Z) (Avi : movie_state) (w : avworld codec) :
  let r := refill_round L bps Avi w in
  audio_dec (snd r)
  = snd (fst (AVI_DecodePacket L (audio_dec w) (pkt_obj w) (frame_obj w)))
  /\ (fst (fst (AVI_DecodePacket L (audio_dec w) (pkt_obj w) (frame_obj w))) < 0 ->
      fst r = (LoopReturn0, Avi))
  /\ (audio_eof_position (snd (fst r)) = audio_eof_position Avi
      \/ (fst (fst r) = LoopAgain /\ is_blank (pkt_obj (snd r)) = true)).
Proof.
  cbv zeta. unfold refill_round.
  destruct (AVI_DecodePacket L (audio_dec w) (pkt_obj w) (frame_obj w))
    as [[ret ctx] fr].
  cbn [fst snd]. rsimpl.
  destruct (ret <? 0) eqn:Eret.
  { cbn [fst snd]. rsimpl. repeat split; auto. }
  set (size := to_int (nb_samples fr * bps)).
  destruct ((to_int (cached_audio_len Avi + size) >? cached_audio_buf_len Avi)
            && negb (cached_audio_len Avi =? 0)).
  { cbn [fst snd]. rsimpl. repeat split; auto. lia. }
  destruct (to_int (cached_audio_len Avi + size) >? cached_audio_buf_len Avi);
    rsimpl.
  - destruct (to_int (to_int (cached_audio_len Avi + size) + cached_audio_off Avi)
              >=? audio_eof_position Avi).
    { cbn [fst snd]. rsimpl. repeat split; auto. lia. }
    destruct (next_audio_packet_cases (audio_stream Avi) (cursor w))
      as [[rest ->]|[q [rest ->]]]; cbn [orb negb fst snd Z.eqb]; rsimpl.
    + repeat split; auto; try lia; right; split; reflexivity.
    + replace (0 =? AVERROR_EOF) with false by reflexivity.
      cbn [orb fst snd]. rsimpl. repeat split; auto. lia.
  - destruct (to_int (to_int (cached_audio_len Avi + size) + cached_audio_off Avi)
              >=? audio_eof_position Avi).
    { cbn [fst snd]. rsimpl. repeat split; auto. lia. }
    destruct (next_audio_packet_cases (audio_stream Avi) (cursor w))
      as [[rest ->]|[q [rest ->]]]; cbn [orb negb fst snd Z.eqb]; rsimpl.
    + repeat split; auto; try lia; right; split; reflexivity.
    + replace (0 =? AVERROR_EOF) with false by reflexivity.
      cbn [orb fst snd]. rsimpl. repeat split; auto. lia.
Qed.

(** A refill that starts with a draining decoder ends at once. *)
Lemma refill_draining (fuel : nat) (bps : Z) (Avi : movie_state)
    (w : avworld codec) r :
  draining (audio_dec w) = true ->
  refill L fuel bps Avi w = Some r ->
  snd (fst r) = Avi /\ draining (audio_dec (snd r)) = true.
Proof.
  intros Hd Hrun. destruct fuel as [|fuel]; [discriminate|].
  cbn [refill] in Hrun.
  destruct (refill_round_inv bps Avi w) as (Hdec & Hfail & _). cbv zeta in *.
  destruct (DecodePacket_draining (audio_dec w) (pkt_obj w) (frame_obj w) Hd)
    as [Hneg Hd'].
  specialize (Hfail Hneg). rewrite <- Hdec in Hd'.
  destruct (refill_round L bps Avi w) as [[how Avi1] w1].
  cbn [fst snd] in *. inversion Hfail; subst how Avi1.
  inversion Hrun; subst r. cbn [fst snd]. split; [reflexivity | exact Hd'].
Qed.

(** A refill that starts with a blank current packet leaves the decoder
    draining. *)
Lemma refill_blank (fuel : nat) (bps : Z) (Avi : movie_state)
    (w : avworld codec) r :
  is_blank (pkt_obj w) = true ->
  refill L fuel bps Avi w = Some r ->
  draining (audio_dec (snd r)) = true.
Proof.
  intros Hb Hrun. destruct fuel as [|fuel]; [discriminate|].
  cbn [refill] in Hrun.
  destruct (refill_round_inv bps Avi w) as (Hdec & _ & _). cbv zeta in *.
  pose proof (DecodePacket_blank (audio_dec w) (pkt_obj w) (frame_obj w) Hb) as Hd.
  rewrite <- Hdec in Hd.
  destruct (refill_round L bps Avi w) as [[how Avi1] w1]. cbn [fst snd] in *.
  destruct how; try (inversion Hrun; subst r; exact Hd).
  exact (proj2 (refill_draining fuel bps Avi1 w1 r Hd Hrun)).
Qed.

(** A refill leaves the end-of-audio position as it was, or the decoder
    draining. *)
Lemma refill_sentinel (fuel : nat) :
  forall (bps : Z) (Avi : movie_state) (w : avworld codec) r,
    refill L fuel bps Avi w = Some r ->
    audio_eof_position (snd (fst r)) = audio_eof_position Avi
    \/ draining (audio_dec (snd r)) = true.
Proof.
  induction fuel as [|fuel IH]; intros bps Avi w r Hrun; [discriminate|].
  cbn [refill] in Hrun.
  destruct (refill_round_inv bps Avi w) as (_ & _ & Heof). cbv zeta in *.
  destruct (refill_round L bps Avi w) as [[how Avi1] w1]. cbn [fst snd] in *.
  destruct Heof as [Heof|[Hhow Hb]].
  - destruct how; try (inversion Hrun; subst r; left; exact Heof).
    destruct (IH bps Avi1 w1 r Hrun) as [H|H]; [left; congruence | right; exact H].
  - subst how. right. exact (refill_blank fuel bps Avi1 w1 r Hb Hrun).
Qed.

Lemma SeekAudio_audio_dec (Avi : movie_state) (ts : Z) (w : avworld codec) :
  audio_dec (snd (AVI_SeekAudio L Avi ts w)) = audio_dec w.
Proof.
  unfold AVI_SeekAudio.
  destruct (avformat_seek_file L (file w) (cursor w) (audio_stream Avi)
              INT64_MIN ts ts AVSEEK_FLAG_ANY) as [ret cur].
  destruct ((ret <? 0) && (ret =? AVERROR_EOF)); [reflexivity|].
  rsimpl.
  destruct (SeekAudio_scan (audio_stream Avi) ts cur false (pkt_obj w))
    as [[valid p] cur'].
  destruct (negb valid); reflexivity.
Qed.

Lemma GetAudioChunk_seek_inv (Avi : movie_state) (w : avworld codec) (offset : Z) :
  audio_dec (snd (GetAudioChunk_seek L Avi w offset)) = audio_dec w
  /\ forall Avi1, fst (GetAudioChunk_seek L Avi w offset) = Some Avi1 ->
                  audio_eof_position Avi1 = audio_eof_position Avi.
Proof.
  unfold GetAudioChunk_seek.
  pose proof (SeekAudio_audio_dec Avi
    (AVI_AudioOffsetToTimestamp L offset (audio_bytes_per_sample L Avi)
       (rate Avi) (stream_time_base L (audio_stream Avi))) w) as Hd.
  destruct (AVI_SeekAudio L Avi _ w) as [ret w1]. cbn [snd] in Hd.
  destruct (ret <? 0); cbn [fst snd].
  - split; [exact Hd | discriminate].
  - split; [exact Hd|]. intros Avi1 H. inversion H. reflexivity.
Qed.

Lemma GetAudioChunk_cache_inv (Avi : movie_state) (w : avworld codec)
    (out : memory) (audiodata offset length : Z) :
  match GetAudioChunk_cache Avi w out audiodata offset length with
  | CacheReturn _ _ => True
  | CacheGoOn Avi' _ _ _ => audio_eof_position Avi' = audio_eof_position Avi
  end.
Proof.
  unfold GetAudioChunk_cache.
  destruct (have_audio_cache Avi && (offset >=? cached_audio_off Avi));
    [|reflexivity].
  destruct (AVI_GetAudioChunkFromCache Avi w out audiodata _ length)
    as [newlen out'].
  destruct (newlen >=? length); [reflexivity|].
  destruct (newlen =? 0); [exact I|].
  destruct (newlen <? length); reflexivity.
Qed.

Lemma GetAudioChunk_pass_sentinel (fuel : nat) (Avi : movie_state)
    (w : avworld codec) (out : memory) (audiodata offset length : Z) :
  let st := pass_state (GetAudioChunk_pass L fuel Avi w out audiodata offset length)
              Avi w in
  (audio_eof_position (fst st) = audio_eof_position Avi
   \/ draining (audio_dec (snd st)) = true)
  /\ (draining (audio_dec w) = true ->
      audio_eof_position (fst st) = audio_eof_position Avi
      /\ draining (audio_dec (snd st)) = true).
Proof.
  cbv zeta. unfold GetAudioChunk_pass.
  pose proof (GetAudioChunk_cache_inv Avi w out audiodata offset length) as Hc.
  destruct (GetAudioChunk_cache Avi w out audiodata offset length)
    as [ret out'|Avi' out' audiodata' length'].
  { cbn [pass_state fst snd]. split; [left; reflexivity | intros H; split; auto]. }
  destruct (GetAudioChunk_seek_inv Avi' w offset) as [Hd He].
  destruct (GetAudioChunk_seek L Avi' w offset) as [[Avi1|] w1]; cbn [fst snd] in *.
  2:{ cbn [pass_state fst snd]. rewrite Hd.
      split; [left; exact Hc | intros H; split; auto]. }
  specialize (He Avi1 eq_refl).
  destruct (refill L fuel (audio_bytes_per_sample L Avi1) Avi1 w1)
    as [[[how Avi2] w2]|] eqn:Efill.
  2:{ cbn [pass_state fst snd]. split; [left; reflexivity | intros H; split; auto]. }
  pose proof (refill_sentinel _ _ _ _ _ Efill) as Hs. cbn [fst snd] in Hs.
  assert (Hgoal :
    (audio_eof_position Avi2 = audio_eof_position Avi
     \/ draining (audio_dec w2) = true)
    /\ (draining (audio_dec w) = true ->
        audio_eof_position Avi2 = audio_eof_position Avi
        /\ draining (audio_dec w2) = true)).
  { split.
    - destruct Hs as [Hs|Hs]; [left; congruence | right; exact Hs].
    - intros H. rewrite <- Hd in H.
      destruct (refill_draining _ _ _ _ _ H Efill) as [HA HD].
      cbn [fst snd] in HA, HD. subst Avi2. split; [congruence | exact HD]. }
  destruct how; try destruct (cached_audio_len Avi2 =? 0);
    cbn [pass_state fst snd]; exact Hgoal.
Qed.

Lemma GetAudioChunk_sentinel (fuel : nat) :
  forall (Avi : movie_state) (w : avworld codec) (out : memory)
         (audiodata offset length : Z) v Avi' w' out',
    AVI_GetAudioChunk L fuel Avi w out audiodata offset length
    = Some (v, Avi', w', out') ->
    (audio_eof_position Avi' = audio_eof_position Avi
     \/ draining (audio_dec w') = true)
    /\ (draining (audio_dec w) = true ->
        audio_eof_position Avi' = audio_eof_position Avi
        /\ draining (audio_dec w') = true).
Proof.
  induction fuel as [|fuel IH];
    intros Avi w out audiodata offset length v Avi' w' out' Hrun; [discriminate|].
  cbn [AVI_GetAudioChunk] in Hrun.
  pose proof (GetAudioChunk_pass_sentinel fuel Avi w out audiodata offset length)
    as Hp. cbv zeta in Hp.
  destruct (GetAudioChunk_pass L fuel Avi w out audiodata offset length)
    as [[[[v1 Avi1] w1] out1]|Avi1 w1 out1 audiodata1 length1|];
    cbn [pass_state fst snd] in Hp.
  - inversion Hrun; subst. exact Hp.
  - destruct (IH _ _ _ _ _ _ _ _ _ _ Hrun) as [H1 H2].
    destruct Hp as [Hp1 Hp2]. split.
    + destruct Hp1 as [Hp1|Hp1].
      * destruct H1 as [H1|H1]; [left; congruence | right; exact H1].
      * right. exact (proj2 (H2 Hp1)).
    + intros Hd. destruct (Hp2 Hd) as [Ha Hb]. destruct (H2 Hb) as [Hc Hd'].
      split; [congruence | exact Hd'].
  - discriminate.
Qed.

Lemma retrieve_sentinel (fuel : nat) (op : retrieval)
    (Avi : movie_state) (w : avworld codec) (out : memory)
    (Avi' : movie_state) (w' : avworld codec) (out' : memory) :
  draining (audio_dec w) = true ->
  retrieve L fuel op (Avi, w, out) = Some (Avi', w', out') ->
  audio_eof_position Avi' = audio_eof_position Avi
  /\ draining (audio_dec w') = true.
Proof.
  intros Hd Hrun. destruct op as [audiodata offset length|target];
    cbn [retrieve] in Hrun.
  - destruct (AVI_GetAudioChunk L fuel Avi w out audiodata offset length)
      as [[[[v Avi1] w1] out1]|] eqn:E; [|discriminate].
    inversion Hrun; subst.
    exact (proj2 (GetAudioChunk_sentinel fuel _ _ _ _ _ _ _ _ _ _ E) Hd).
  - destruct (active Avi) eqn:Hact.
    + destruct (GetVideoFrame_inv L Avi target w Hact) as (_ & _ & _ & Ha & _).
      destruct (GetVideoFrame_session L Avi target w Hact) as (_ & _ & _ & _ & _ & He).
      cbv zeta in Ha, He.
      destruct (AVI_GetVideoFrame L Avi target w) as [[p Avi1] w1].
      cbn [fst snd] in *. inversion Hrun; subst.
      split; [exact He | rewrite Ha; exact Hd].
    + unfold AVI_GetVideoFrame in Hrun. rewrite Hact in Hrun.
      cbn [negb] in Hrun. inversion Hrun; subst. split; [reflexivity | exact Hd].
Qed.

Lemma retrieve_all_sentinel (fuel : nat) (ops : list retrieval) :
  forall (Avi : movie_state) (w : avworld codec) (out : memory)
         (Avi' : movie_state) (w' : avworld codec) (out' : memory),
    draining (audio_dec w) = true ->
    retrieve_all L fuel ops (Avi, w, out) = Some (Avi', w', out') ->
    audio_eof_position Avi' = audio_eof_position Avi.
Proof.
  induction ops as [|op ops IH]; intros Avi w out Avi' w' out' Hd Hrun;
    cbn [retrieve_all] in Hrun.
  - inversion Hrun. reflexivity.
  - destruct (retrieve L fuel op (Avi, w, out)) as [[[Avi1 w1] out1]|] eqn:E;
      [|discriminate].
    destruct (retrieve_sentinel _ _ _ _ _ _ _ _ Hd E) as [He Hd1].
    rewrite <- He. exact (IH _ _ _ _ _ _ Hd1 Hrun).
Qed.

(** C8.  With a decoder that keeps libavcodec's contract on draining: once a
    call of AVI_GetAudioChunk has set the end-of-audio position (which it
    does when reading runs into the end of the file), no sequence of later
    calls of AVI_GetAudioChunk and AVI_GetVideoFrame brings it below that
    value.  (The refill sends the blank packet to the decoder right after
    setting the position; the decoder is draining from then on, and no later
    refill gets as far as the assignment.) *)
Theorem audio_eof_position_never_decreases :
  forall (fuel : nat) (Avi : movie_state) (w : avworld codec) (out : memory)
         (audiodata offset length v : Z)
         (Avi1 : movie_state) (w1 : avworld codec) (out1 : memory),
    AVI_GetAudioChunk L fuel Avi w out audiodata offset length
    = Some (v, Avi1, w1, out1) ->
    audio_eof_position Avi1 <> audio_eof_position Avi ->
    forall (fuel' : nat) (ops : list retrieval)
           (Avi' : movie_state) (w' : avworld codec) (out' : memory),
      retrieve_all L fuel' ops (Avi1, w1, out1) = Some (Avi', w', out') ->
      audio_eof_position Avi1 <= audio_eof_position Avi'.
Proof.
  intros fuel Avi w out audiodata offset length v Avi1 w1 out1 Hpin Hne
    fuel' ops Avi' w' out' Hrun.
  destruct (GetAudioChunk_sentinel fuel _ _ _ _ _ _ _ _ _ _ Hpin) as [[H|H] _];
    [contradiction|].
  rewrite (retrieve_all_sentinel fuel' ops _ _ _ _ _ _ H Hrun). lia.
Qed.

End SentinelFacts.

(** The pass-through codec keeps the contract. *)
Lemma Demo_drain_contract : drain_contract Demo.lib Demo.draining.
Proof.
  split.
  - intros d p Hb. cbn. unfold Demo.send_packet.
    destruct (Demo.draining d) eqn:E; [exact E|]. rewrite Hb. reflexivity.
  - intros d p Hd. cbn. unfold Demo.send_packet. rewrite Hd. reflexivity.
  - intros d p Hd. cbn. unfold Demo.send_packet. rewrite Hd. exact Hd.
  - intros d Hd. cbn. unfold Demo.receive_frame.
    destruct (Demo.pending d); cbn; exact Hd.
Qed.

(** A request that meets the end of the file and sets the position to 16384,
    and three calls after it. *)
Lemma audio_eof_position_never_decreases_witness :
  AVI_GetAudioChunk Demo.lib 20 Demo.session (Demo.world_of Demo.movie)
    Demo.silence 0 100000 100
  = Some (0, Demo.ended_session, Demo.ended_world, Demo.silence)
  /\ audio_eof_position Demo.session = INT_MAX
  /\ audio_eof_position Demo.ended_session = 16384
  /\ retrieve_all Demo.lib 20 Demo.later_calls
       (Demo.ended_session, Demo.ended_world, Demo.silence)
     = Some (Demo.later_session, Demo.later_world, Demo.silence)
  /\ 16384 <= audio_eof_position Demo.later_session.
Proof.
  assert (Hpin :
    AVI_GetAudioChunk Demo.lib 20 Demo.session (Demo.world_of Demo.movie)
      Demo.silence 0 100000 100
    = Some (0, Demo.ended_session, Demo.ended_world, Demo.silence))
    by (vm_compute; reflexivity).
  assert (H0 : audio_eof_position Demo.session = INT_MAX)
    by (vm_compute; reflexivity).
  assert (H1 : audio_eof_position Demo.ended_session = 16384)
    by (vm_compute; reflexivity).
  assert (Hne : audio_eof_position Demo.ended_session
                <> audio_eof_position Demo.session)
    by (rewrite H0, H1; vm_compute; discriminate).
  assert (Hrun :
    retrieve_all Demo.lib 20 Demo.later_calls
      (Demo.ended_session, Demo.ended_world, Demo.silence)
    = Some (Demo.later_session, Demo.later_world, Demo.silence))
    by (vm_compute; reflexivity).
  repeat split; try assumption.
  rewrite <- H1.
  exact (audio_eof_position_never_decreases Demo.lib Demo.draining
           Demo_drain_contract 20 _ _ _ _ _ _ _ _ _ _ Hpin Hne 20 _ _ _ _ Hrun).
Defined.

(** * Further properties of the code *)

(** ** The audio seek, whatever the order of the timestamps *)

Section SeekAudioMore.

Context {codec : Type}.
Variable L : avlib codec.

(** The scan keeps a packet only if it is of the stream and not later than
    [ts]. *)
Lemma SeekAudio_scan_kept (stream ts : Z) (cur : list AVPacket) :
  forall (valid : bool) (p : AVPacket),
    let r := SeekAudio_scan stream ts cur valid p in
    (fst (fst r) = false -> valid = false /\ snd (fst r) = p)
    /\ (fst (fst r) = true ->
        (valid = true /\ snd (fst r) = p)
        \/ (In (snd (fst r)) cur
            /\ stream_index (snd (fst r)) = stream
            /\ dts (snd (fst r)) <= ts)).
Proof.
  induction cur as [|q rest IH]; intros valid p; cbn [SeekAudio_scan].
  - cbn [fst snd]. split; [intros ->; auto | intros ->; left; auto].
  - destruct (stream_index q =? stream) eqn:Es; cbn [negb].
    + destruct (dts q >? ts) eqn:Et.
      * cbn [fst snd]. split; [intros ->; auto | intros ->; left; auto].
      * destruct (IH true q) as [H1 H2]. cbv zeta in *. split.
        -- intros Hf. destruct (H1 Hf) as [C _]. discriminate C.
        -- intros Ht. right. destruct (H2 Ht) as [[_ Hp]|(Hin & Hs & Hd)].
           ++ rewrite Hp. repeat split; [left; reflexivity | lia | lia].
           ++ repeat split; [right; exact Hin | exact Hs | exact Hd].
    + destruct (IH valid p) as [H1 H2]. cbv zeta in *. split; [exact H1|].
      intros Ht. destruct (H2 Ht) as [H|(Hin & Hs & Hd)]; [left; exact H|].
      right. repeat split; [right; exact Hin | exact Hs | exact Hd].
Qed.

Lemma SeekAudio_result_cases :
  forall (Avi : movie_state) (ts : Z) (w : avworld codec),
    let r := AVI_SeekAudio L Avi ts w in
    (fst r = 0 ->
     In (pkt_obj (snd r))
        (snd (avformat_seek_file L (file w) (cursor w) (audio_stream Avi)
                INT64_MIN ts ts AVSEEK_FLAG_ANY))
     /\ stream_index (pkt_obj (snd r)) = audio_stream Avi
     /\ dts (pkt_obj (snd r)) <= ts)
    /\ (fst r <> 0 -> fst r = AVERROR_EOF /\ pkt_obj (snd r) = pkt_obj w).
Proof.
  intros Avi ts w. cbv zeta. unfold AVI_SeekAudio.
  destruct (avformat_seek_file L (file w) (cursor w) (audio_stream Avi)
              INT64_MIN ts ts AVSEEK_FLAG_ANY) as [ret0 cur].
  cbn [snd].
  destruct ((ret0 <? 0) && (ret0 =? AVERROR_EOF)).
  - cbn [fst snd]. rsimpl. split; [discriminate | intros _; split; reflexivity].
  - rsimpl.
    pose proof (SeekAudio_scan_kept (audio_stream Avi) ts cur false (pkt_obj w)) as H.
    cbv zeta in H.
    destruct (SeekAudio_scan (audio_stream Avi) ts cur false (pkt_obj w))
      as [[valid p] cur'].
    cbn [fst snd] in H. destruct H as [H1 H2].
    destruct valid; cbn [negb fst snd]; rsimpl.
    + split; [|intros C; exfalso; apply C; reflexivity].
      intros _. destruct (H2 eq_refl) as [[C _]|H]; [discriminate C | exact H].
    + split; [discriminate|]. intros _. split; [reflexivity|].
      exact (proj2 (H1 eq_refl)).
Qed.

(** X1.  Whatever the order of the packets: when AVI_SeekAudio returns 0, the
    session's current packet is a packet of the audio stream that the
    demuxer's seek left to be read, with a timestamp of at most [ts]; when it
    returns anything else, that is AVERROR_EOF and the current packet is the
    one from before the call. *)
Theorem SeekAudio_result_sound :
  forall (Avi : movie_state) (ts : Z) (w : avworld codec),
    let r := AVI_SeekAudio L Avi ts w in
    (fst r = 0 ->
     In (pkt_obj (snd r))
        (snd (avformat_seek_file L (file w) (cursor w) (audio_stream Avi)
                INT64_MIN ts ts AVSEEK_FLAG_ANY))
     /\ stream_index (pkt_obj (snd r)) = audio_stream Avi
     /\ dts (pkt_obj (snd r)) <= ts)
    /\ (fst r <> 0 -> fst r = AVERROR_EOF /\ pkt_obj (snd r) = pkt_obj w).
Proof. exact SeekAudio_result_cases. Qed.

(** The scan over packets none of which is later than [ts], followed by a
    packet of the stream that is later. *)
Lemma SeekAudio_scan_stops (stream ts : Z) (pre : list AVPacket)
    (q : AVPacket) (rest : list AVPacket) :
  none_after stream ts pre = true ->
  stream_index q = stream ->
  ts < dts q ->
  forall (valid : bool) (p : AVPacket),
    SeekAudio_scan stream ts (pre ++ q :: rest) valid p
    = (match last_packet (packets_of stream pre) with
       | Some l => (true, l)
       | None => (valid, p)
       end, rest).
Proof.
  intros Hpre Hq Hlate.
  induction pre as [|x pre IH]; intros valid p.
  - cbn [app SeekAudio_scan packets_of filter last_packet rev].
    assert ((stream_index q =? stream) = true) as -> by lia.
    assert ((dts q >? ts) = true) as -> by lia. reflexivity.
  - cbn [app SeekAudio_scan]. unfold none_after, packets_of in *.
    cbn [filter] in *.
    destruct (stream_index x =? stream) eqn:Ex; cbn [negb].
    + cbn [forallb] in Hpre. apply andb_prop in Hpre. destruct Hpre as [Hx Hpre].
      assert ((dts x >? ts) = false) as -> by lia.
      rewrite (IH Hpre true x). f_equal.
      unfold last_packet. cbn [rev].
      destruct (rev (filter (fun q0 => stream_index q0 =? stream) pre));
        reflexivity.
    + apply IH. exact Hpre.
Qed.

(** X2.  When the packets that the demuxer's seek leaves are [pre], then an
    audio packet [q] later than [ts], then [rest], and no audio packet of
    [pre] is later than [ts]: AVI_SeekAudio reads [q] and drops it.  The
    current packet becomes the last audio packet of [pre] (the call failing
    with AVERROR_EOF when there is none), and reading goes on after [q], so
    that a refill that follows never decodes [q]. *)
Theorem SeekAudio_drops_first_later_packet :
  forall (Avi : movie_state) (ts : Z) (w : avworld codec) (ret0 : Z)
         (pre : list AVPacket) (q : AVPacket) (rest : list AVPacket),
    avformat_seek_file L (file w) (cursor w) (audio_stream Avi)
      INT64_MIN ts ts AVSEEK_FLAG_ANY = (ret0, pre ++ q :: rest) ->
    ret0 <> AVERROR_EOF ->
    none_after (audio_stream Avi) ts pre = true ->
    stream_index q = audio_stream Avi ->
    ts < dts q ->
    cursor (snd (AVI_SeekAudio L Avi ts w)) = rest
    /\ match last_packet (packets_of (audio_stream Avi) pre) with
       | Some l =>
           fst (AVI_SeekAudio L Avi ts w) = 0
           /\ pkt_obj (snd (AVI_SeekAudio L Avi ts w)) = l
       | None =>
           fst (AVI_SeekAudio L Avi ts w) = AVERROR_EOF
           /\ pkt_obj (snd (AVI_SeekAudio L Avi ts w)) = pkt_obj w
       end.
Proof.
  intros Avi ts w ret0 pre q rest Hseek Hret Hpre Hq Hlate.
  unfold AVI_SeekAudio. rewrite Hseek.
  assert ((ret0 <? 0) && (ret0 =? AVERROR_EOF) = false) as ->.
  { apply andb_false_iff. right. apply Z.eqb_neq. exact Hret. }
  rsimpl.
  rewrite (SeekAudio_scan_stops _ _ _ _ _ Hpre Hq Hlate false (pkt_obj w)).
  destruct (last_packet (packets_of (audio_stream Avi) pre)) as [l|];
    cbn [negb fst snd]; rsimpl; repeat split; reflexivity.
Qed.

End SeekAudioMore.

(** ** Byte offsets and timestamps *)

Section OffsetFacts.

Context {codec : Type}.
Variable L : avlib codec.

Lemma to_int64_id (z : Z) : INT64_MIN <= z <= INT64_MAX -> to_int64 z = z.
Proof.
  unfold to_int64, INT64_MIN, INT64_MAX. intros H.
  rewrite Z.mod_small; lia.
Qed.

(** X3.  With a time base of one over the sample rate and a positive sample
    size: the timestamp of a byte offset, turned back into a byte offset,
    is the start of the sample that holds the offset (at most the offset, less
    than a sample below it, a multiple of the sample size); and the offset of
    a timestamp, turned back into a timestamp, is the timestamp. *)
Theorem audio_offset_timestamp_round_trip :
  forall (bytes_per_sample rate : Z) (time_base : AVRational),
    num time_base = 1 -> den time_base = rate ->
    0 < bytes_per_sample ->
    (forall offset,
        0 <= offset <= INT_MAX ->
        let back :=
          AVI_AudioTimestampToOffset L
            (AVI_AudioOffsetToTimestamp L offset bytes_per_sample rate time_base)
            bytes_per_sample rate time_base in
        back <= offset < back + bytes_per_sample
        /\ back mod bytes_per_sample = 0)
    /\ (forall ts,
           0 <= ts -> ts * bytes_per_sample <= INT_MAX ->
           AVI_AudioOffsetToTimestamp L
             (AVI_AudioTimestampToOffset L ts bytes_per_sample rate time_base)
             bytes_per_sample rate time_base = ts).
Proof.
  intros bps rate tb Hnum Hden Hbps.
  unfold AVI_AudioOffsetToTimestamp, AVI_AudioTimestampToOffset.
  rewrite Hnum, Hden, !Z.eqb_refl. cbn [andb].
  split.
  - intros offset Hoff. cbv zeta.
    destruct (offset =? 0) eqn:E0.
    + cbn [Z.eqb]. apply Z.eqb_eq in E0. subst offset.
      rewrite Z.mod_0_l by lia. lia.
    + rewrite Z.quot_div_nonneg by lia.
      pose proof (Z.div_mod offset bps ltac:(lia)) as Hdm.
      pose proof (Z.mod_pos_bound offset bps Hbps) as Hm.
      assert (Hq : 0 <= offset / bps) by (apply Z.div_pos; lia).
      destruct (offset / bps =? 0) eqn:Eq.
      * apply Z.eqb_eq in Eq. rewrite Eq in Hdm.
        rewrite Z.mod_0_l by lia. lia.
      * rewrite to_int64_id by (unfold INT64_MIN, INT64_MAX, INT_MAX in *; nia).
        rewrite Z.mod_mul by lia. nia.
  - intros ts Hts Hfit.
    destruct (ts =? 0) eqn:E0.
    + cbn [Z.eqb]. apply Z.eqb_eq in E0. lia.
    + rewrite to_int64_id by (unfold INT64_MIN, INT64_MAX, INT_MAX in *; nia).
      assert ((ts * bps =? 0) = false) as -> by nia.
      rewrite Z.quot_div_nonneg by nia.
      apply Z.div_mul. lia.
Qed.

End OffsetFacts.

(** ** The cache after a seek, and what the cache serves *)

Section CacheMore.

Context {codec : Type}.
Variable L : avlib codec.

(** X4.  With a time base of one over the sample rate, a positive sample
    size and an offset between 0 and INT_MAX: when the seek of
    AVI_GetAudioChunk succeeds on a packet with a timestamp that is not
    negative, the cache is reset to empty and valid and starts at the
    packet's first byte, which is at or before the offset asked for; the
    call of the function to itself therefore takes the cache branch. *)
Theorem GetAudioChunk_seek_cache_start :
  forall (Avi : movie_state) (w : avworld codec) (offset : Z)
         (Avi1 : movie_state) (w1 : avworld codec),
    num (stream_time_base L (audio_stream Avi)) = 1 ->
    den (stream_time_base L (audio_stream Avi)) = rate Avi ->
    0 < audio_bytes_per_sample L Avi ->
    0 <= offset <= INT_MAX ->
    GetAudioChunk_seek L Avi w offset = (Some Avi1, w1) ->
    0 <= dts (pkt_obj w1) ->
    cached_audio_off Avi1 = dts (pkt_obj w1) * audio_bytes_per_sample L Avi
    /\ cached_audio_off Avi1 <= offset
    /\ cached_audio_len Avi1 = 0
    /\ have_audio_cache Avi1 = true
    /\ (have_audio_cache Avi1 && (offset >=? cached_audio_off Avi1)) = true.
Proof.
  intros Avi w offset Avi1 w1 Hnum Hden Hbps Hoff Hseek Hdts.
  unfold GetAudioChunk_seek in Hseek.
  set (bps := audio_bytes_per_sample L Avi) in *.
  set (tb := stream_time_base L (audio_stream Avi)) in *.
  set (ts := AVI_AudioOffsetToTimestamp L offset bps (rate Avi) tb) in *.
  destruct (SeekAudio_result_cases L Avi ts w) as [Hok _]. cbv zeta in Hok.
  destruct (AVI_SeekAudio L Avi ts w) as [ret w'] eqn:Esk. cbn [fst snd] in Hok.
  destruct (ret <? 0) eqn:Eret; [discriminate|].
  apply pair_equal_spec in Hseek. destruct Hseek as [HA Hw]. subst w1.
  apply (f_equal (fun o => match o with Some x => x | None => Avi end)) in HA.
  cbv beta iota in HA. subst Avi1.
  assert (Hts : ts = offset / bps /\ 0 <= ts).
  { subst ts. unfold AVI_AudioOffsetToTimestamp. rewrite Hnum, Hden, !Z.eqb_refl.
    cbn [andb]. destruct (offset =? 0) eqn:E0.
    - apply Z.eqb_eq in E0. subst offset. rewrite Z.div_0_l by lia. lia.
    - rewrite Z.quot_div_nonneg by lia. split; [reflexivity|].
      apply Z.div_pos; lia. }
  destruct Hts as [Hts Hts0].
  assert (Hkept : dts (pkt_obj w') <= ts).
  { destruct (ret =? 0) eqn:E0.
    - apply Z.eqb_eq in E0. exact (proj2 (proj2 (Hok E0))).
    - exfalso.
      assert (Hr : fst (AVI_SeekAudio L Avi ts w) = ret) by (rewrite Esk; reflexivity).
      destruct (SeekAudio_result_cases L Avi ts w) as [_ Hbad]. cbv zeta in Hbad.
      rewrite Hr in Hbad.
      destruct (Hbad ltac:(lia)) as [C _]. unfold AVERROR_EOF in C. lia. }
  assert (Hmul : dts (pkt_obj w') * bps <= offset).
  { pose proof (Z.div_mod offset bps ltac:(lia)) as Hdm.
    pose proof (Z.mod_pos_bound offset bps Hbps) as Hm.
    rewrite <- Hts in Hdm. nia. }
  assert (Hoffv :
    to_int (AVI_AudioTimestampToOffset L (dts (pkt_obj w')) bps (rate Avi) tb)
    = dts (pkt_obj w') * bps).
  { unfold AVI_AudioTimestampToOffset. fold tb in Hnum, Hden.
    rewrite Hnum, Hden, !Z.eqb_refl. cbn [andb].
    destruct (dts (pkt_obj w') =? 0) eqn:E0.
    - apply Z.eqb_eq in E0. rewrite E0. reflexivity.
    - rewrite to_int64_id by (unfold INT64_MIN, INT64_MAX, INT_MAX in *; nia).
      apply to_int_id. unfold in_int, INT_MIN, INT_MAX in *. nia. }
  rsimpl. rewrite Hoffv.
  repeat split; try reflexivity; try exact Hmul.
  cbn [andb]. lia.
Qed.

(** X5.  AVI_GetAudioChunkFromCache, for a position and a length that are
    not negative and whose sum is an int: the value returned is what the
    request needs beyond the cache, [pos + len - size] or 0; the bytes copied
    are the ones of the cache from [pos] on, as many as the request and the
    cache have in common; and the rest of the caller's memory is as it
    was. *)
Theorem GetAudioChunkFromCache_contract :
  forall (Avi : movie_state) (w : avworld codec) (out : memory)
         (audiodata pos len : Z),
    0 <= pos -> 0 <= len -> pos + len <= INT_MAX ->
    0 <= cached_audio_len Avi <= INT_MAX ->
    let size := cached_audio_len Avi in
    let common := Z.max 0 (Z.min len (size - pos)) in
    let r := AVI_GetAudioChunkFromCache Avi w out audiodata pos len in
    fst r = Z.max 0 (pos + len - size)
    /\ (forall i, 0 <= i < common ->
          snd r (audiodata + i) = nth (Z.to_nat (pos + i)) (cache_block w) x00)
    /\ (forall j, j < audiodata \/ audiodata + common <= j -> snd r j = out j).
Proof.
  intros Avi w out audiodata pos len Hpos Hlen Hsum Hsize. cbv zeta.
  unfold AVI_GetAudioChunkFromCache.
  rewrite (to_int_id (pos + len)) by (unfold in_int, INT_MIN, INT_MAX in *; lia).
  rewrite (to_int_id (pos + len - cached_audio_len Avi))
    by (unfold in_int, INT_MIN, INT_MAX in *; lia).
  rewrite (to_int_id (cached_audio_len Avi - pos))
    by (unfold in_int, INT_MIN, INT_MAX in *; lia).
  destruct (pos + len - cached_audio_len Avi <? 0) eqn:Ew; cbn [fst snd].
  - assert (Hc : Z.max 0 (Z.min len (cached_audio_len Avi - pos)) = len) by lia.
    rewrite Hc. split; [lia|]. split.
    + intros i Hi. apply memcpy_copies. exact Hi.
    + intros j Hj. unfold memcpy.
      assert ((audiodata <=? j) && (j <? audiodata + len) = false) as -> by lia.
      reflexivity.
  - destruct (cached_audio_len Avi - pos >? 0) eqn:Er.
    + assert (Hc : Z.max 0 (Z.min len (cached_audio_len Avi - pos))
                   = cached_audio_len Avi - pos) by lia.
      rewrite Hc. split; [lia|]. split.
      * intros i Hi. apply memcpy_copies. exact Hi.
      * intros j Hj. unfold memcpy.
        assert ((audiodata <=? j)
                && (j <? audiodata + (cached_audio_len Avi - pos)) = false)
          as -> by lia.
        reflexivity.
    + assert (Hc : Z.max 0 (Z.min len (cached_audio_len Avi - pos)) = 0) by lia.
      rewrite Hc. split; [lia|]. split; [intros i Hi; lia | reflexivity].
Qed.

End CacheMore.

(** ** What the audio calls and the video calls leave alone *)

Section Frames.

Context {codec : Type}.
Variable L : avlib codec.

Lemma SeekAudio_video_side (Avi : movie_state) (ts : Z) (w : avworld codec) :
  video_side (snd (AVI_SeekAudio L Avi ts w)) = video_side w
  /\ cache_block (snd (AVI_SeekAudio L Avi ts w)) = cache_block w.
Proof.
  unfold AVI_SeekAudio, video_side.
  destruct (avformat_seek_file L (file w) (cursor w) (audio_stream Avi)
              INT64_MIN ts ts AVSEEK_FLAG_ANY) as [ret cur].
  destruct ((ret <? 0) && (ret =? AVERROR_EOF)); [split; reflexivity|].
  rsimpl.
  destruct (SeekAudio_scan (audio_stream Avi) ts cur false (pkt_obj w))
    as [[valid p] cur'].
  destruct (negb valid); split; reflexivity.
Qed.

Lemma refill_round_frame (bps : Z) (Avi : movie_state) (w : avworld codec) :
  fields_outside_cache (snd (fst (refill_round L bps Avi w)))
  = fields_outside_cache Avi
  /\ cached_audio_off (snd (fst (refill_round L bps Avi w))) = cached_audio_off Avi
  /\ have_audio_cache (snd (fst (refill_round L bps Avi w))) = have_audio_cache Avi
  /\ video_side (snd (refill_round L bps Avi w)) = video_side w.
Proof.
  unfold refill_round.
  destruct (AVI_DecodePacket L (audio_dec w) (pkt_obj w) (frame_obj w))
    as [[ret ctx] fr].
  destruct (ret <? 0); [repeat split; reflexivity|].
  destruct (_ && _); [repeat split; reflexivity|].
  destruct (_ >? _);
    (destruct (_ >=? _); [repeat split; reflexivity|]);
    match goal with
    | |- context [next_audio_packet ?s ?c] =>
        destruct (next_audio_packet s c) as [[[ret' valid] p] cur]
    end;
    destruct valid, (ret' =? AVERROR_EOF); repeat split; reflexivity.
Qed.

Lemma refill_frame (fuel : nat) :
  forall (bps : Z) (Avi : movie_state) (w : avworld codec) r,
    refill L fuel bps Avi w = Some r ->
    fields_outside_cache (snd (fst r)) = fields_outside_cache Avi
    /\ cached_audio_off (snd (fst r)) = cached_audio_off Avi
    /\ have_audio_cache (snd (fst r)) = have_audio_cache Avi
    /\ video_side (snd r) = video_side w.
Proof.
  induction fuel as [|fuel IH]; intros bps Avi w r Hrun; [discriminate|].
  cbn [refill] in Hrun.
  destruct (refill_round_frame bps Avi w) as (H1 & H2 & H3 & H4).
  destruct (refill_round L bps Avi w) as [[how Avi1] w1]. cbn [fst snd] in *.
  destruct how; try (inversion Hrun; subst r; cbn [fst snd]; auto).
  destruct (IH bps Avi1 w1 r Hrun) as (I1 & I2 & I3 & I4).
  repeat split; congruence.
Qed.

Lemma GetAudioChunk_seek_frame (Avi : movie_state) (w : avworld codec)
    (offset : Z) :
  video_side (snd (GetAudioChunk_seek L Avi w offset)) = video_side w
  /\ cache_block (snd (GetAudioChunk_seek L Avi w offset)) = cache_block w
  /\ forall Avi1, fst (GetAudioChunk_seek L Avi w offset) = Some Avi1 ->
                  fields_outside_cache Avi1 = fields_outside_cache Avi.
Proof.
  unfold GetAudioChunk_seek.
  match goal with
  | |- context [AVI_SeekAudio L Avi ?ts w] =>
      destruct (SeekAudio_video_side Avi ts w) as [Hv Hc];
      destruct (AVI_SeekAudio L Avi ts w) as [ret w1]
  end.
  cbn [snd] in Hv, Hc.
  destruct (ret <? 0); cbn [fst snd].
  - repeat split; try assumption. discriminate.
  - repeat split; try assumption. intros Avi1 H.
    apply (f_equal (fun o => match o with Some x => x | None => Avi end)) in H.
    cbv beta iota in H. subst Avi1. reflexivity.
Qed.

Lemma GetAudioChunk_cache_frame (Avi : movie_state) (w : avworld codec)
    (out : memory) (audiodata offset length : Z) :
  match GetAudioChunk_cache Avi w out audiodata offset length with
  | CacheReturn _ _ => True
  | CacheGoOn Avi' _ _ _ => fields_outside_cache Avi' = fields_outside_cache Avi
  end.
Proof.
  unfold GetAudioChunk_cache.
  destruct (have_audio_cache Avi && (offset >=? cached_audio_off Avi));
    [|reflexivity].
  destruct (AVI_GetAudioChunkFromCache Avi w out audiodata _ length)
    as [newlen out'].
  destruct (newlen >=? length); [reflexivity|].
  destruct (newlen =? 0); [exact I|].
  destruct (newlen <? length); reflexivity.
Qed.

Lemma GetAudioChunk_pass_frame (fuel : nat) (Avi : movie_state)
    (w : avworld codec) (out : memory) (audiodata offset length : Z) :
  let st := pass_state (GetAudioChunk_pass L fuel Avi w out audiodata offset length)
              Avi w in
  fields_outside_cache (fst st) = fields_outside_cache Avi
  /\ video_side (snd st) = video_side w.
Proof.
  cbv zeta. unfold GetAudioChunk_pass.
  pose proof (GetAudioChunk_cache_frame Avi w out audiodata offset length) as Hc.
  destruct (GetAudioChunk_cache Avi w out audiodata offset length)
    as [ret out'|Avi' out' audiodata' length'].
  { cbn [pass_state fst snd]. split; reflexivity. }
  destruct (GetAudioChunk_seek_frame Avi' w offset) as (Hv & _ & Hf).
  destruct (GetAudioChunk_seek L Avi' w offset) as [[Avi1|] w1]; cbn [fst snd] in *.
  2:{ cbn [pass_state fst snd]. split; assumption. }
  specialize (Hf Avi1 eq_refl).
  destruct (refill L fuel (audio_bytes_per_sample L Avi1) Avi1 w1)
    as [[[how Avi2] w2]|] eqn:Efill.
  2:{ cbn [pass_state fst snd]. split; reflexivity. }
  destruct (refill_frame _ _ _ _ _ Efill) as (R1 & _ & _ & R4).
  cbn [fst snd] in R1, R4.
  assert (Hgoal : fields_outside_cache Avi2 = fields_outside_cache Avi
                  /\ video_side w2 = video_side w)
    by (split; congruence).
  destruct how; try destruct (cached_audio_len Avi2 =? 0);
    cbn [pass_state fst snd]; exact Hgoal.
Qed.

(** X6.  A call of AVI_GetAudioChunk that returns has changed no field of the
    session other than the cache's address, length, offset and validity and
    the end-of-audio position: the video timestamps, the picture's geometry
    and the audio format are as before, and so is [cached_audio_buf_len],
    also when the cache block was reallocated.  In the world it has left the
    file, the video decoder, the count of its flushes and the destination
    image alone. *)
Theorem GetAudioChunk_leaves_video_alone :
  forall (fuel : nat) (Avi : movie_state) (w : avworld codec) (out : memory)
         (audiodata offset length v : Z)
         (Avi' : movie_state) (w' : avworld codec) (out' : memory),
    AVI_GetAudioChunk L fuel Avi w out audiodata offset length
    = Some (v, Avi', w', out') ->
    fields_outside_cache Avi' = fields_outside_cache Avi
    /\ video_side w' = video_side w.
Proof.
  intros fuel. induction fuel as [|fuel IH];
    intros Avi w out audiodata offset length v Avi' w' out' Hrun; [discriminate|].
  cbn [AVI_GetAudioChunk] in Hrun.
  pose proof (GetAudioChunk_pass_frame fuel Avi w out audiodata offset length)
    as Hp. cbv zeta in Hp.
  destruct (GetAudioChunk_pass L fuel Avi w out audiodata offset length)
    as [[[[v1 Avi1] w1] out1]|Avi1 w1 out1 audiodata1 length1|];
    cbn [pass_state fst snd] in Hp.
  - inversion Hrun; subst. exact Hp.
  - destruct (IH _ _ _ _ _ _ _ _ _ _ Hrun) as [H1 H2].
    destruct Hp as [Hp1 Hp2]. split; congruence.
  - discriminate.
Qed.

End Frames.

(** ** The video side *)

Section VideoMore.

Context {codec : Type}.
Variable L : avlib codec.

Lemma SeekVideo_scan_audio_side (Avi : movie_state) (cur : list AVPacket) :
  forall w : avworld codec,
    fields_outside_video (snd (fst (SeekVideo_scan Avi cur w)))
    = fields_outside_video Avi
    /\ currentframe_ts (snd (fst (SeekVideo_scan Avi cur w))) = currentframe_ts Avi
    /\ audio_side (snd (SeekVideo_scan Avi cur w)) = audio_side w.
Proof.
  induction cur as [|q rest IH]; intros w; cbn [SeekVideo_scan].
  - repeat split; reflexivity.
  - destruct (negb (stream_index q =? video_stream Avi)); [apply IH|].
    destruct (negb (keyframe_ts Avi =? dts q)); repeat split; reflexivity.
Qed.

Lemma SeekVideo_audio_side (Avi : movie_state) (ts : Z) (w : avworld codec) :
  fields_outside_video (snd (fst (AVI_SeekVideo L Avi ts w)))
  = fields_outside_video Avi
  /\ currentframe_ts (snd (fst (AVI_SeekVideo L Avi ts w))) = currentframe_ts Avi
  /\ audio_side (snd (AVI_SeekVideo L Avi ts w)) = audio_side w.
Proof.
  unfold AVI_SeekVideo.
  destruct (avformat_seek_file L (file w) (cursor w) (video_stream Avi)
              INT64_MIN ts ts 0) as [ret cur].
  destruct ((ret <? 0) && (ret =? AVERROR_EOF)); [repeat split; reflexivity|].
  destruct (SeekVideo_scan_audio_side Avi (cursor (w <| cursor := cur |>))
              (w <| cursor := cur |>)) as (H1 & H2 & H3).
  repeat split; assumption.
Qed.

(** The loop that reads on: the packet it stops at, if any, is a video packet
    later than the last one decoded. *)
Lemma GetVideoFrame_scan_later (Avi : movie_state) (cur : list AVPacket) :
  let r := GetVideoFrame_scan Avi cur in
  if fst (fst r)
  then stream_index (snd (fst r)) = video_stream Avi
       /\ currentframe_ts Avi < dts (snd (fst r))
  else snd (fst r) = blank_packet /\ snd r = [].
Proof.
  cbv zeta. induction cur as [|q rest IH]; cbn [GetVideoFrame_scan].
  - split; reflexivity.
  - destruct (stream_index q =? video_stream Avi) eqn:Es; cbn [negb]; [|exact IH].
    destruct (dts q <=? currentframe_ts Avi) eqn:Ed; [exact IH|].
    cbn [fst snd]. split; [apply Z.eqb_eq; exact Es|].
    apply Z.leb_gt. exact Ed.
Qed.

Lemma GetVideoFrame_select_audio_side (Avi : movie_state) (target : Z)
    (w : avworld codec) :
  fields_outside_video (snd (fst (GetVideoFrame_select L Avi target w)))
  = fields_outside_video Avi
  /\ currentframe_ts (snd (fst (GetVideoFrame_select L Avi target w)))
     = currentframe_ts Avi
  /\ audio_side (snd (GetVideoFrame_select L Avi target w)) = audio_side w.
Proof.
  unfold GetVideoFrame_select.
  destruct (SeekVideo_audio_side Avi target w) as (Hf & Hc & Ha).
  destruct (AVI_SeekVideo L Avi target w) as [[ret Avi1] w1]. cbn [fst snd] in *.
  destruct (ret =? 0).
  - destruct (dts (pkt_obj w1) <? target).
    + destruct (GetVideoFrame_scan Avi1 (cursor w1)) as [[valid p] cur].
      cbn [fst snd]. repeat split; assumption.
    + cbn [fst snd]. repeat split; assumption.
  - destruct (ret =? AVERROR EAGAIN); cbn [fst snd]; repeat split; assumption.
Qed.

Lemma GetVideoFrame_audio_side (Avi : movie_state) (target : Z)
    (w : avworld codec) :
  fields_outside_video (snd (fst (AVI_GetVideoFrame L Avi target w)))
  = fields_outside_video Avi
  /\ audio_side (snd (AVI_GetVideoFrame L Avi target w)) = audio_side w.
Proof.
  unfold AVI_GetVideoFrame.
  destruct (negb (active Avi)); [split; reflexivity|].
  destruct (GetVideoFrame_select_audio_side Avi target w) as (Hf & _ & Ha).
  destruct (GetVideoFrame_select L Avi target w) as [[valid Avi1] w1].
  cbn [fst snd] in *.
  destruct (negb valid); [split; assumption|].
  match goal with
  | |- context [AVI_DecodePacket L ?c ?p ?f] =>
      destruct (AVI_DecodePacket L c p f) as [[ret ctx] fr]
  end.
  destruct (ret <? 0); [split; assumption|].
  destruct (frame_drifted _ _); split; assumption.
Qed.

(** X7.  AVI_GetVideoFrame changes no field of the session other than the two
    video timestamps: the audio cache (address, capacity, length, offset,
    validity), the end-of-audio position and the audio format are as before.
    In the world it leaves the file, the audio decoder and the bytes of the
    cache block alone.  (What it does share with the audio side is the
    reading position and the current packet.) *)
Theorem GetVideoFrame_leaves_audio_alone :
  forall (Avi : movie_state) (target : Z) (w : avworld codec),
    fields_outside_video (snd (fst (AVI_GetVideoFrame L Avi target w)))
    = fields_outside_video Avi
    /\ audio_side (snd (AVI_GetVideoFrame L Avi target w)) = audio_side w.
Proof. exact GetVideoFrame_audio_side. Qed.

(** The first part of AVI_GetAudioChunk reads the cache fields of the session
    and the cache block only. *)
Lemma GetAudioChunk_cache_reads (Avi Avi' : movie_state) (w w' : avworld codec)
    (out : memory) (audiodata offset length : Z) :
  fields_outside_video Avi' = fields_outside_video Avi ->
  audio_side w' = audio_side w ->
  forall ret out',
    GetAudioChunk_cache Avi w out audiodata offset length = CacheReturn ret out' ->
    GetAudioChunk_cache Avi' w' out audiodata offset length = CacheReturn ret out'.
Proof.
  unfold fields_outside_video, audio_side. intros Hf Ha ret out'.
  unfold GetAudioChunk_cache, AVI_GetAudioChunkFromCache.
  apply (f_equal snd) in Ha. cbn [snd] in Ha.
  assert (Hlen : cached_audio_len Avi' = cached_audio_len Avi) by congruence.
  assert (Hoff : cached_audio_off Avi' = cached_audio_off Avi) by congruence.
  assert (Hhave : have_audio_cache Avi' = have_audio_cache Avi) by congruence.
  rewrite Hlen, Hoff, Hhave, Ha.
  destruct (have_audio_cache Avi && (offset >=? cached_audio_off Avi));
    [|discriminate].
  destruct (_ <? 0).
  - destruct (0 >=? length); [discriminate|]. cbn [Z.eqb]. exact (fun H => H).
  - match goal with
    | |- context [if ?a >=? length then _ else _] => destruct (a >=? length)
    end; [discriminate|].
    match goal with
    | |- context [if ?a =? 0 then _ else _] => destruct (a =? 0)
    end; [exact (fun H => H)|].
    match goal with
    | |- context [if ?a <? length then _ else _] => destruct (a <? length)
    end; discriminate.
Qed.

(** X8.  A request that the cache serves (the first part of AVI_GetAudioChunk
    returns) is served in the same way after any call of AVI_GetVideoFrame in
    between: the same value is returned, the same bytes reach the caller's
    memory, and the audio call leaves the session and the world as the video
    call left them. *)
Theorem GetAudioChunk_cache_hit_after_video_frame :
  forall (fuel : nat) (Avi : movie_state) (w : avworld codec) (out : memory)
         (audiodata offset length target ret : Z) (out' : memory),
    GetAudioChunk_cache Avi w out audiodata offset length = CacheReturn ret out' ->
    let Avi1 := snd (fst (AVI_GetVideoFrame L Avi target w)) in
    let w1 := snd (AVI_GetVideoFrame L Avi target w) in
    AVI_GetAudioChunk L (S fuel) Avi w out audiodata offset length
    = Some (ret, Avi, w, out')
    /\ AVI_GetAudioChunk L (S fuel) Avi1 w1 out audiodata offset length
       = Some (ret, Avi1, w1, out').
Proof.
  intros fuel Avi w out audiodata offset length target ret out' Hhit Avi1 w1.
  destruct (GetVideoFrame_audio_side Avi target w) as [Hf Ha].
  fold Avi1 in Hf. fold w1 in Ha.
  cbn [AVI_GetAudioChunk]. unfold GetAudioChunk_pass.
  rewrite (GetAudioChunk_cache_reads Avi Avi1 w w1 out audiodata offset length
             Hf Ha ret out' Hhit).
  rewrite Hhit. split; reflexivity.
Qed.

(** A seek that returns 0 has left the session as it was. *)
Lemma SeekVideo_zero (Avi : movie_state) (ts : Z) (w : avworld codec) :
  fst (fst (AVI_SeekVideo L Avi ts w)) = 0 ->
  snd (fst (AVI_SeekVideo L Avi ts w)) = Avi.
Proof.
  destruct (SeekVideo_spec L Avi ts w) as (_ & _ & _ & _ & _ & H).
  cbv zeta in H. revert H.
  destruct (fst _ =? AVERROR_EOF).
  - intros ->. reflexivity.
  - destruct (hd_error _) as [q|].
    + intros [_ ->]. destruct (keyframe_ts Avi =? dts q); cbn [fst snd].
      * reflexivity.
      * discriminate.
    + intros ->. reflexivity.
Qed.

(** X9.  Continuing after an unchanged keyframe: when the seek of
    AVI_GetVideoFrame returns 0 and lands on a packet before the target, the
    call either takes a video packet later than the last one decoded, so that
    [currentframe_ts] grows strictly, or it finds none up to the end of the
    file, and then the session, the video decoder and the destination image
    are as before, and nothing is left to read. *)
Theorem GetVideoFrame_continue_advances_or_holds :
  forall (Avi : movie_state) (target : Z) (w : avworld codec),
    active Avi = true ->
    fst (fst (AVI_SeekVideo L Avi target w)) = 0 ->
    dts (pkt_obj (snd (AVI_SeekVideo L Avi target w))) < target ->
    let r := AVI_GetVideoFrame L Avi target w in
    (currentframe_ts Avi < currentframe_ts (snd (fst r))
     /\ GetVideoFrame_outcome L Avi target w <> NoPacket)
    \/ (GetVideoFrame_outcome L Avi target w = NoPacket
        /\ snd (fst r) = Avi
        /\ video_dec (snd r) = video_dec w
        /\ dst_image (snd r) = dst_image w
        /\ cursor (snd r) = []).
Proof.
  intros Avi target w Hact Hret Hdts r. subst r.
  pose proof (SeekVideo_zero Avi target w Hret) as Hses.
  destruct (SeekVideo_spec L Avi target w) as (_ & Hv & _ & _ & Hd & _).
  cbv zeta in Hv, Hd.
  unfold AVI_GetVideoFrame, GetVideoFrame_outcome, GetVideoFrame_select.
  rewrite Hact. cbn [negb].
  destruct (AVI_SeekVideo L Avi target w) as [[ret Avi1] w1].
  cbn [fst snd] in *. subst ret Avi1. cbn [Z.eqb].
  apply Z.ltb_lt in Hdts. rewrite Hdts.
  pose proof (GetVideoFrame_scan_later Avi (cursor w1)) as Hs. cbv zeta in Hs.
  destruct (GetVideoFrame_scan Avi (cursor w1)) as [[valid p] cur].
  cbn [fst snd] in Hs. destruct valid; cbn [negb].
  - left. destruct Hs as [_ Hlt]. rsimpl.
    destruct (AVI_DecodePacket L (video_dec w1) p (frame_obj w1))
      as [[ret ctx] fr].
    destruct (ret <? 0); cbn [fst snd].
    + rsimpl. split; [exact Hlt | discriminate].
    + destruct (frame_drifted _ _); cbn [fst snd]; rsimpl;
        (split; [exact Hlt | discriminate]).
  - right. destruct Hs as [_ ->]. cbn [fst snd]. rsimpl.
    repeat split; assumption.
Qed.

(** The session after AVI_GetVideoFrame: when a packet was selected, its
    timestamp is the new [currentframe_ts], whatever the decoder made of
    it. *)
Lemma GetVideoFrame_decoded (Avi : movie_state) (target : Z) (w : avworld codec) :
  active Avi = true ->
  snd (fst (AVI_GetVideoFrame L Avi target w))
  = let s := GetVideoFrame_select L Avi target w in
    if fst (fst s)
    then (snd (fst s)) <| currentframe_ts := dts (pkt_obj (snd s)) |>
    else snd (fst s).
Proof.
  intros Hact. unfold AVI_GetVideoFrame. rewrite Hact. cbn [negb]. cbv zeta.
  destruct (GetVideoFrame_select L Avi target w) as [[valid Avi1] w1].
  cbn [fst snd]. destruct valid; cbn [negb]; [|reflexivity].
  match goal with
  | |- context [AVI_DecodePacket L ?c ?p ?f] =>
      destruct (AVI_DecodePacket L c p f) as [[ret ctx] fr]
  end.
  destruct (ret <? 0); [reflexivity|].
  destruct (frame_drifted _ _); reflexivity.
Qed.

(** The three ways in which the seek ends. *)
Lemma SeekVideo_shape (Avi : movie_state) (ts : Z) (w : avworld codec) :
  let r := AVI_SeekVideo L Avi ts w in
  fst r = (AVERROR_EOF, Avi)
  \/ (fst r = (0, Avi) /\ keyframe_ts Avi = dts (pkt_obj (snd r)))
  \/ fst r = (AVERROR EAGAIN, Avi <| keyframe_ts := dts (pkt_obj (snd r)) |>).
Proof.
  destruct (SeekVideo_spec L Avi ts w) as (_ & _ & _ & _ & _ & H).
  cbv zeta in *. revert H.
  destruct (fst _ =? AVERROR_EOF); [intros ->; left; reflexivity|].
  destruct (hd_error _) as [q|]; [|intros ->; left; reflexivity].
  intros [Hq ->]. rewrite Hq.
  destruct (keyframe_ts Avi =? dts q) eqn:E.
  - right. left. split; [reflexivity|]. apply Z.eqb_eq. exact E.
  - right. right. reflexivity.
Qed.

(** X10.  The last frame decoded is never before the keyframe in force: if
    [keyframe_ts <= currentframe_ts] holds before a call of AVI_GetVideoFrame
    on an active session, it holds after it.  Reading on makes
    [currentframe_ts] grow; a seek that lands on or after the target makes
    the two equal, and so does a restart from a new keyframe, which stores
    the timestamp of the packet found in both. *)
Theorem GetVideoFrame_keeps_keyframe_order :
  forall (Avi : movie_state) (target : Z) (w : avworld codec),
    active Avi = true ->
    keyframe_ts Avi <= currentframe_ts Avi ->
    let Avi' := snd (fst (AVI_GetVideoFrame L Avi target w)) in
    keyframe_ts Avi' <= currentframe_ts Avi'
    /\ (fst (fst (AVI_SeekVideo L Avi target w)) = AVERROR EAGAIN ->
        keyframe_ts Avi' = dts (pkt_obj (snd (AVI_SeekVideo L Avi target w)))
        /\ currentframe_ts Avi' = keyframe_ts Avi').
Proof.
  intros Avi target w Hact Hinv Avi'. subst Avi'.
  rewrite (GetVideoFrame_decoded Avi target w Hact).
  unfold GetVideoFrame_select.
  pose proof (SeekVideo_shape Avi target w) as Hshape. cbv zeta in Hshape.
  destruct (AVI_SeekVideo L Avi target w) as [[ret Avi1] w1].
  cbn [fst snd] in *.
  destruct Hshape as [H|[[H Hkf]|H]];
    apply pair_equal_spec in H; destruct H as [-> ->].
  - (* the end of the file *)
    replace (AVERROR_EOF =? 0) with false by reflexivity.
    replace (AVERROR_EOF =? AVERROR EAGAIN) with false by reflexivity.
    cbn [fst snd]. split; [exact Hinv | discriminate].
  - (* the same keyframe *)
    cbn [Z.eqb].
    split; [|discriminate].
    destruct (dts (pkt_obj w1) <? target).
    + pose proof (GetVideoFrame_scan_later Avi (cursor w1)) as Hs.
      cbv zeta in Hs.
      destruct (GetVideoFrame_scan Avi (cursor w1)) as [[valid p] cur].
      cbn [fst snd] in Hs. destruct valid; cbn [fst snd].
      * rsimpl. lia.
      * exact Hinv.
    + cbn [fst snd]. rsimpl. lia.
  - (* a new keyframe *)
    replace (AVERROR EAGAIN =? 0) with false by reflexivity.
    rewrite Z.eqb_refl. cbn [fst snd].
    rsimpl. split; [lia|]. intros _. split; reflexivity.
Qed.

End VideoMore.

(** ** The cache stays within its block *)

Section CacheBounds.

Context {codec : Type}.
Variable L : avlib codec.

Lemma store_length (block bytes : list byte) (off : Z) :
  length (store block off bytes) = length block.
Proof.
  unfold store. rewrite !length_app, !length_firstn, length_skipn. lia.
Qed.

(** The cache's length and block after one round of the refill. *)
Lemma refill_round_cache (bps : Z) (Avi : movie_state) (w : avworld codec) :
  let d := AVI_DecodePacket L (audio_dec w) (pkt_obj w) (frame_obj w) in
  let size := to_int (nb_samples (snd d) * bps) in
  let overflow :=
    to_int (cached_audio_len Avi + size) >? cached_audio_buf_len Avi in
  let r := refill_round L bps Avi w in
  (cached_audio_len (snd (fst r)), cache_block (snd r))
  = if (fst (fst d) <? 0) || (overflow && negb (cached_audio_len Avi =? 0))
    then (cached_audio_len Avi, cache_block w)
    else (to_int (cached_audio_len Avi + size),
          store (if overflow
                 then realloc_block (cache_block w)
                        (to_size_t (to_size_t size * 2))
                 else cache_block w)
            (cached_audio_len Avi)
            (firstn (Z.to_nat size) (swr_convert L (snd d)))).
Proof.
  cbv zeta. unfold refill_round.
  destruct (AVI_DecodePacket L (audio_dec w) (pkt_obj w) (frame_obj w))
    as [[ret ctx] fr].
  cbn [fst snd].
  destruct (ret <? 0); [reflexivity|]. cbn [orb].
  change (frame_obj (w <| audio_dec := ctx |> <| frame_obj := fr |>
                       <| pkt_obj := blank_packet |>)) with fr.
  destruct (_ && _); [reflexivity|].
  destruct (_ >? _);
    (destruct (_ >=? _); [reflexivity|]);
    match goal with
    | |- context [next_audio_packet ?s ?c] =>
        destruct (next_audio_packet s c) as [[[ret' valid] p] cur]
    end;
    destruct valid, (ret' =? AVERROR_EOF); reflexivity.
Qed.

Lemma refill_round_fits (K bps : Z) (Avi : movie_state) (w : avworld codec) :
  3 * K <= INT_MAX ->
  frames_within L bps K ->
  cache_fits K Avi w ->
  cache_fits K (snd (fst (refill_round L bps Avi w)))
    (snd (refill_round L bps Avi w)).
Proof.
  unfold INT_MAX. intros HK Hfr (Hlen & Hcap & Hblock).
  pose proof (refill_round_cache bps Avi w) as Hc. cbv zeta in Hc.
  destruct (refill_round_frame L bps Avi w) as (Hf & _).
  assert (Hbuf : cached_audio_buf_len (snd (fst (refill_round L bps Avi w)))
                 = cached_audio_buf_len Avi).
  { unfold fields_outside_cache in Hf. congruence. }
  specialize (Hfr (audio_dec w) (pkt_obj w) (frame_obj w)).
  unfold cache_fits. rewrite Hbuf.
  revert Hc.
  destruct (fst (fst (AVI_DecodePacket L (audio_dec w) (pkt_obj w) (frame_obj w)))
            <? 0) eqn:Eret; cbn [orb].
  { intros Hc. apply pair_equal_spec in Hc. destruct Hc as [-> ->].
    repeat split; lia. }
  apply Z.ltb_ge in Eret. specialize (Hfr Eret).
  set (n := nb_samples _ * bps) in *.
  rewrite (to_int_id n) by (unfold in_int, INT_MIN, INT_MAX; lia).
  rewrite (to_int_id (cached_audio_len Avi + n))
    by (unfold in_int, INT_MIN, INT_MAX; lia).
  destruct (cached_audio_len Avi + n >? cached_audio_buf_len Avi) eqn:Eov;
    cbn [andb].
  - destruct (cached_audio_len Avi =? 0) eqn:E0; cbn [negb];
      intros Hc; apply pair_equal_spec in Hc; destruct Hc as [-> ->].
    + apply Z.eqb_eq in E0.
      rewrite store_length, realloc_block_length.
      rewrite (to_size_t_id n) by lia. rewrite (to_size_t_id (n * 2)) by lia.
      lia.
    + repeat split; lia.
  - intros Hc; apply pair_equal_spec in Hc; destruct Hc as [-> ->].
    rewrite store_length. lia.
Qed.

Lemma refill_fits (K : Z) (fuel : nat) :
  forall (bps : Z) (Avi : movie_state) (w : avworld codec) r,
    3 * K <= INT_MAX ->
    frames_within L bps K ->
    cache_fits K Avi w ->
    refill L fuel bps Avi w = Some r ->
    cache_fits K (snd (fst r)) (snd r).
Proof.
  induction fuel as [|fuel IH]; intros bps Avi w r HK Hfr Hfit Hrun;
    [discriminate|].
  cbn [refill] in Hrun.
  pose proof (refill_round_fits K bps Avi w HK Hfr Hfit) as H.
  destruct (refill_round L bps Avi w) as [[how Avi1] w1]. cbn [fst snd] in H.
  destruct how; try (inversion Hrun; subst r; exact H).
  exact (IH bps Avi1 w1 r HK Hfr H Hrun).
Qed.

Lemma GetAudioChunk_cache_keeps_length (Avi : movie_state) (w : avworld codec)
    (out : memory) (audiodata offset length : Z) :
  match GetAudioChunk_cache Avi w out audiodata offset length with
  | CacheReturn _ _ => True
  | CacheGoOn Avi' _ _ _ => cached_audio_len Avi' = cached_audio_len Avi
  end.
Proof.
  unfold GetAudioChunk_cache.
  destruct (have_audio_cache Avi && (offset >=? cached_audio_off Avi));
    [|reflexivity].
  destruct (AVI_GetAudioChunkFromCache Avi w out audiodata _ length)
    as [newlen out'].
  destruct (newlen >=? length); [reflexivity|].
  destruct (newlen =? 0); [exact I|].
  destruct (newlen <? length); reflexivity.
Qed.

Lemma GetAudioChunk_seek_empties (Avi : movie_state) (w : avworld codec)
    (offset : Z) (Avi1 : movie_state) :
  fst (GetAudioChunk_seek L Avi w offset) = Some Avi1 ->
  cached_audio_len Avi1 = 0.
Proof.
  unfold GetAudioChunk_seek.
  match goal with
  | |- context [AVI_SeekAudio L Avi ?ts w] =>
      destruct (AVI_SeekAudio L Avi ts w) as [ret w1]
  end.
  destruct (ret <? 0); cbn [fst]; [discriminate|].
  intros H.
  apply (f_equal (fun o => match o with Some x => x | None => Avi end)) in H.
  cbv beta iota in H. subst Avi1. reflexivity.
Qed.

Lemma fields_outside_cache_bps (Avi Avi' : movie_state) :
  fields_outside_cache Avi' = fields_outside_cache Avi ->
  audio_bytes_per_sample L Avi' = audio_bytes_per_sample L Avi
  /\ cached_audio_buf_len Avi' = cached_audio_buf_len Avi.
Proof.
  unfold fields_outside_cache, audio_bytes_per_sample. intros H.
  assert (channels Avi' = channels Avi) as -> by congruence.
  assert (s_fmt Avi' = s_fmt Avi) as -> by congruence.
  split; [reflexivity | congruence].
Qed.

Lemma GetAudioChunk_pass_fits (K : Z) (fuel : nat) (Avi : movie_state)
    (w : avworld codec) (out : memory) (audiodata offset length : Z) :
  3 * K <= INT_MAX ->
  frames_within L (audio_bytes_per_sample L Avi) K ->
  cache_fits K Avi w ->
  let st := pass_state (GetAudioChunk_pass L fuel Avi w out audiodata offset length)
              Avi w in
  cache_fits K (fst st) (snd st).
Proof.
  intros HK Hfr Hfit. cbv zeta. unfold GetAudioChunk_pass.
  pose proof (GetAudioChunk_cache_frame Avi w out audiodata offset length) as Hc.
  pose proof (GetAudioChunk_cache_keeps_length Avi w out audiodata offset length)
    as Hl.
  destruct (GetAudioChunk_cache Avi w out audiodata offset length)
    as [ret out'|Avi' out' audiodata' length'].
  { cbn [pass_state fst snd]. exact Hfit. }
  destruct (fields_outside_cache_bps Avi Avi' Hc) as [Hbps' Hbuf'].
  assert (Hfit' : cache_fits K Avi' w).
  { unfold cache_fits in *. rewrite Hl, Hbuf'. exact Hfit. }
  destruct (GetAudioChunk_seek_frame L Avi' w offset) as (_ & Hb & Hf).
  pose proof (GetAudioChunk_seek_empties Avi' w offset) as He.
  destruct (GetAudioChunk_seek L Avi' w offset) as [[Avi1|] w1]; cbn [fst snd] in *.
  2:{ cbn [pass_state fst snd]. unfold cache_fits in *. rewrite Hb. exact Hfit'. }
  specialize (Hf Avi1 eq_refl). specialize (He Avi1 eq_refl).
  destruct (fields_outside_cache_bps Avi' Avi1 Hf) as [Hbps1 Hbuf1].
  assert (Hfit1 : cache_fits K Avi1 w1).
  { unfold cache_fits in *. rewrite He, Hbuf1, Hb. lia. }
  rewrite Hbps1, Hbps'.
  pose proof (refill_fits K fuel (audio_bytes_per_sample L Avi) Avi1 w1) as Hr.
  destruct (refill L fuel (audio_bytes_per_sample L Avi) Avi1 w1)
    as [[[how Avi2] w2]|].
  2:{ cbn [pass_state fst snd]. exact Hfit. }
  specialize (Hr _ HK Hfr Hfit1 eq_refl). cbn [fst snd] in Hr.
  destruct how; try destruct (cached_audio_len Avi2 =? 0);
    cbn [pass_state fst snd]; exact Hr.
Qed.

(** X11.  The cache stays within its block.  Let every frame that the decoder
    gives take between 0 and [K] bytes, with [3 * K] within [int].  If, before
    a call of AVI_GetAudioChunk, the cache's length and its nominal capacity
    [cached_audio_buf_len] do not exceed the size of the block that
    [cached_audio] points to, then the same holds after the call: no refill
    has appended beyond the end of the block, although the capacity field is
    not updated when the block is reallocated. *)
Theorem GetAudioChunk_cache_within_block :
  forall (K : Z) (fuel : nat) (Avi : movie_state) (w : avworld codec)
         (out : memory) (audiodata offset length v : Z)
         (Avi' : movie_state) (w' : avworld codec) (out' : memory),
    3 * K <= INT_MAX ->
    frames_within L (audio_bytes_per_sample L Avi) K ->
    cache_fits K Avi w ->
    AVI_GetAudioChunk L fuel Avi w out audiodata offset length
    = Some (v, Avi', w', out') ->
    cache_fits K Avi' w'
    /\ cached_audio_buf_len Avi' = cached_audio_buf_len Avi.
Proof.
  intros K fuel. induction fuel as [|fuel IH];
    intros Avi w out audiodata offset length v Avi' w' out' HK Hfr Hfit Hrun;
    [discriminate|].
  cbn [AVI_GetAudioChunk] in Hrun.
  pose proof (GetAudioChunk_pass_fits K fuel Avi w out audiodata offset length
                HK Hfr Hfit) as Hp.
  pose proof (GetAudioChunk_pass_frame L fuel Avi w out audiodata offset length)
    as Hq.
  cbv zeta in Hp, Hq.
  destruct (GetAudioChunk_pass L fuel Avi w out audiodata offset length)
    as [[[[v1 Avi1] w1] out1]|Avi1 w1 out1 audiodata1 length1|];
    cbn [pass_state fst snd] in Hp, Hq.
  - inversion Hrun; subst. split; [exact Hp|].
    apply (fields_outside_cache_bps Avi Avi'). apply Hq.
  - destruct Hq as [Hq _].
    destruct (fields_outside_cache_bps Avi Avi1 Hq) as [Hbps Hbuf].
    rewrite <- Hbps in Hfr.
    destruct (IH _ _ _ _ _ _ _ _ _ _ HK Hfr Hp Hrun) as [H1 H2].
    split; [exact H1 | congruence].
  - discriminate.
Qed.

End CacheBounds.

(** ** A round of the refill that finds room *)

Section RefillAppends.

Context {codec : Type}.
Variable L : avlib codec.

(** X12.  A round of the refill whose frame fits.  When the decoder gives a
    frame of [n] bytes, [0 <= n], that the cache has room for (its length
    and [n] together do not exceed the capacity, which the block has), and
    the resampler delivers them, the round appends exactly these bytes: the
    block is the old one with the bytes of the frame written at the end of
    the cache, the cache is [n] bytes longer, and what it held is still
    there. *)
Theorem refill_round_appends :
  forall (bps : Z) (Avi : movie_state) (w : avworld codec),
    let d := AVI_DecodePacket L (audio_dec w) (pkt_obj w) (frame_obj w) in
    let n := nb_samples (snd d) * bps in
    let len := cached_audio_len Avi in
    0 <= fst (fst d) ->
    0 <= n -> 0 <= len ->
    len + n <= cached_audio_buf_len Avi ->
    cached_audio_buf_len Avi <= Z.of_nat (length (cache_block w)) ->
    cached_audio_buf_len Avi <= INT_MAX ->
    n <= Z.of_nat (length (swr_convert L (snd d))) ->
    let r := refill_round L bps Avi w in
    cached_audio_len (snd (fst r)) = len + n
    /\ cache_block (snd r)
       = firstn (Z.to_nat len) (cache_block w)
           ++ firstn (Z.to_nat n) (swr_convert L (snd d))
           ++ skipn (Z.to_nat (len + n)) (cache_block w)
    /\ firstn (Z.to_nat len) (cache_block (snd r))
       = firstn (Z.to_nat len) (cache_block w)
    /\ fst (fst r) <> LoopReturn0.
Proof.
  intros bps Avi w d n len Hret Hn Hlen Hroom Hcap Hint Hswr r.
  pose proof (refill_round_cache L bps Avi w) as Hc. cbv zeta in Hc.
  fold d in Hc. fold n in Hc. fold len in Hc. fold r in Hc.
  unfold INT_MAX in Hint.
  rewrite (to_int_id n) in Hc by (unfold in_int, INT_MIN, INT_MAX; lia).
  rewrite (to_int_id (len + n)) in Hc by (unfold in_int, INT_MIN, INT_MAX; lia).
  assert ((fst (fst d) <? 0) = false) as E1 by lia.
  assert ((len + n >? cached_audio_buf_len Avi) = false) as E2 by lia.
  rewrite E1, E2 in Hc. cbn [orb andb] in Hc.
  apply pair_equal_spec in Hc. destruct Hc as [Hc1 Hc2].
  assert (Hblock : cache_block (snd r)
                   = firstn (Z.to_nat len) (cache_block w)
                       ++ firstn (Z.to_nat n) (swr_convert L (snd d))
                       ++ skipn (Z.to_nat (len + n)) (cache_block w)).
  { rewrite Hc2. unfold store.
    assert (Hl : length (firstn (Z.to_nat n) (swr_convert L (snd d)))
                 = Z.to_nat n) by (rewrite length_firstn; lia).
    rewrite Hl.
    rewrite (firstn_all2 (n := (length (cache_block w) - Z.to_nat len)%nat))
      by (rewrite Hl; lia).
    do 3 f_equal. lia. }
  split; [exact Hc1|]. split; [exact Hblock|]. split.
  - rewrite Hblock, firstn_app, firstn_firstn, Nat.min_id.
    rewrite length_firstn.
    replace (Z.to_nat len - Nat.min (Z.to_nat len) (length (cache_block w)))%nat
      with O by lia.
    cbn [firstn]. apply app_nil_r.
  - subst r. unfold refill_round. fold d.
    destruct d as [[ret ctx] fr]. cbn [fst snd] in *. rewrite E1.
    clear - codec.
    destruct (_ && _); [discriminate|].
    destruct (_ >? _);
      (destruct (_ >=? _); [discriminate|]);
      match goal with
      | |- context [next_audio_packet ?s ?c] =>
          destruct (next_audio_packet s c) as [[[ret' valid] p] cur]
      end;
      destruct valid, (ret' =? AVERROR_EOF); discriminate.
Qed.

End RefillAppends.

(** ** The refill loop ends *)

Section RefillEnds.

Context {codec : Type}.
Variable L : avlib codec.

Lemma next_audio_packet_shorter (stream : Z) (cur : list AVPacket) :
  let r := next_audio_packet stream cur in
  if snd (fst (fst r))
  then (length (snd r) < length cur)%nat
  else snd r = [] /\ fst (fst (fst r)) = AVERROR_EOF.
Proof.
  cbv zeta. induction cur as [|q rest IH]; cbn [next_audio_packet].
  - split; reflexivity.
  - destruct (negb (stream_index q =? stream)).
    + destruct (snd (fst (fst (next_audio_packet stream rest)))).
      * cbn [length]. lia.
      * exact IH.
    + cbn [fst snd length]. lia.
Qed.

(** A round that goes round again has read on in the file, or it has met the
    end of the file and set the end-of-audio position to the end of the
    cache. *)
Lemma refill_round_again (bps : Z) (Avi : movie_state) (w : avworld codec) :
  let r := refill_round L bps Avi w in
  fst (fst r) = LoopAgain ->
  (length (cursor (snd r)) < length (cursor w))%nat
  \/ (cursor (snd r) = []
      /\ audio_eof_position (snd (fst r))
         = to_int (cached_audio_off (snd (fst r)) + cached_audio_len (snd (fst r)))).
Proof.
  cbv zeta. unfold refill_round.
  destruct (AVI_DecodePacket L (audio_dec w) (pkt_obj w) (frame_obj w))
    as [[ret ctx] fr].
  destruct (ret <? 0); [discriminate|].
  destruct (_ && _); [discriminate|].
  destruct (_ >? _);
    (destruct (_ >=? _); [discriminate|]);
    match goal with
    | |- context [next_audio_packet ?s ?c] =>
        pose proof (next_audio_packet_shorter s c) as Hn; cbv zeta in Hn;
        destruct (next_audio_packet s c) as [[[ret' valid] p] cur]
    end;
    cbn [fst snd] in Hn; intros _;
    (destruct valid;
     [left; destruct (ret' =? AVERROR_EOF); exact Hn
     |right; destruct Hn as [-> ->]; split; reflexivity]).
Qed.

(** Once the end-of-audio position is the end of the cache, the round that
    follows is the last. *)
Lemma refill_round_closing (K bps : Z) (Avi : movie_state) (w : avworld codec) :
  3 * K <= INT_MAX ->
  frames_within L bps K ->
  cache_fits K Avi w ->
  offset_fits K Avi ->
  audio_eof_position Avi
  = to_int (cached_audio_off Avi + cached_audio_len Avi) ->
  fst (fst (refill_round L bps Avi w)) <> LoopAgain.
Proof.
  unfold offset_fits. unfold INT_MAX, INT_MIN.
  intros HK Hfr (Hlen & Hcap & Hblock) [Hlo Hhi] Heof.
  specialize (Hfr (audio_dec w) (pkt_obj w) (frame_obj w)).
  unfold refill_round.
  destruct (AVI_DecodePacket L (audio_dec w) (pkt_obj w) (frame_obj w))
    as [[ret ctx] fr].
  cbn [fst snd] in Hfr.
  destruct (ret <? 0) eqn:Eret; [discriminate|].
  apply Z.ltb_ge in Eret. specialize (Hfr Eret).
  change (frame_obj (w <| audio_dec := ctx |> <| frame_obj := fr |>
                       <| pkt_obj := blank_packet |>)) with fr.
  set (n := nb_samples fr * bps) in *.
  assert (Hend :
    (to_int (to_int (cached_audio_len Avi + n) + cached_audio_off Avi)
     >=? audio_eof_position Avi) = true).
  { rewrite Heof.
    rewrite (to_int_id (cached_audio_len Avi + n))
      by (unfold in_int, INT_MIN, INT_MAX; lia).
    rewrite !to_int_id by (unfold in_int, INT_MIN, INT_MAX; lia). lia. }
  rewrite (to_int_id n) by (unfold in_int, INT_MIN, INT_MAX; lia).
  destruct (_ && _); [discriminate|].
  destruct (_ >? _);
    match goal with
    | |- context [if ?c then _ else _] =>
        replace c with true by (symmetry; exact Hend)
    end;
    discriminate.
Qed.

Lemma refill_round_offset (bps : Z) (Avi : movie_state) (w : avworld codec) :
  cached_audio_off (snd (fst (refill_round L bps Avi w))) = cached_audio_off Avi.
Proof. apply (refill_round_frame L bps Avi w). Qed.

Lemma refill_ends (K bps : Z) :
  3 * K <= INT_MAX ->
  frames_within L bps K ->
  forall (n : nat) (Avi : movie_state) (w : avworld codec),
    (length (cursor w) <= n)%nat ->
    cache_fits K Avi w ->
    offset_fits K Avi ->
    exists r, refill L (S (S n)) bps Avi w = Some r.
Proof.
  intros HK Hfr. induction n as [|n IH]; intros Avi w Hn Hfit Hoff.
  - cbn [refill].
    pose proof (refill_round_again bps Avi w) as Hagain.
    pose proof (refill_round_fits L K bps Avi w HK Hfr Hfit) as Hfit1.
    pose proof (refill_round_offset bps Avi w) as Hoff1.
    pose proof (fun H => refill_round_closing K bps
                  (snd (fst (refill_round L bps Avi w)))
                  (snd (refill_round L bps Avi w)) HK Hfr Hfit1 H) as Hclose.
    assert (Hoff' : offset_fits K (snd (fst (refill_round L bps Avi w))))
      by (unfold offset_fits in *; rewrite Hoff1; exact Hoff).
    specialize (Hclose Hoff').
    destruct (refill_round L bps Avi w) as [[how Avi1] w1].
    cbn [fst snd] in *.
    destruct how; try (eexists; reflexivity).
    destruct (Hagain eq_refl) as [Hlt|[_ Heof]]; [lia|].
    specialize (Hclose Heof).
    destruct (refill_round L bps Avi1 w1) as [[how2 Avi2] w2].
    cbn [fst] in Hclose.
    destruct how2; try (eexists; reflexivity). contradiction.
  - cbn [refill].
    pose proof (refill_round_again bps Avi w) as Hagain.
    pose proof (refill_round_fits L K bps Avi w HK Hfr Hfit) as Hfit1.
    pose proof (refill_round_offset bps Avi w) as Hoff1.
    pose proof (fun H => refill_round_closing K bps
                  (snd (fst (refill_round L bps Avi w)))
                  (snd (refill_round L bps Avi w)) HK Hfr Hfit1 H) as Hclose.
    assert (Hoff' : offset_fits K (snd (fst (refill_round L bps Avi w))))
      by (unfold offset_fits in *; rewrite Hoff1; exact Hoff).
    specialize (Hclose Hoff').
    destruct (refill_round L bps Avi w) as [[how Avi1] w1].
    cbn [fst snd] in *.
    destruct how; try (eexists; reflexivity).
    destruct (Hagain eq_refl) as [Hlt|[_ Heof]].
    + assert (Hn1 : (length (cursor w1) <= n)%nat) by lia.
      destruct (IH Avi1 w1 Hn1 Hfit1 Hoff') as [r Hr].
      exists r. exact Hr.
    + specialize (Hclose Heof).
      destruct (refill_round L bps Avi1 w1) as [[how2 Avi2] w2].
      cbn [fst] in Hclose.
      destruct how2; try (eexists; reflexivity). contradiction.
Qed.

(** X13.  The refill loop ends.  Let every frame that the decoder gives take
    between 0 and [K] bytes, the cache lie within its block, and the sums of
    offsets and lengths stay within [int].  Then the [while( true )] loop of
    AVI_GetAudioChunk is left after at most two rounds more than there are
    packets still to read: each round that goes round again has read at least
    one packet, but for the one that meets the end of the file, and the round
    after that one leaves the loop. *)
Theorem refill_terminates :
  forall (K bps : Z) (Avi : movie_state) (w : avworld codec),
    3 * K <= INT_MAX ->
    frames_within L bps K ->
    cache_fits K Avi w ->
    offset_fits K Avi ->
    exists r,
      refill L (S (S (length (cursor w)))) bps Avi w = Some r
      /\ fst (fst r) <> LoopAgain
      /\ cache_fits K (snd (fst r)) (snd r).
Proof.
  intros K bps Avi w HK Hfr Hfit Hoff.
  destruct (refill_ends K bps HK Hfr (length (cursor w)) Avi w (le_n _) Hfit Hoff)
    as [r Hr].
  exists r. split; [exact Hr|]. split.
  - clear Hfit Hoff. revert Hr.
    generalize (S (S (length (cursor w)))) as fuel.
    intros fuel. revert Avi w.
    induction fuel as [|fuel IH]; intros Avi w' Hr; [discriminate|].
    cbn [refill] in Hr.
    destruct (refill_round L bps Avi w') as [[how Avi1] w1].
    destruct how; try (inversion Hr; subst r; cbn [fst]; discriminate).
    exact (IH Avi1 w1 Hr).
  - exact (refill_fits L K _ bps Avi w r HK Hfr Hfit Hr).
Qed.

End RefillEnds.

(** ** A request that straddles the end of the cache *)

Section PartialHit.

Context {codec : Type}.
Variable L : avlib codec.

Lemma GetAudioChunk_value_range (fuel : nat) :
  forall (Avi : movie_state) (w : avworld codec) (out : memory)
         (audiodata offset length : Z) r,
    0 <= length -> in_int length ->
    AVI_GetAudioChunk L fuel Avi w out audiodata offset length = Some r ->
    0 <= fst (fst (fst r)) <= length.
Proof.
  induction fuel as [|fuel IH];
    intros Avi w out audiodata offset length r H0 Hr Hrun; [discriminate|].
  cbn [AVI_GetAudioChunk] in Hrun.
  pose proof (GetAudioChunk_pass_length L fuel Avi w out audiodata offset
                length H0 Hr) as Hp.
  destruct (GetAudioChunk_pass L fuel Avi w out audiodata offset length)
    as [r'|Avi' w' out' audiodata' length'|].
  - inversion Hrun; subst r'. exact Hp.
  - assert (Hr' : in_int length')
      by (unfold in_int, INT_MIN, INT_MAX in *; lia).
    specialize (IH Avi' w' out' audiodata' offset length' r ltac:(lia) Hr' Hrun).
    lia.
  - discriminate.
Qed.

(** The first part of AVI_GetAudioChunk on a request of which the cache holds
    the beginning only. *)
Lemma GetAudioChunk_cache_partial (Avi : movie_state) (w : avworld codec)
    (out : memory) (audiodata offset length : Z) :
  have_audio_cache Avi = true ->
  in_int (cached_audio_len Avi) -> in_int length ->
  let pos := offset - cached_audio_off Avi in
  let held := cached_audio_len Avi - pos in
  0 <= pos -> pos + length <= INT_MAX -> 0 < held < length ->
  GetAudioChunk_cache Avi w out audiodata offset length
  = CacheGoOn Avi (memcpy out audiodata (cache_block w) pos held)
      (audiodata + (length - held)) held.
Proof.
  intros Hhave Hsize Hlen pos held Hpos Hsum Hheld.
  unfold in_int, INT_MIN, INT_MAX in Hsize, Hlen, Hsum. subst pos held.
  unfold GetAudioChunk_cache, AVI_GetAudioChunkFromCache. rewrite Hhave.
  assert ((offset >=? cached_audio_off Avi) = true) as -> by lia.
  cbn [andb].
  rewrite (to_int_id (offset - cached_audio_off Avi))
    by (unfold in_int, INT_MIN, INT_MAX; lia).
  rewrite (to_int_id (offset - cached_audio_off Avi + length))
    by (unfold in_int, INT_MIN, INT_MAX; lia).
  rewrite (to_int_id (offset - cached_audio_off Avi + length - cached_audio_len Avi))
    by (unfold in_int, INT_MIN, INT_MAX; lia).
  rewrite (to_int_id (cached_audio_len Avi - (offset - cached_audio_off Avi)))
    by (unfold in_int, INT_MIN, INT_MAX; lia).
  assert ((offset - cached_audio_off Avi + length - cached_audio_len Avi <? 0)
          = false) as -> by lia.
  assert ((cached_audio_len Avi - (offset - cached_audio_off Avi) >? 0) = true)
    as -> by lia.
  assert ((offset - cached_audio_off Avi + length - cached_audio_len Avi
           >=? length) = false) as -> by lia.
  assert ((offset - cached_audio_off Avi + length - cached_audio_len Avi =? 0)
          = false) as -> by lia.
  assert ((offset - cached_audio_off Avi + length - cached_audio_len Avi
           <? length) = true) as -> by lia.
  rewrite to_int_id by (unfold in_int, INT_MIN, INT_MAX; lia).
  f_equal; lia.
Qed.

(** X14.  A request of which the valid cache holds only the first [held]
    bytes, [0 < held < length], with the sums formed within [int].  The call
    copies these bytes to the start of
    the caller's buffer and goes on to seek and refill with the same offset,
    with [held] as the length still asked for, and with the output pointer
    moved on by [length - held], the number of bytes that were missing.  If it
    returns, the value is at most [held]: such a request is never served in
    full by one call. *)
Theorem GetAudioChunk_partial_hit_short_read :
  forall (fuel : nat) (Avi : movie_state) (w : avworld codec) (out : memory)
         (audiodata offset length : Z),
    have_audio_cache Avi = true ->
    in_int (cached_audio_len Avi) -> in_int length ->
    let pos := offset - cached_audio_off Avi in
    let held := cached_audio_len Avi - pos in
    0 <= pos -> pos + length <= INT_MAX -> 0 < held < length ->
    GetAudioChunk_cache Avi w out audiodata offset length
    = CacheGoOn Avi (memcpy out audiodata (cache_block w) pos held)
        (audiodata + (length - held)) held
    /\ forall r,
        AVI_GetAudioChunk L fuel Avi w out audiodata offset length = Some r ->
        0 <= fst (fst (fst r)) <= held
        /\ fst (fst (fst r)) < length.
Proof.
  intros fuel Avi w out audiodata offset length Hhave Hsize Hlen pos held
    Hpos Hsum Hheld.
  pose proof (GetAudioChunk_cache_partial Avi w out audiodata offset length
                Hhave Hsize Hlen Hpos Hsum Hheld) as Hc.
  fold pos held in Hc. split; [exact Hc|].
  intros r Hrun. destruct fuel as [|fuel]; [discriminate|].
  cbn [AVI_GetAudioChunk] in Hrun.
  assert (Hin : in_int held) by (unfold in_int, INT_MIN, INT_MAX in *; lia).
  unfold GetAudioChunk_pass in Hrun. rewrite Hc in Hrun.
  destruct (GetAudioChunk_seek L Avi w offset) as [[Avi1|] w1].
  - destruct (refill L fuel (audio_bytes_per_sample L Avi1) Avi1 w1)
      as [[[how Avi2] w2]|]; [|discriminate].
    assert (Hgo : (if cached_audio_len Avi2 =? 0
                   then Some (0, Avi2, w2,
                              memcpy out audiodata (cache_block w) pos held)
                   else AVI_GetAudioChunk L fuel Avi2 w2
                          (memcpy out audiodata (cache_block w) pos held)
                          (audiodata + (length - held)) offset held) = Some r ->
                  0 <= fst (fst (fst r)) <= held).
    { destruct (cached_audio_len Avi2 =? 0).
      - intros H. inversion H; subst r. cbn [fst]. lia.
      - intros H.
        assert (H0 : 0 <= held) by lia.
        exact (GetAudioChunk_value_range fuel _ _ _ _ _ _ r H0 Hin H). }
    destruct how.
    + inversion Hrun; subst r. cbn [fst]. lia.
    + destruct (cached_audio_len Avi2 =? 0);
        specialize (Hgo Hrun); lia.
    + destruct (cached_audio_len Avi2 =? 0);
        specialize (Hgo Hrun); lia.
  - inversion Hrun; subst r. cbn [fst]. lia.
Qed.

Lemma memcpy_outside (m : memory) (d : Z) (src : list byte) (s n i : Z) :
  ~ (d <= i < d + n) -> memcpy m d src s n i = m i.
Proof.
  intros H. unfold memcpy.
  destruct ((d <=? i) && (i <? d + n)) eqn:E; [|reflexivity].
  exfalso. apply H. lia.
Qed.

(** The first part of AVI_GetAudioChunk writes inside the caller's buffer,
    and what it goes on with lies inside it. *)
Lemma GetAudioChunk_cache_inside (Avi : movie_state) (w : avworld codec)
    (out : memory) (audiodata offset length : Z) :
  0 <= length ->
  0 <= cached_audio_len Avi <= INT_MAX ->
  offset - cached_audio_off Avi + length <= INT_MAX ->
  match GetAudioChunk_cache Avi w out audiodata offset length with
  | CacheReturn _ out' =>
      forall i, ~ (audiodata <= i < audiodata + length) -> out' i = out i
  | CacheGoOn _ out' audiodata' length' =>
      (forall i, ~ (audiodata <= i < audiodata + length) -> out' i = out i)
      /\ audiodata <= audiodata'
      /\ audiodata' + length' <= audiodata + length
      /\ 0 <= length'
  end.
Proof.
  unfold INT_MAX. intros Hlen Hsize Hsum.
  unfold GetAudioChunk_cache.
  destruct (have_audio_cache Avi); cbn [andb];
    [|split; [reflexivity | lia]].
  destruct (offset >=? cached_audio_off Avi) eqn:Eoff;
    [|split; [reflexivity | lia]].
  rewrite (to_int_id (offset - cached_audio_off Avi))
    by (unfold in_int, INT_MIN, INT_MAX; lia).
  set (pos := offset - cached_audio_off Avi) in *.
  unfold AVI_GetAudioChunkFromCache.
  rewrite (to_int_id (pos + length)) by (unfold in_int, INT_MIN, INT_MAX; lia).
  rewrite (to_int_id (pos + length - cached_audio_len Avi))
    by (unfold in_int, INT_MIN, INT_MAX; lia).
  rewrite (to_int_id (cached_audio_len Avi - pos))
    by (unfold in_int, INT_MIN, INT_MAX; lia).
  destruct (pos + length - cached_audio_len Avi <? 0) eqn:Ew.
  - destruct (0 >=? length) eqn:E0.
    + split; [|lia]. intros i Hi. apply memcpy_outside. exact Hi.
    + cbn [Z.eqb]. intros i Hi. apply memcpy_outside. exact Hi.
  - assert (Hout : forall i,
               ~ (audiodata <= i < audiodata + length) ->
               (if cached_audio_len Avi - pos >? 0
                then memcpy out audiodata (cache_block w) pos
                       (cached_audio_len Avi - pos)
                else out) i = out i).
    { intros i Hi. destruct (cached_audio_len Avi - pos >? 0) eqn:Er;
        [|reflexivity].
      apply memcpy_outside. lia. }
    destruct (pos + length - cached_audio_len Avi >=? length) eqn:E1;
      [split; [exact Hout | lia]|].
    destruct (pos + length - cached_audio_len Avi =? 0) eqn:E2; [exact Hout|].
    destruct (pos + length - cached_audio_len Avi <? length) eqn:E3;
      [|split; [exact Hout | lia]].
    rewrite to_int_id by (unfold in_int, INT_MIN, INT_MAX; lia).
    split; [exact Hout | lia].
Qed.

(** X15.  One pass through AVI_GetAudioChunk writes nowhere but inside the
    caller's buffer, the [length] bytes from [audiodata] on; and when the
    function calls itself, the pointer and the length that it passes on
    denote a part of that buffer.  This is stated for a request and a cache
    whose sums stay within [int]. *)
Theorem GetAudioChunk_pass_writes_inside :
  forall (fuel : nat) (Avi : movie_state) (w : avworld codec) (out : memory)
         (audiodata offset length : Z),
    0 <= length ->
    0 <= cached_audio_len Avi <= INT_MAX ->
    offset - cached_audio_off Avi + length <= INT_MAX ->
    match GetAudioChunk_pass L fuel Avi w out audiodata offset length with
    | PassReturn r =>
        forall i, ~ (audiodata <= i < audiodata + length) -> snd r i = out i
    | PassRetry _ _ out' audiodata' length' =>
        (forall i, ~ (audiodata <= i < audiodata + length) -> out' i = out i)
        /\ audiodata <= audiodata'
        /\ audiodata' + length' <= audiodata + length
        /\ 0 <= length'
    | PassLoops => True
    end.
Proof.
  intros fuel Avi w out audiodata offset length Hlen Hsize Hsum.
  pose proof (GetAudioChunk_cache_inside Avi w out audiodata offset length
                Hlen Hsize Hsum) as Hc.
  unfold GetAudioChunk_pass.
  destruct (GetAudioChunk_cache Avi w out audiodata offset length)
    as [ret out'|Avi' out' audiodata' length']; [exact Hc|].
  destruct Hc as [Hout Hwin].
  destruct (GetAudioChunk_seek L Avi' w offset) as [[Avi1|] w1];
    [|exact Hout].
  destruct (refill L fuel (audio_bytes_per_sample L Avi1) Avi1 w1)
    as [[[how Avi2] w2]|]; [|exact I].
  destruct how; try exact Hout;
    (destruct (cached_audio_len Avi2 =? 0); [exact Hout|]);
    (split; [exact Hout | exact Hwin]).
Qed.

End PartialHit.

(** ** A request that the refill serves *)

Section MissThenHit.

Context {codec : Type}.
Variable L : avlib codec.

Lemma refill_more_fuel (fuel : nat) :
  forall (bps : Z) (Avi : movie_state) (w : avworld codec) r,
    refill L fuel bps Avi w = Some r ->
    refill L (S fuel) bps Avi w = Some r.
Proof.
  induction fuel as [|fuel IH]; intros bps Avi w r Hrun; [discriminate|].
  cbn [refill] in Hrun. cbn [refill].
  destruct (refill_round L bps Avi w) as [[how Avi1] w1].
  destruct how; try exact Hrun.
  exact (IH bps Avi1 w1 r Hrun).
Qed.

Lemma store_keeps_prefix (block bytes : list byte) (off : Z) :
  0 <= off <= Z.of_nat (length block) ->
  firstn (Z.to_nat off) (store block off bytes) = firstn (Z.to_nat off) block.
Proof.
  intros H. unfold store.
  rewrite firstn_app, firstn_firstn, Nat.min_id, length_firstn.
  replace (Z.to_nat off - Nat.min (Z.to_nat off) (length block))%nat with O by lia.
  cbn [firstn]. apply app_nil_r.
Qed.

(** A round of the refill keeps what the cache held, and the cache does not
    get shorter. *)
Lemma refill_round_prefix (K bps : Z) (Avi : movie_state) (w : avworld codec) :
  3 * K <= INT_MAX ->
  frames_within L bps K ->
  cache_fits K Avi w ->
  firstn (Z.to_nat (cached_audio_len Avi))
    (cache_block (snd (refill_round L bps Avi w)))
  = firstn (Z.to_nat (cached_audio_len Avi)) (cache_block w)
  /\ cached_audio_len Avi
     <= cached_audio_len (snd (fst (refill_round L bps Avi w))).
Proof.
  unfold INT_MAX. intros HK Hfr (Hlen & Hcap & Hblock).
  pose proof (refill_round_cache L bps Avi w) as Hc. cbv zeta in Hc.
  specialize (Hfr (audio_dec w) (pkt_obj w) (frame_obj w)).
  revert Hc.
  destruct (fst (fst (AVI_DecodePacket L (audio_dec w) (pkt_obj w) (frame_obj w)))
            <? 0) eqn:Eret; cbn [orb].
  { intros Hc. apply pair_equal_spec in Hc. destruct Hc as [-> ->].
    split; [reflexivity | lia]. }
  apply Z.ltb_ge in Eret. specialize (Hfr Eret).
  set (n := nb_samples _ * bps) in *.
  rewrite (to_int_id n) by (unfold in_int, INT_MIN, INT_MAX; lia).
  rewrite (to_int_id (cached_audio_len Avi + n))
    by (unfold in_int, INT_MIN, INT_MAX; lia).
  destruct (cached_audio_len Avi + n >? cached_audio_buf_len Avi) eqn:Eov;
    cbn [andb].
  - destruct (cached_audio_len Avi =? 0) eqn:E0; cbn [negb];
      intros Hc; apply pair_equal_spec in Hc; destruct Hc as [-> ->].
    + apply Z.eqb_eq in E0. rewrite E0. cbn [Z.to_nat firstn].
      split; [reflexivity | lia].
    + split; [reflexivity | lia].
  - intros Hc; apply pair_equal_spec in Hc; destruct Hc as [-> ->].
    split; [|lia]. apply store_keeps_prefix. lia.
Qed.

Lemma refill_prefix (K : Z) (fuel : nat) :
  forall (bps : Z) (Avi : movie_state) (w : avworld codec) r,
    3 * K <= INT_MAX ->
    frames_within L bps K ->
    cache_fits K Avi w ->
    refill L fuel bps Avi w = Some r ->
    firstn (Z.to_nat (cached_audio_len Avi)) (cache_block (snd r))
    = firstn (Z.to_nat (cached_audio_len Avi)) (cache_block w)
    /\ cached_audio_len Avi <= cached_audio_len (snd (fst r)).
Proof.
  induction fuel as [|fuel IH]; intros bps Avi w r HK Hfr Hfit Hrun;
    [discriminate|].
  cbn [refill] in Hrun.
  destruct (refill_round_prefix K bps Avi w HK Hfr Hfit) as [Hpre Hle].
  pose proof (refill_round_fits L K bps Avi w HK Hfr Hfit) as Hfit1.
  destruct (refill_round L bps Avi w) as [[how Avi1] w1]. cbn [fst snd] in *.
  destruct how; try (inversion Hrun; subst r; cbn [fst snd]; split; assumption).
  destruct (IH bps Avi1 w1 r HK Hfr Hfit1 Hrun) as [Hpre1 Hle1].
  split; [|lia].
  destruct Hfit as ((Hlen0 & _) & _).
  apply (f_equal (firstn (Z.to_nat (cached_audio_len Avi)))) in Hpre1.
  rewrite !firstn_firstn in Hpre1.
  rewrite Nat.min_l in Hpre1 by lia.
  rewrite Hpre1. exact Hpre.
Qed.

(** The first round of a refill, on the empty cache that the seek leaves. *)
Lemma refill_round_first (K bps : Z) (Avi : movie_state) (w : avworld codec) :
  3 * K <= INT_MAX ->
  frames_within L bps K ->
  cache_fits K Avi w ->
  cached_audio_len Avi = 0 ->
  let d := AVI_DecodePacket L (audio_dec w) (pkt_obj w) (frame_obj w) in
  let n := nb_samples (snd d) * bps in
  0 <= fst (fst d) ->
  n <= Z.of_nat (length (swr_convert L (snd d))) ->
  let r := refill_round L bps Avi w in
  cached_audio_len (snd (fst r)) = n
  /\ firstn (Z.to_nat n) (cache_block (snd r))
     = firstn (Z.to_nat n) (swr_convert L (snd d)).
Proof.
  intros HK Hfr (Hlen & Hcap & Hblock) Hempty d n Hret Hswr r.
  unfold INT_MAX in HK.
  pose proof (refill_round_cache L bps Avi w) as Hc. cbv zeta in Hc.
  fold d in Hc. fold n in Hc. fold r in Hc.
  specialize (Hfr (audio_dec w) (pkt_obj w) (frame_obj w) Hret). fold d n in Hfr.
  rewrite Hempty in Hc.
  rewrite (to_int_id n) in Hc by (unfold in_int, INT_MIN, INT_MAX; lia).
  rewrite (to_int_id (0 + n)) in Hc by (unfold in_int, INT_MIN, INT_MAX; lia).
  assert ((fst (fst d) <? 0) = false) as E1 by lia.
  rewrite E1, andb_false_r in Hc. cbn [orb negb] in Hc.
  apply pair_equal_spec in Hc. destruct Hc as [Hc1 Hc2].
  split; [rewrite Hc1; lia|].
  assert (Hl : length (firstn (Z.to_nat n) (swr_convert L (snd d))) = Z.to_nat n)
    by (rewrite length_firstn; lia).
  rewrite Hc2.
  change (Z.to_nat 0) with O. 
  rewrite store_at_start.
  - rewrite Hl, firstn_app, Hl, Nat.sub_diag, firstn_O, app_nil_r.
    apply firstn_all2. rewrite Hl. lia.
  - rewrite Hl.
    destruct (0 + n >? cached_audio_buf_len Avi) eqn:Eov.
    + rewrite realloc_block_length.
      rewrite (to_size_t_id n) by lia. rewrite (to_size_t_id (n * 2)) by lia.
      lia.
    + lia.
Qed.

(** X16.  A request that the refill serves.  Let the cache not be valid, the
    seek of AVI_GetAudioChunk succeed with the cache starting at or before
    the offset asked for, the decoder give a first frame of [n] bytes that
    holds the whole request, and the refill end otherwise than by a failing
    decode.  Then the call returns [length], after calling itself once, and
    the caller's buffer holds the bytes of that first frame from the offset
    on: the request is served from the frame of the packet that the seek
    kept. *)
Theorem GetAudioChunk_miss_served_by_refill :
  forall (K : Z) (fuel : nat) (Avi : movie_state) (w : avworld codec)
         (out : memory) (audiodata offset length : Z)
         (Avi1 : movie_state) (w1 : avworld codec)
         (how : loop_exit) (Avi2 : movie_state) (w2 : avworld codec),
    have_audio_cache Avi = false ->
    0 < length ->
    GetAudioChunk_seek L Avi w offset = (Some Avi1, w1) ->
    cached_audio_off Avi1 <= offset ->
    3 * K <= INT_MAX ->
    frames_within L (audio_bytes_per_sample L Avi1) K ->
    cache_fits K Avi1 w1 ->
    let d := AVI_DecodePacket L (audio_dec w1) (pkt_obj w1) (frame_obj w1) in
    let n := nb_samples (snd d) * audio_bytes_per_sample L Avi1 in
    0 <= fst (fst d) ->
    n <= Z.of_nat (List.length (swr_convert L (snd d))) ->
    offset + length <= cached_audio_off Avi1 + n ->
    refill L fuel (audio_bytes_per_sample L Avi1) Avi1 w1 = Some (how, Avi2, w2) ->
    how <> LoopReturn0 ->
    exists out',
      AVI_GetAudioChunk L (S (S fuel)) Avi w out audiodata offset length
      = Some (length, Avi2, w2, out')
      /\ (forall i, 0 <= i < length ->
            out' (audiodata + i)
            = nth (Z.to_nat (offset - cached_audio_off Avi1 + i))
                (swr_convert L (snd d)) x00)
      /\ (forall j, ~ (audiodata <= j < audiodata + length) -> out' j = out j).
Proof.
  intros K fuel Avi w out audiodata offset length Avi1 w1 how Avi2 w2
    Hnocache Hlength Hseek Hstart HK Hfr Hfit d n Hret Hswr Hin Hfill Hhow.
  set (bps := audio_bytes_per_sample L Avi1) in *.
  assert (Hempty : cached_audio_len Avi1 = 0).
  { apply (GetAudioChunk_seek_empties L Avi w offset). rewrite Hseek. reflexivity. }
  assert (Hhave1 : have_audio_cache Avi1 = true).
  { revert Hseek. unfold GetAudioChunk_seek.
    match goal with
    | |- context [AVI_SeekAudio L Avi ?ts w] =>
        destruct (AVI_SeekAudio L Avi ts w) as [ret w']
    end.
    destruct (ret <? 0); [discriminate|].
    intros H. apply pair_equal_spec in H. destruct H as [H _].
    apply (f_equal (fun o => match o with Some x => x | None => Avi end)) in H.
    cbv beta iota in H. subst Avi1. reflexivity. }
  (* the state that the refill leaves *)
  destruct (refill_frame L _ _ _ _ _ Hfill) as (_ & Hoff2 & Hhave2 & _).
  cbn [fst snd] in Hoff2, Hhave2.
  pose proof (refill_fits L K _ _ _ _ _ HK Hfr Hfit Hfill) as Hfit2.
  cbn [fst snd] in Hfit2.
  assert (Hcontent :
    n <= cached_audio_len Avi2
    /\ firstn (Z.to_nat n) (cache_block w2)
       = firstn (Z.to_nat n) (swr_convert L (snd d))).
  { destruct fuel as [|fuel']; [discriminate|].
    cbn [refill] in Hfill.
    destruct (refill_round_first K bps Avi1 w1 HK Hfr Hfit Hempty Hret Hswr)
      as [Hn Hfirst].
    pose proof (refill_round_fits L K bps Avi1 w1 HK Hfr Hfit) as HfitA.
    fold d n in Hn, Hfirst. cbv zeta in Hn, Hfirst.
    destruct (refill_round L bps Avi1 w1) as [[howA AviA] wA].
    cbn [fst snd] in *.
    destruct howA.
    - inversion Hfill; subst. contradiction.
    - inversion Hfill; subst. split; [lia | exact Hfirst].
    - destruct (refill_prefix K fuel' bps AviA wA _ HK Hfr HfitA Hfill)
        as [Hpre Hle].
      cbn [fst snd] in Hpre, Hle. rewrite Hn in Hpre, Hle.
      split; [exact Hle|]. rewrite Hpre. exact Hfirst. }
  destruct Hcontent as [Hlen2 Hblock2].
  assert (Hn0 : 0 < n) by lia.
  destruct Hfit2 as ((_ & Hlen2') & _ & Hcap2).
  unfold INT_MAX in HK.
  (* the first pass *)
  set (pos := offset - cached_audio_off Avi1) in *.
  exists (memcpy out audiodata (cache_block w2) pos length).
  split; [|split].
  - cbn [AVI_GetAudioChunk]. unfold GetAudioChunk_pass at 1.
    unfold GetAudioChunk_cache at 1. rewrite Hnocache. cbn [andb].
    rewrite Hseek. fold bps.
    rewrite (refill_more_fuel _ _ _ _ _ Hfill).
    assert ((cached_audio_len Avi2 =? 0) = false) as E0 by lia.
    match goal with
    | |- match ?p with _ => _ end = _ =>
        replace p with (PassRetry Avi2 w2 out audiodata length)
          by (symmetry; destruct how;
              [contradiction | rewrite E0; reflexivity | rewrite E0; reflexivity])
    end.
    (* the second pass *)
    destruct fuel as [|fuel']; [discriminate|].
    cbn [AVI_GetAudioChunk]. unfold GetAudioChunk_pass, GetAudioChunk_cache.
    rewrite Hhave2, Hhave1, Hoff2.
    assert ((offset >=? cached_audio_off Avi1) = true) as -> by lia.
    cbn [andb]. fold pos.
    rewrite (to_int_id pos) by (unfold in_int, INT_MIN, INT_MAX; lia).
    rewrite GetAudioChunkFromCache_covered;
      [|unfold in_int, INT_MIN, INT_MAX; lia | lia | lia | lia].
    assert ((0 >=? length) = false) as -> by lia.
    cbn [Z.eqb]. reflexivity.
  - intros i Hi. rewrite memcpy_copies by exact Hi.
    rewrite <- (firstn_skipn (Z.to_nat n) (cache_block w2)).
    rewrite app_nth1
      by (rewrite length_firstn; lia).
    rewrite Hblock2.
    rewrite <- (firstn_skipn (Z.to_nat n) (swr_convert L (snd d))) at 2.
    rewrite app_nth1 by (rewrite length_firstn; lia).
    reflexivity.
  - intros j Hj. apply memcpy_outside. exact Hj.
Qed.

End MissThenHit.

(** ** The call that meets the end of the file *)

Section EndOfFile.

Context {codec : Type}.
Variable L : avlib codec.
Hypothesis Hdelay : decoder_without_delay L.

(** A refill that has set the end-of-audio position ends with the failure of
    the next decode. *)
Lemma refill_end_of_file (fuel : nat) :
  forall (bps : Z) (Avi : movie_state) (w : avworld codec) r,
    refill L fuel bps Avi w = Some r ->
    audio_eof_position (snd (fst r)) <> audio_eof_position Avi ->
    fst (fst r) = LoopReturn0.
Proof.
  induction fuel as [|fuel IH]; intros bps Avi w r Hrun Hne; [discriminate|].
  cbn [refill] in Hrun.
  destruct (refill_round_inv L bps Avi w) as (_ & _ & Heof). cbv zeta in Heof.
  destruct (refill_round L bps Avi w) as [[how Avi1] w1]. cbn [fst snd] in *.
  destruct Heof as [Heof|[Hhow Hb]].
  - destruct how;
      try (inversion Hrun; subst r; cbn [fst snd] in *; congruence).
    apply (IH bps Avi1 w1 r Hrun). congruence.
  - subst how. destruct fuel as [|fuel]; [discriminate|].
    cbn [refill] in Hrun.
    destruct (refill_round_inv L bps Avi1 w1) as (_ & Hfail & _).
    cbv zeta in Hfail.
    specialize (Hfail (Hdelay (audio_dec w1) (pkt_obj w1) (frame_obj w1) Hb)).
    destruct (refill_round L bps Avi1 w1) as [[how2 Avi2] w2].
    cbn [fst] in Hfail. apply pair_equal_spec in Hfail.
    destruct Hfail as [-> _]. inversion Hrun; subst r. reflexivity.
Qed.

Lemma GetAudioChunk_pass_end_of_file (fuel : nat) (Avi : movie_state)
    (w : avworld codec) (out : memory) (audiodata offset length : Z) :
  match GetAudioChunk_pass L fuel Avi w out audiodata offset length with
  | PassReturn (v, Avi', _, _) =>
      audio_eof_position Avi' <> audio_eof_position Avi ->
      v = 0 /\ have_audio_cache Avi' = true
  | PassRetry Avi' _ _ _ _ => audio_eof_position Avi' = audio_eof_position Avi
  | PassLoops => True
  end.
Proof.
  unfold GetAudioChunk_pass.
  pose proof (GetAudioChunk_cache_inv Avi w out audiodata offset length) as Hc.
  destruct (GetAudioChunk_cache Avi w out audiodata offset length)
    as [ret out'|Avi' out' audiodata' length'].
  { intros C. exfalso. apply C. reflexivity. }
  destruct (GetAudioChunk_seek_inv L Avi' w offset) as [_ He].
  assert (Hhave : forall Avi1,
             fst (GetAudioChunk_seek L Avi' w offset) = Some Avi1 ->
             have_audio_cache Avi1 = true).
  { unfold GetAudioChunk_seek.
    match goal with
    | |- context [AVI_SeekAudio L Avi' ?ts w] =>
        destruct (AVI_SeekAudio L Avi' ts w) as [ret w1]
    end.
    destruct (ret <? 0); cbn [fst]; [discriminate|].
    intros Avi1 H.
    apply (f_equal (fun o => match o with Some x => x | None => Avi' end)) in H.
    cbv beta iota in H. subst Avi1. reflexivity. }
  destruct (GetAudioChunk_seek L Avi' w offset) as [[Avi1|] w1]; cbn [fst snd] in *.
  2:{ intros C. exfalso. apply C. exact Hc. }
  specialize (He Avi1 eq_refl). specialize (Hhave Avi1 eq_refl).
  destruct (refill L fuel (audio_bytes_per_sample L Avi1) Avi1 w1)
    as [[[how Avi2] w2]|] eqn:Efill; [|exact I].
  pose proof (refill_end_of_file _ _ _ _ _ Efill) as Hend.
  destruct (refill_frame L _ _ _ _ _ Efill) as (_ & _ & Hkeep & _).
  cbn [fst snd] in Hend, Hkeep.
  assert (Hsame : how <> LoopReturn0 ->
                  audio_eof_position Avi2 = audio_eof_position Avi).
  { intros Hhow.
    destruct (Z.eq_dec (audio_eof_position Avi2) (audio_eof_position Avi1))
      as [E|E]; [congruence|].
    exfalso. apply Hhow. apply Hend. exact E. }
  destruct how.
  - intros _. split; [reflexivity | congruence].
  - destruct (cached_audio_len Avi2 =? 0).
    + intros _. split; [reflexivity | congruence].
    + apply Hsame. discriminate.
  - destruct (cached_audio_len Avi2 =? 0).
    + intros _. split; [reflexivity | congruence].
    + apply Hsame. discriminate.
Qed.

(** X17.  With a decoder without delay, the call of AVI_GetAudioChunk that
    meets the end of the file returns 0: whenever a call leaves the
    end-of-audio position other than it found it, the value returned is 0,
    whatever the refill had put into the cache by then; and the cache is
    left valid, for the calls that follow. *)
Theorem GetAudioChunk_end_of_file_returns_zero :
  forall (fuel : nat) (Avi : movie_state) (w : avworld codec) (out : memory)
         (audiodata offset length v : Z)
         (Avi' : movie_state) (w' : avworld codec) (out' : memory),
    AVI_GetAudioChunk L fuel Avi w out audiodata offset length
    = Some (v, Avi', w', out') ->
    audio_eof_position Avi' <> audio_eof_position Avi ->
    v = 0 /\ have_audio_cache Avi' = true.
Proof.
  induction fuel as [|fuel IH];
    intros Avi w out audiodata offset length v Avi' w' out' Hrun Hne;
    [discriminate|].
  cbn [AVI_GetAudioChunk] in Hrun.
  pose proof (GetAudioChunk_pass_end_of_file fuel Avi w out audiodata offset
                length) as Hp.
  destruct (GetAudioChunk_pass L fuel Avi w out audiodata offset length)
    as [[[[v1 Avi1] w1] out1]|Avi1 w1 out1 audiodata1 length1|].
  - inversion Hrun; subst. exact (Hp Hne).
  - apply (IH _ _ _ _ _ _ _ _ _ _ Hrun). congruence.
  - discriminate.
Qed.

End EndOfFile.

(** ** More on opening a session *)

Lemma OpenCodecContext_parts (E : open_env) (dst_dec_ctx : ptr)
    (type : AVMediaType) :
  let r := AVI_OpenCodecContext E dst_dec_ctx type in
  (fst r < 0 /\ snd r = dst_dec_ctx)
  \/ (0 <= fst r
      /\ fst r = av_find_best_stream E type
      /\ snd r = avcodec_alloc_context3 E type
      /\ snd r <> NULL
      /\ avcodec_find_decoder E type <> NULL
      /\ 0 <= avcodec_parameters_to_context E type
      /\ 0 <= avcodec_open2 E type).
Proof.
  cbv zeta. unfold AVI_OpenCodecContext.
  destruct (av_find_best_stream E type <? 0) eqn:E1;
    [left; split; [apply Z.ltb_lt; exact E1 | reflexivity]|].
  destruct (avcodec_find_decoder E type =? NULL) eqn:E2;
    [left; split; reflexivity|].
  destruct (avcodec_alloc_context3 E type =? NULL) eqn:E3;
    [left; split; reflexivity|].
  destruct (avcodec_parameters_to_context E type <? 0) eqn:E4;
    [left; split; [apply Z.ltb_lt; exact E4 | reflexivity]|].
  destruct (avcodec_open2 E type <? 0) eqn:E5;
    [left; split; [apply Z.ltb_lt; exact E5 | reflexivity]|].
  right. cbn [fst snd].
  apply Z.ltb_ge in E1, E4, E5. apply Z.eqb_neq in E2, E3.
  repeat split; assumption.
Qed.

(** X18.  AVI_OpenCodecContext either fails, with a negative value and the
    caller's context pointer as it was, or it succeeds, with the index of the
    stream that av_find_best_stream gave, which is not negative, and the
    pointer set to the context allocated, which is not null. *)
Theorem OpenCodecContext_contract :
  forall (E : open_env) (dst_dec_ctx : ptr) (type : AVMediaType),
    let r := AVI_OpenCodecContext E dst_dec_ctx type in
    (fst r < 0 /\ snd r = dst_dec_ctx)
    \/ (0 <= fst r
        /\ fst r = av_find_best_stream E type
        /\ snd r = avcodec_alloc_context3 E type
        /\ snd r <> NULL
        /\ avcodec_find_decoder E type <> NULL
        /\ 0 <= avcodec_parameters_to_context E type
        /\ 0 <= avcodec_open2 E type).
Proof. exact OpenCodecContext_parts. Qed.

Section OpenMore.

Context {codec : Type}.
Variable L : avlib codec.

(** The session when all the steps before the audio part have succeeded. *)
Lemma OpenVideo_to_audio
    (E : open_env) (Avi : movie_state) (filename : option String.string)
    (quiet_arg : Z) :
  holders_fail E filename = false ->
  image_ready E = true ->
  exists Avi0,
    AVI_OpenVideo E Avi filename true quiet_arg = OpenVideo_audio E Avi0
    /\ AVI_OpenVideo E Avi filename false quiet_arg = Avi0
    /\ active Avi0 = true
    /\ audio_ctx Avi0 = NULL
    /\ (cached_audio_len Avi0, cached_audio_off Avi0, have_audio_cache Avi0)
       = (cached_audio_len Avi, cached_audio_off Avi, have_audio_cache Avi)
    /\ (audio_stream Avi0, channels Avi0, rate Avi0, s_fmt Avi0)
       = (audio_stream Avi, channels Avi, rate Avi, s_fmt Avi).
Proof.
  unfold holders_fail, image_ready, AVI_OpenVideo.
  destruct filename as [name|]; [|discriminate].
  destruct (avformat_open_input E name) as [ret0 ctx0]. cbn [fst].
  destruct (ret0 <? 0); cbn [orb]; [discriminate|]. rsimpl.
  destruct (avformat_find_stream_info E <? 0); cbn [orb]; [discriminate|].
  destruct (AVI_OpenCodecContext E NULL AVMEDIA_TYPE_VIDEO) as [ret1 ctx1].
  cbn [fst]. rsimpl.
  destruct (ret1 <? 0); cbn [orb]; [discriminate|].
  destruct (av_packet_alloc_pkt E =? NULL); cbn [orb]; [discriminate|]. rsimpl.
  destruct (av_packet_alloc_pkt_seek E =? NULL); cbn [orb]; [discriminate|]. rsimpl.
  destruct (av_frame_alloc E =? NULL); cbn [orb]; [discriminate|]. rsimpl.
  intros _ Himg. apply andb_prop in Himg. destruct Himg as [Hsws Himg].
  apply negb_true_iff in Hsws. apply negb_true_iff in Himg. rewrite Hsws.
  destruct (av_image_alloc E) as [[ret2 d0] ls0]. cbn [fst snd] in *.
  rewrite Himg.
  eexists. split; [reflexivity|]. split; [reflexivity|].
  repeat split; reflexivity.
Qed.

(** X19.  After an opening with audio in which every step succeeds, the
    session is active and its sound format is the fixed output format of the
    resampler, whatever the file holds: two channels of signed 16-bit samples
    at 44100 Hz; the nominal capacity of the cache is MAX_RAW_SAMPLES and the
    end of the sound track is not known yet.  AVI_GetAudioInfo then reports
    this format, with the bytes of one second as the size. *)
Theorem OpenVideo_audio_format :
  forall (E : open_env) (Avi : movie_state) (filename : option String.string)
         (quiet_arg : Z) (snd_info : wavdata),
    holders_fail E filename = false ->
    image_ready E = true ->
    0 <= fst (AVI_OpenCodecContext E NULL AVMEDIA_TYPE_AUDIO) ->
    let Avi' := AVI_OpenVideo E Avi filename true quiet_arg in
    let width := av_get_bytes_per_sample L AV_SAMPLE_FMT_S16 in
    active Avi' = true
    /\ audio_stream Avi' = av_find_best_stream E AVMEDIA_TYPE_AUDIO
    /\ (channels Avi', rate Avi', s_fmt Avi') = (2, 44100, AV_SAMPLE_FMT_S16)
    /\ cached_audio_buf_len Avi' = MAX_RAW_SAMPLES E
    /\ cached_audio Avi' = Mem_Malloc E (MAX_RAW_SAMPLES E)
    /\ audio_eof_position Avi' = INT_MAX
    /\ AVI_GetAudioInfo L Avi' snd_info
       = (true,
          {| snd_rate := 44100; snd_width := width; snd_channels := 2;
             snd_loopStart := 0;
             snd_size := to_size_t (to_size_t (44100 * width) * 2) |}).
Proof.
  intros E Avi filename quiet_arg snd_info Hhold Himg Haudio Avi' width.
  subst Avi' width.
  destruct (OpenVideo_to_audio E Avi filename quiet_arg Hhold Himg)
    as (Avi0 & -> & _ & Hact & Hctx & _ & _).
  unfold AVI_GetAudioInfo, OpenVideo_audio. rewrite Hctx.
  destruct (OpenCodecContext_parts E NULL AVMEDIA_TYPE_AUDIO) as [[Hneg _]|Hok];
    [lia|].
  destruct Hok as (H0 & Hidx & _).
  destruct (AVI_OpenCodecContext E NULL AVMEDIA_TYPE_AUDIO) as [ret ctx].
  cbn [fst snd] in *. rsimpl.
  assert ((ret <? 0) = false) as -> by lia. rsimpl.
  rewrite Hact. cbn [negb orb].
  assert ((ret <? 0) = false) as -> by lia.
  rewrite (to_size_t_id 44100) by lia.
  repeat split; try reflexivity. exact Hidx.
Qed.

(** X20.  AVI_OpenVideo writes none of the fields that say what the cache
    holds: its length, its offset and its validity are the ones the session
    structure had before.  A structure that went through AVI_CloseVideo, or
    came from Mem_Calloc, therefore opens with no valid cache, on every path
    through the opening. *)
Theorem OpenVideo_keeps_cache_fields :
  forall (E : open_env) (Avi : movie_state) (filename : option String.string)
         (load_audio : bool) (quiet_arg : Z),
    let cache_fields := fun s : movie_state =>
      (cached_audio_len s, cached_audio_off s, have_audio_cache s) in
    cache_fields (AVI_OpenVideo E Avi filename load_audio quiet_arg)
    = cache_fields Avi
    /\ cache_fields
         (AVI_OpenVideo E (AVI_CloseVideo Avi) filename load_audio quiet_arg)
       = (0, 0, false).
Proof.
  intros E Avi filename load_audio quiet_arg cache_fields.
  assert (Hgen : forall A,
             cache_fields (AVI_OpenVideo E A filename load_audio quiet_arg)
             = cache_fields A).
  { intros A. subst cache_fields. cbv beta. unfold AVI_OpenVideo.
    destruct filename as [name|]; [|reflexivity].
    destruct (avformat_open_input E name) as [ret0 ctx0].
    destruct (ret0 <? 0); [reflexivity|]. rsimpl.
    destruct (avformat_find_stream_info E <? 0); [reflexivity|].
    destruct (AVI_OpenCodecContext E NULL AVMEDIA_TYPE_VIDEO) as [ret1 ctx1].
    rsimpl.
    destruct (ret1 <? 0); [reflexivity|].
    destruct (av_packet_alloc_pkt E =? NULL); [reflexivity|]. rsimpl.
    destruct (av_packet_alloc_pkt_seek E =? NULL); [reflexivity|]. rsimpl.
    destruct (av_frame_alloc E =? NULL); [reflexivity|]. rsimpl.
    destruct (sws_getContext E =? NULL); [reflexivity|].
    destruct (av_image_alloc E) as [[ret2 d0] ls0].
    destruct (ret2 <? 0); [reflexivity|].
    destruct load_audio; [|reflexivity].
    unfold OpenVideo_audio. rsimpl.
    destruct (AVI_OpenCodecContext E NULL AVMEDIA_TYPE_AUDIO) as [ret3 ctx3].
    rsimpl. destruct (ret3 <? 0); reflexivity. }
  split; [apply Hgen|]. rewrite Hgen. reflexivity.
Qed.

(** X21.  When the holders are there and the pixel converter or the
    destination image cannot be had, the session is left active without a
    destination image of its own: an AVI_GetVideoFrame on it that ends before
    the conversion returns the [dst[0]] that the structure held before the
    opening, a null pointer for a structure that was cleared, and leaves the
    bytes of the image alone. *)
Theorem OpenVideo_image_failure_frame_pointer :
  forall (E : open_env) (Avi : movie_state) (filename : option String.string)
         (load_audio : bool) (quiet_arg : Z) (target : Z) (w : avworld codec),
    holders_fail E filename = false ->
    image_ready E = false ->
    GetVideoFrame_outcome L
      (AVI_OpenVideo E Avi filename load_audio quiet_arg) target w
    <> Converted ->
    let Avi' := AVI_OpenVideo E Avi filename load_audio quiet_arg in
    active Avi' = true
    /\ fst (fst (AVI_GetVideoFrame L Avi' target w)) = dst0 Avi
    /\ dst_image (snd (AVI_GetVideoFrame L Avi' target w)) = dst_image w
    /\ (dst0 Avi = NULL -> fst (fst (AVI_GetVideoFrame L Avi' target w)) = NULL).
Proof.
  intros E Avi filename load_audio quiet_arg target w Hhold Himg Hout Avi'.
  destruct (OpenVideo_image_failure_leaves_active E Avi filename load_audio
              quiet_arg Hhold Himg) as [Hact Hdst].
  fold Avi' in Hact, Hdst, Hout.
  destruct (GetVideoFrame_returns_dst0 L Avi' target w Hact) as (Hp & _ & Hkeep).
  cbv zeta in Hp, Hkeep. rewrite Hp, Hdst.
  split; [exact Hact|]. split; [reflexivity|].
  split; [exact (Hkeep Hout) | exact (fun H => H)].
Qed.

(** The video fields after a successful opening. *)
Lemma OpenVideo_video_fields
    (E : open_env) (Avi : movie_state) (filename : option String.string)
    (load_audio : bool) (quiet_arg : Z) :
  holders_fail E filename = false ->
  image_ready E = true ->
  let Avi' := AVI_OpenVideo E Avi filename load_audio quiet_arg in
  active Avi' = true
  /\ (xres Avi', yres Avi', pix_fmt Avi', duration Avi')
     = (video_ctx_width E, video_ctx_height E, video_ctx_pix_fmt E,
        fmt_ctx_duration_seconds E)
  /\ (keyframe_ts Avi', currentframe_ts Avi') = (INT64_MIN, INT64_MIN).
Proof.
  unfold holders_fail, image_ready, AVI_OpenVideo.
  destruct filename as [name|]; [|discriminate].
  destruct (avformat_open_input E name) as [ret0 ctx0]. cbn [fst].
  destruct (ret0 <? 0); cbn [orb]; [discriminate|]. rsimpl.
  destruct (avformat_find_stream_info E <? 0); cbn [orb]; [discriminate|].
  destruct (AVI_OpenCodecContext E NULL AVMEDIA_TYPE_VIDEO) as [ret1 ctx1].
  cbn [fst]. rsimpl.
  destruct (ret1 <? 0); cbn [orb]; [discriminate|].
  destruct (av_packet_alloc_pkt E =? NULL); cbn [orb]; [discriminate|]. rsimpl.
  destruct (av_packet_alloc_pkt_seek E =? NULL); cbn [orb]; [discriminate|]. rsimpl.
  destruct (av_frame_alloc E =? NULL); cbn [orb]; [discriminate|]. rsimpl.
  intros _ Himg. apply andb_prop in Himg. destruct Himg as [Hsws Himg].
  apply negb_true_iff in Hsws. apply negb_true_iff in Himg. rewrite Hsws.
  destruct (av_image_alloc E) as [[ret2 d0] ls0]. cbn [fst snd] in *.
  rewrite Himg. cbv zeta.
  destruct load_audio; [|repeat split; reflexivity].
  unfold OpenVideo_audio. rsimpl.
  destruct (AVI_OpenCodecContext E NULL AVMEDIA_TYPE_AUDIO) as [ret3 ctx3].
  rsimpl. destruct (ret3 <? 0); repeat split; reflexivity.
Qed.

(** X22.  After an opening in which the steps up to the destination image
    succeed, with or without audio: AVI_GetVideoInfo reports the size of the
    pictures and the duration that the opening read from the decoder and the
    container; the two video timestamps are AV_NOPTS_VALUE; and so the seek
    of the first AVI_GetVideoFrame cannot take a packet that has a timestamp
    for the keyframe already decoded: it returns 0 only on a packet without
    one. *)
Theorem OpenVideo_video_state :
  forall (E : open_env) (Avi : movie_state) (filename : option String.string)
         (load_audio : bool) (quiet_arg : Z) (x y : Z) (t : fbits),
    holders_fail E filename = false ->
    image_ready E = true ->
    let Avi' := AVI_OpenVideo E Avi filename load_audio quiet_arg in
    AVI_GetVideoInfo L Avi' (Some x) (Some y) (Some t)
    = (true, Some (video_ctx_width E), Some (video_ctx_height E),
       Some (double_to_float L (fmt_ctx_duration_seconds E)))
    /\ AVI_GetVideoInfo L Avi' None None None = (true, None, None, None)
    /\ keyframe_ts Avi' = AV_NOPTS_VALUE
    /\ currentframe_ts Avi' = AV_NOPTS_VALUE
    /\ forall (target : Z) (w : avworld codec),
         fst (fst (AVI_SeekVideo L Avi' target w)) = 0 ->
         dts (pkt_obj (snd (AVI_SeekVideo L Avi' target w))) = AV_NOPTS_VALUE.
Proof.
  intros E Avi filename load_audio quiet_arg x y t Hhold Himg Avi'.
  destruct (OpenVideo_video_fields E Avi filename load_audio quiet_arg Hhold Himg)
    as (Hact & Hdim & Hts).
  fold Avi' in Hact, Hdim, Hts.
  apply pair_equal_spec in Hts. destruct Hts as [Hkf Hcur].
  apply pair_equal_spec in Hdim. destruct Hdim as [Hdim Hdur].
  apply pair_equal_spec in Hdim. destruct Hdim as [Hdim _].
  apply pair_equal_spec in Hdim. destruct Hdim as [Hx Hy].
  unfold AVI_GetVideoInfo. rewrite Hact, Hx, Hy, Hdur. cbn [negb option_map].
  split; [reflexivity|]. split; [reflexivity|].
  split; [exact Hkf|]. split; [exact Hcur|].
  intros target w Hret.
  pose proof (SeekVideo_shape L Avi' target w) as Hshape. cbv zeta in Hshape.
  destruct (AVI_SeekVideo L Avi' target w) as [[ret A] w1]. cbn [fst snd] in *.
  subst ret.
  destruct Hshape as [H|[[_ H]|H]].
  - apply pair_equal_spec in H. destruct H as [H _]. discriminate H.
  - rewrite <- H. exact Hkf.
  - apply pair_equal_spec in H. destruct H as [H _]. discriminate H.
Qed.

End OpenMore.

(** ** What closing releases *)

Lemma OpenVideo_holders_fail_inactive
    (E : open_env) (Avi : movie_state) (filename : option String.string)
    (load_audio : bool) (quiet_arg : Z) :
  holders_fail E filename = true ->
  active (AVI_OpenVideo E Avi filename load_audio quiet_arg) = false.
Proof.
  unfold holders_fail, AVI_OpenVideo.
  destruct filename as [name|]; [|reflexivity].
  destruct (avformat_open_input E name) as [ret0 ctx0]. cbn [fst].
  destruct (ret0 <? 0); cbn [orb]; [reflexivity|]. rsimpl.
  destruct (avformat_find_stream_info E <? 0); cbn [orb]; [reflexivity|].
  destruct (AVI_OpenCodecContext E NULL AVMEDIA_TYPE_VIDEO) as [ret1 ctx1].
  cbn [fst]. rsimpl.
  destruct (ret1 <? 0); cbn [orb]; [reflexivity|].
  destruct (av_packet_alloc_pkt E =? NULL); cbn [orb]; [reflexivity|]. rsimpl.
  destruct (av_packet_alloc_pkt_seek E =? NULL); cbn [orb]; [reflexivity|]. rsimpl.
  destruct (av_frame_alloc E =? NULL); cbn [orb]; [reflexivity|]. rsimpl.
  discriminate.
Qed.

Lemma release_filter (p : ptr) (l : list ptr) :
  release p (filter (fun q => negb (q =? NULL)) l)
  = filter (fun q => negb (q =? NULL)) (l ++ [p]).
Proof.
  unfold release. rewrite filter_app. cbn [filter].
  destruct (p =? NULL); cbn [negb]; [rewrite app_nil_r|]; reflexivity.
Qed.

(** On an active session AVI_CloseVideo releases the cache, the image, the
    pixel converter, the frame, the packet, the two decoders and the format
    context, each once if it is not null. *)
Lemma CloseVideo_frees_active (Avi : movie_state) :
  active Avi = true ->
  fst (CloseVideo_frees Avi)
  = filter (fun q => negb (q =? NULL))
      [cached_audio Avi; dst0 Avi; sws_ctx Avi; frame Avi; pkt Avi;
       audio_ctx Avi; video_ctx Avi; fmt_ctx Avi].
Proof.
  intros Hact. unfold CloseVideo_frees. rewrite Hact. rsimpl. cbn [fst].
  change (if negb (cached_audio Avi =? NULL) then [cached_audio Avi] else [])
    with (filter (fun q => negb (q =? NULL)) [cached_audio Avi]).
  rewrite !release_filter. cbn [app].
  change [cached_audio Avi; dst0 Avi; sws_ctx Avi; frame Avi; pkt Avi; NULL;
          audio_ctx Avi; video_ctx Avi; fmt_ctx Avi]
    with ([cached_audio Avi; dst0 Avi; sws_ctx Avi; frame Avi; pkt Avi]
          ++ NULL :: [audio_ctx Avi; video_ctx Avi; fmt_ctx Avi]).
  change [cached_audio Avi; dst0 Avi; sws_ctx Avi; frame Avi; pkt Avi;
          audio_ctx Avi; video_ctx Avi; fmt_ctx Avi]
    with ([cached_audio Avi; dst0 Avi; sws_ctx Avi; frame Avi; pkt Avi]
          ++ [audio_ctx Avi; video_ctx Avi; fmt_ctx Avi]).
  rewrite !filter_app. reflexivity.
Qed.

(** The pointers of the session after a successful opening with sound. *)
Lemma OpenVideo_pointers (E : open_env) (Avi : movie_state)
    (name : String.string) (quiet_arg : Z) :
  holders_fail E (Some name) = false ->
  image_ready E = true ->
  0 <= fst (AVI_OpenCodecContext E NULL AVMEDIA_TYPE_AUDIO) ->
  let Avi' := AVI_OpenVideo E Avi (Some name) true quiet_arg in
  active Avi' = true
  /\ [cached_audio Avi'; dst0 Avi'; sws_ctx Avi'; frame Avi'; pkt Avi';
      audio_ctx Avi'; video_ctx Avi'; fmt_ctx Avi']
     = [Mem_Malloc E (MAX_RAW_SAMPLES E); snd (fst (av_image_alloc E));
        sws_getContext E; av_frame_alloc E; av_packet_alloc_pkt E;
        snd (AVI_OpenCodecContext E NULL AVMEDIA_TYPE_AUDIO);
        snd (AVI_OpenCodecContext E NULL AVMEDIA_TYPE_VIDEO);
        snd (avformat_open_input E name)]
  /\ pkt_seek Avi' = av_packet_alloc_pkt_seek E
  /\ swr_ctx Avi' = swr_alloc_set_opts E.
Proof.
  unfold holders_fail, image_ready, AVI_OpenVideo.
  destruct (avformat_open_input E name) as [ret0 ctx0]. cbn [fst snd].
  destruct (ret0 <? 0); cbn [orb]; [discriminate|]. rsimpl.
  destruct (avformat_find_stream_info E <? 0); cbn [orb]; [discriminate|].
  destruct (AVI_OpenCodecContext E NULL AVMEDIA_TYPE_VIDEO) as [ret1 ctx1].
  cbn [fst snd]. rsimpl.
  destruct (ret1 <? 0); cbn [orb]; [discriminate|].
  destruct (av_packet_alloc_pkt E =? NULL); cbn [orb]; [discriminate|]. rsimpl.
  destruct (av_packet_alloc_pkt_seek E =? NULL); cbn [orb]; [discriminate|]. rsimpl.
  destruct (av_frame_alloc E =? NULL); cbn [orb]; [discriminate|]. rsimpl.
  intros _.
  destruct (sws_getContext E =? NULL); cbn [negb andb]; [discriminate|].
  destruct (av_image_alloc E) as [[ret2 d0] ls0]. cbn [fst snd].
  destruct (ret2 <? 0); cbn [negb]; [discriminate|].
  intros _ Haudio.
  unfold OpenVideo_audio. rsimpl.
  destruct (AVI_OpenCodecContext E NULL AVMEDIA_TYPE_AUDIO) as [ret3 ctx3].
  cbn [fst snd] in *. rsimpl.
  assert ((ret3 <? 0) = false) as -> by lia.
  repeat split; reflexivity.
Qed.

(** X23.  What AVI_CloseVideo releases of what AVI_OpenVideo has obtained.
    After an opening that fails with the format context in hand, the session
    is not active and the closing releases nothing: the format context is
    lost when the structure is cleared.  After a successful opening with
    sound, the closing releases the cache, the image, the pixel converter,
    the frame, the packet, the two decoders and the format context, each
    once: the second [av_packet_free( &Avi->pkt )] finds a null pointer.  The
    second packet [pkt_seek] and the resampler [swr_ctx] belong to the
    session and are not released, unless one of the other pointers is the
    same.  The cleared structure holds no pointer any more. *)
Theorem CloseVideo_frees_after_OpenVideo :
  forall (E : open_env) (Avi : movie_state) (name : String.string)
         (load_audio : bool) (quiet_arg : Z),
    let opened := AVI_OpenVideo E Avi (Some name) load_audio quiet_arg in
    let freed := fst (CloseVideo_frees opened) in
    let obtained :=
      [Mem_Malloc E (MAX_RAW_SAMPLES E); snd (fst (av_image_alloc E));
       sws_getContext E; av_frame_alloc E; av_packet_alloc_pkt E;
       snd (AVI_OpenCodecContext E NULL AVMEDIA_TYPE_AUDIO);
       snd (AVI_OpenCodecContext E NULL AVMEDIA_TYPE_VIDEO);
       snd (avformat_open_input E name)] in
    owned (AVI_CloseVideo opened) = []
    /\ (holders_fail E (Some name) = true ->
        0 <= fst (avformat_open_input E name) ->
        snd (avformat_open_input E name) <> NULL ->
        freed = []
        /\ In (snd (avformat_open_input E name)) (owned opened))
    /\ (holders_fail E (Some name) = false ->
        image_ready E = true ->
        load_audio = true ->
        0 <= fst (AVI_OpenCodecContext E NULL AVMEDIA_TYPE_AUDIO) ->
        freed = filter (fun q => negb (q =? NULL)) obtained
        /\ In (av_packet_alloc_pkt_seek E) (owned opened)
        /\ (~ In (av_packet_alloc_pkt_seek E) obtained ->
            ~ In (av_packet_alloc_pkt_seek E) freed)
        /\ (swr_alloc_set_opts E <> NULL ->
            ~ In (swr_alloc_set_opts E) obtained ->
            In (swr_alloc_set_opts E) (owned opened)
            /\ ~ In (swr_alloc_set_opts E) freed)).
Proof.
  intros E Avi name load_audio quiet_arg opened freed obtained.
  split; [reflexivity|]. split.
  - intros Hfail Hopen Hctx.
    pose proof (OpenVideo_holders_fail_inactive E Avi (Some name) load_audio
                  quiet_arg Hfail) as Hact.
    fold opened in Hact. split.
    + subst freed. unfold CloseVideo_frees. rewrite Hact. reflexivity.
    + assert (Hf : fmt_ctx opened = snd (avformat_open_input E name)).
      { subst opened. unfold AVI_OpenVideo.
        destruct (avformat_open_input E name) as [ret0 ctx0].
        cbn [fst snd] in *.
        assert ((ret0 <? 0) = false) as -> by lia. rsimpl.
        destruct (avformat_find_stream_info E <? 0); [reflexivity|].
        destruct (AVI_OpenCodecContext E NULL AVMEDIA_TYPE_VIDEO) as [ret1 ctx1].
        rsimpl.
        destruct (ret1 <? 0); [reflexivity|].
        destruct (av_packet_alloc_pkt E =? NULL); [reflexivity|]. rsimpl.
        destruct (av_packet_alloc_pkt_seek E =? NULL); [reflexivity|]. rsimpl.
        destruct (av_frame_alloc E =? NULL); [reflexivity|]. rsimpl.
        destruct (sws_getContext E =? NULL); [reflexivity|].
        destruct (av_image_alloc E) as [[ret2 d0] ls0].
        destruct (ret2 <? 0); [reflexivity|].
        destruct load_audio; [|reflexivity].
        unfold OpenVideo_audio. rsimpl.
        destruct (AVI_OpenCodecContext E NULL AVMEDIA_TYPE_AUDIO) as [ret3 ctx3].
        rsimpl. destruct (ret3 <? 0); reflexivity. }
      rewrite <- Hf. unfold owned. apply filter_In. split.
      * left. reflexivity.
      * rewrite Hf. apply negb_true_iff. apply Z.eqb_neq. exact Hctx.
  - intros Hhold Himg -> Haudio.
    destruct (OpenVideo_pointers E Avi name quiet_arg Hhold Himg Haudio)
      as (Hact & Hlist & Hseek & Hswr).
    fold opened in Hact, Hlist, Hseek, Hswr.
    assert (Hfreed : freed = filter (fun q => negb (q =? NULL)) obtained).
    { subst freed. rewrite (CloseVideo_frees_active opened Hact), Hlist.
      reflexivity. }
    assert (Hpkt : av_packet_alloc_pkt_seek E <> NULL).
    { unfold holders_fail in Hhold.
      destruct (av_packet_alloc_pkt_seek E =? NULL) eqn:Ep.
      - rewrite !orb_true_r in Hhold. cbn [orb] in Hhold. discriminate.
      - apply Z.eqb_neq. exact Ep. }
    split; [exact Hfreed|]. split; [|split].
    + rewrite <- Hseek. unfold owned. apply filter_In. split.
      * cbn [In]. tauto.
      * rewrite Hseek. apply negb_true_iff. apply Z.eqb_neq. exact Hpkt.
    + intros Hout Hin. rewrite Hfreed in Hin. apply filter_In in Hin.
      apply Hout. exact (proj1 Hin).
    + intros Hnn Hout. split.
      * rewrite <- Hswr. unfold owned. apply filter_In. split.
        -- cbn [In]. tauto.
        -- rewrite Hswr. apply negb_true_iff. apply Z.eqb_neq. exact Hnn.
      * intros Hin. rewrite Hfreed in Hin. apply filter_In in Hin.
        apply Hout. exact (proj1 Hin).
Qed.

(** ** Loading and freeing a movie *)

Lemma Mem_Free_fresh (pool : list (ptr * movie_state)) (a : ptr) :
  Mem_IsAllocatedExt pool a = false -> Mem_Free pool a = pool.
Proof.
  unfold Mem_IsAllocatedExt, Mem_Free.
  induction pool as [|[k s] pool IH]; [reflexivity|].
  cbn [existsb filter fst].
  intros H. apply orb_false_iff in H. destruct H as [He Hp].
  rewrite He. cbn [negb]. rewrite (IH Hp). reflexivity.
Qed.

Lemma Mem_Free_gone (pool : list (ptr * movie_state)) (a : ptr) :
  Mem_IsAllocatedExt (Mem_Free pool a) a = false.
Proof.
  unfold Mem_IsAllocatedExt, Mem_Free.
  induction pool as [|[k s] pool IH]; [reflexivity|].
  cbn [filter fst].
  destruct (k =? a) eqn:E; cbn [negb]; [exact IH|].
  cbn [existsb fst]. rewrite E, IH. reflexivity.
Qed.

Lemma LoadVideo_cases (F : fs_env) (E : open_env) (block : ptr) (st : loader)
    (filename : String.string) (load_audio : bool) :
  block <> NULL ->
  Mem_IsAllocatedExt (mempool st) block = false ->
  let r := AVI_LoadVideo F E block st filename load_audio in
  (fst r = NULL /\ snd r = st)
  \/ (exists fullpath,
        FS_GetDiskPath F (media_path F filename) = Some fullpath
        /\ avi_initialized st = true
        /\ fst r = block
        /\ active (AVI_OpenVideo E zero_state (Some fullpath) load_audio 0) = true
        /\ snd r
           = st <| mempool :=
                     (block, AVI_OpenVideo E zero_state (Some fullpath)
                               load_audio 0) :: mempool st |>).
Proof.
  intros Hblock Hfresh. cbv zeta. unfold AVI_LoadVideo.
  destruct (avi_initialized st) eqn:Einit; cbn [negb];
    [|left; split; reflexivity].
  destruct (FS_GetDiskPath F (media_path F filename)) as [fullpath|].
  - rewrite andb_false_r. cbn [AVI_IsActive].
    destruct (active (AVI_OpenVideo E zero_state (Some fullpath) load_audio 0))
      eqn:Eact; cbn [negb].
    + right. exists fullpath. repeat split; try reflexivity; assumption.
    + left. cbn [fst snd]. split; [reflexivity|].
      unfold AVI_FreeVideo. apply Z.eqb_neq in Hblock. rewrite Hblock.
      rsimpl. unfold Mem_IsAllocatedExt at 1. cbn [existsb fst].
      rewrite Z.eqb_refl. cbn [orb].
      unfold Mem_Free. cbn [filter fst]. rewrite Z.eqb_refl. cbn [negb].
      fold (Mem_Free (mempool st) block). rewrite (Mem_Free_fresh _ _ Hfresh).
      destruct st. reflexivity.
  - rewrite andb_true_r.
    destruct (FS_FileExists F (media_path F filename));
      [left; split; reflexivity|].
    left. cbn [AVI_OpenVideo AVI_IsActive]. rsimpl. cbn [negb fst snd].
    split; [reflexivity|].
    unfold AVI_FreeVideo. apply Z.eqb_neq in Hblock. rewrite Hblock.
    rsimpl. unfold Mem_IsAllocatedExt at 1. cbn [existsb fst].
    rewrite Z.eqb_refl. cbn [orb].
    unfold Mem_Free. cbn [filter fst]. rewrite Z.eqb_refl. cbn [negb].
    fold (Mem_Free (mempool st) block). rewrite (Mem_Free_fresh _ _ Hfresh).
    destruct st. reflexivity.
Qed.

(** X24.  AVI_LoadVideo, for a block that Mem_Calloc has newly allocated.
    Either it returns a null pointer and leaves the loader's state, the pool
    with it, as it was: the block of a session that did not open is given
    back.  Or the movie is on the disk, the loader is initialised, the
    pointer returned is the new block, and the pool holds there the session
    that AVI_OpenVideo makes of a cleared structure, which is active. *)
Theorem LoadVideo_null_or_active :
  forall (F : fs_env) (E : open_env) (block : ptr) (st : loader)
         (filename : String.string) (load_audio : bool),
    block <> NULL ->
    Mem_IsAllocatedExt (mempool st) block = false ->
    let r := AVI_LoadVideo F E block st filename load_audio in
    (fst r = NULL /\ snd r = st)
    \/ (exists fullpath,
          FS_GetDiskPath F (media_path F filename) = Some fullpath
          /\ avi_initialized st = true
          /\ fst r = block
          /\ active (AVI_OpenVideo E zero_state (Some fullpath) load_audio 0) = true
          /\ snd r
             = st <| mempool :=
                       (block, AVI_OpenVideo E zero_state (Some fullpath)
                                 load_audio 0) :: mempool st |>).
Proof. exact LoadVideo_cases. Qed.

(** X25.  Loading and freeing undo each other: AVI_FreeVideo on the pointer
    that AVI_LoadVideo returned, null or not, gives back the state from
    before the load.  It does so after AVI_Shutdown as well, since it does
    not look at the flag of the loader; a load after AVI_Shutdown returns a
    null pointer and changes nothing. *)
Theorem LoadVideo_FreeVideo_round_trip :
  forall (F : fs_env) (E : open_env) (block : ptr) (st : loader)
         (filename : String.string) (load_audio : bool),
    block <> NULL ->
    Mem_IsAllocatedExt (mempool st) block = false ->
    let r := AVI_LoadVideo F E block st filename load_audio in
    AVI_FreeVideo (snd r) (fst r) = st
    /\ AVI_FreeVideo (AVI_Shutdown (snd r)) (fst r) = AVI_Shutdown st
    /\ AVI_LoadVideo F E block (AVI_Shutdown (snd r)) filename load_audio
       = (NULL, AVI_Shutdown (snd r)).
Proof.
  intros F E block st filename load_audio Hblock Hfresh r. subst r.
  split; [|split; [|reflexivity]].
  - destruct (LoadVideo_cases F E block st filename load_audio Hblock Hfresh)
      as [[-> ->]|(fullpath & _ & _ & -> & _ & ->)].
    + reflexivity.
    + unfold AVI_FreeVideo. apply Z.eqb_neq in Hblock. rewrite Hblock.
      rsimpl. unfold Mem_IsAllocatedExt at 1. cbn [existsb fst].
      rewrite Z.eqb_refl. cbn [orb].
      unfold Mem_Free. cbn [filter fst]. rewrite Z.eqb_refl. cbn [negb].
      fold (Mem_Free (mempool st) block). rewrite (Mem_Free_fresh _ _ Hfresh).
      rsimpl. destruct st. reflexivity.
  - destruct (LoadVideo_cases F E block st filename load_audio Hblock Hfresh)
      as [[-> ->]|(fullpath & _ & _ & -> & _ & ->)].
    + reflexivity.
    + unfold AVI_FreeVideo, AVI_Shutdown. apply Z.eqb_neq in Hblock.
      rewrite Hblock.
      rsimpl. unfold Mem_IsAllocatedExt at 1. cbn [existsb fst].
      rewrite Z.eqb_refl. cbn [orb].
      unfold Mem_Free. cbn [filter fst]. rewrite Z.eqb_refl. cbn [negb].
      fold (Mem_Free (mempool st) block). rewrite (Mem_Free_fresh _ _ Hfresh).
      rsimpl. destruct st. reflexivity.
Qed.

(** X26.  AVI_FreeVideo may be called twice on the same pointer, and on a
    pointer that the pool does not hold: the second call finds the block gone
    and does nothing.  It takes no other block out of the pool and leaves the
    flag of the loader alone. *)
Theorem FreeVideo_idempotent :
  forall (st : loader) (Avi : ptr),
    AVI_FreeVideo (AVI_FreeVideo st Avi) Avi = AVI_FreeVideo st Avi
    /\ (Avi <> NULL ->
        Mem_IsAllocatedExt (mempool (AVI_FreeVideo st Avi)) Avi = false)
    /\ (forall e, fst e <> Avi ->
          (In e (mempool (AVI_FreeVideo st Avi)) <-> In e (mempool st)))
    /\ avi_initialized (AVI_FreeVideo st Avi) = avi_initialized st.
Proof.
  intros st Avi. unfold AVI_FreeVideo.
  destruct (Avi =? NULL) eqn:En.
  - split; [reflexivity|]. split; [|split; [intros e _; tauto | reflexivity]].
    intros H. apply Z.eqb_eq in En. contradiction.
  - destruct (Mem_IsAllocatedExt (mempool st) Avi) eqn:Ea.
    + rsimpl. rewrite Mem_Free_gone.
      split; [reflexivity|]. split; [reflexivity|]. split; [|reflexivity].
      intros e He. unfold Mem_Free. rewrite filter_In. split; [tauto|].
      intros H. split; [exact H|].
      apply negb_true_iff, Z.eqb_neq. exact He.
    + rewrite Ea.
      split; [reflexivity|]. split; [intros _; reflexivity|].
      split; [intros e _; tauto | reflexivity].
Qed.

(** ** crtlib.h: Q_strncpy *)

Lemma strlen_le (s : list byte) : (strlen s <= length s)%nat.
Proof.
  induction s as [|c s IH]; cbn [strlen length]; [lia|].
  destruct (Byte.eqb c x00); lia.
Qed.

Lemma strlen_terminated (s : list byte) :
  terminated s = true ->
  (strlen s < length s)%nat /\ firstn (S (strlen s)) s = c_string s ++ [x00].
Proof.
  unfold terminated, c_string.
  induction s as [|c s IH]; cbn [existsb strlen length]; [discriminate|].
  intros H. destruct (Byte.eqb c x00) eqn:E.
  - apply Byte.byte_dec_bl in E. subst c. split; [lia | reflexivity].
  - assert (Hx : Byte.eqb x00 c = false).
    { destruct (Byte.eqb x00 c) eqn:E'; [|reflexivity].
      apply Byte.byte_dec_bl in E'. subst c. discriminate E. }
    rewrite Hx in H. cbn [orb] in H. destruct (IH H) as [Hlt Hf].
    split; [lia|]. cbn [firstn app]. cbn [firstn] in Hf. rewrite Hf. reflexivity.
Qed.

(** The string held by a buffer that starts with bytes other than NUL,
    followed by a NUL. *)
Lemma strlen_prefix (a rest : list byte) :
  forallb (fun c => negb (Byte.eqb c x00)) a = true ->
  strlen (a ++ x00 :: rest) = length a /\ c_string (a ++ x00 :: rest) = a.
Proof.
  unfold c_string. induction a as [|c a IH]; cbn [forallb app strlen length].
  - intros _. split; reflexivity.
  - intros H. apply andb_prop in H. destruct H as [Hc Ha].
    apply negb_true_iff in Hc. rewrite Hc. destruct (IH Ha) as [Hl Hs].
    split; [lia|]. cbn [firstn]. rewrite Hs. reflexivity.
Qed.

Lemma c_string_no_nul (s : list byte) (n : nat) :
  forallb (fun c => negb (Byte.eqb c x00)) (firstn n (c_string s)) = true.
Proof.
  unfold c_string. revert n.
  induction s as [|c s IH]; intros n; cbn [strlen].
  - rewrite firstn_nil. destruct n; reflexivity.
  - destruct (Byte.eqb c x00) eqn:E.
    + cbn [firstn]. rewrite firstn_nil. reflexivity.
    + destruct n as [|n]; [reflexivity|].
      cbn [firstn forallb]. rewrite E. cbn [negb andb]. apply IH.
Qed.

Lemma firstn_c_string (s : list byte) (n : nat) :
  (n <= strlen s)%nat -> firstn n (c_string s) = firstn n s.
Proof.
  intros H. unfold c_string. rewrite firstn_firstn.
  rewrite Nat.min_l by exact H. reflexivity.
Qed.

Lemma store_after (a block : list byte) (c : byte) :
  (length a < length a + length block)%nat ->
  block <> [] ->
  store (a ++ block) (Z.of_nat (length a)) [c] = a ++ c :: tl block.
Proof.
  intros _ Hne. unfold store. rewrite Nat2Z.id.
  rewrite firstn_app, Nat.sub_diag, firstn_all, firstn_O, app_nil_r.
  rewrite length_app.
  destruct block as [|b block]; [contradiction|].
  cbn [length]. replace (length a + S (length block) - length a)%nat
    with (S (length block)) by lia.
  cbn [firstn app length]. rewrite skipn_app.
  rewrite skipn_all2 by lia.
  replace (length a + 1 - length a)%nat with 1%nat by lia.
  rewrite firstn_nil. reflexivity.
Qed.

Section StrncpyFacts.

Variables (d s : list byte) (siz : Z).
Hypothesis Hterm : terminated s = true.
Hypothesis Hsiz : 0 < siz <= Z.of_nat (length d).
Hypothesis Hlen_t : Z.of_nat (strlen s) + 1 < 2 ^ 64.

Lemma Q_strncpy_result :
  Q_strncpy (Some d) (Some s) siz
  = (Z.of_nat (strlen s),
     Some (firstn (Nat.min (strlen s) (Z.to_nat siz - 1)) (c_string s)
             ++ x00
             :: skipn (S (Nat.min (strlen s) (Z.to_nat siz - 1))) d)).
Proof.
  destruct (strlen_terminated s Hterm) as [Hlt Hfirst].
  pose proof (strlen_le s) as Hle.
  unfold Q_strncpy.
  assert ((siz =? 0) = false) as -> by lia.
  cbv zeta.
  set (n := Z.to_nat siz) in *.
  assert (Hn : siz = Z.of_nat n) by (subst n; lia).
  assert (Hnd : (0 < n <= length d)%nat) by lia.
  destruct (Z.of_nat (strlen s) + 1 <=? siz) eqn:Efit.
  - (* the whole string fits *)
    apply Z.leb_le in Efit.
    rewrite (to_size_t_id (Z.of_nat (strlen s) + 1)) by lia.
    assert ((Z.of_nat (strlen s) + 1 >? siz) = false) as -> by lia.
    replace (Z.to_nat (Z.of_nat (strlen s) + 1)) with (S (strlen s)) by lia.
    rewrite Hfirst.
    rewrite store_at_start
      by (rewrite length_app; unfold c_string; rewrite length_firstn;
          cbn [length]; lia).
    rewrite Nat.min_l by lia.
    rewrite firstn_all2 by (unfold c_string; rewrite length_firstn; lia).
    rewrite length_app. unfold c_string at 2. rewrite length_firstn.
    rewrite Nat.min_l by lia. cbn [length].
    replace (strlen s + 1)%nat with (S (strlen s)) by lia.
    rewrite <- app_assoc. reflexivity.
  - (* truncation *)
    apply Z.leb_gt in Efit.
    rewrite (to_size_t_id (Z.of_nat (strlen s) + 1)) by lia.
    assert ((Z.of_nat (strlen s) + 1 >? siz) = true) as -> by lia.
    rewrite (to_size_t_id (siz - 1)) by lia.
    replace (Z.to_nat (siz - 1)) with (n - 1)%nat by lia.
    rewrite Nat.min_r by lia.
    rewrite firstn_c_string by lia.
    assert (Hlen : length (firstn (n - 1) s) = (n - 1)%nat)
      by (rewrite length_firstn; lia).
    rewrite store_at_start by lia. rewrite Hlen.
    replace (siz - 1) with (Z.of_nat (length (firstn (n - 1) s))) by lia.
    assert (Hne : skipn (n - 1) d <> []).
    { intros Hnil. apply (f_equal (@length byte)) in Hnil.
      rewrite length_skipn in Hnil. cbn [length] in Hnil. lia. }
    rewrite store_after; [|rewrite length_skipn; lia | exact Hne].
    f_equal. f_equal. f_equal. f_equal.
    replace (S (n - 1)) with (1 + (n - 1))%nat by lia.
    rewrite <- skipn_skipn.
    destruct (skipn (n - 1) d); reflexivity.
Qed.

End StrncpyFacts.

(** X27.  Q_strncpy keeps the contract of strlcpy.  For a source that holds
    a NUL, of a length that a [size_t] holds, and a destination of at least
    [siz] bytes, [siz > 0]: the value
    returned is the length of the source string; the destination then holds
    a string, the first [min( strlen( src ), siz - 1 )] characters of the
    source, NUL-terminated within its first [siz] bytes; the bytes of the
    destination from index [siz] on are as before, and its size is; and the
    string was copied whole exactly when the value returned is less than
    [siz]. *)
Theorem Q_strncpy_contract :
  forall (d s : list byte) (siz : Z),
    terminated s = true ->
    0 < siz <= Z.of_nat (length d) ->
    Z.of_nat (strlen s) + 1 < 2 ^ 64 ->
    let r := Q_strncpy (Some d) (Some s) siz in
    fst r = Z.of_nat (strlen s)
    /\ exists d',
        snd r = Some d'
        /\ length d' = length d
        /\ c_string d'
           = firstn (Nat.min (strlen s) (Z.to_nat siz - 1)) (c_string s)
        /\ Z.of_nat (strlen d') < siz
        /\ skipn (Z.to_nat siz) d' = skipn (Z.to_nat siz) d
        /\ (fst r < siz <-> c_string d' = c_string s).
Proof.
  intros d s siz Hterm Hsiz Hlen_t r. subst r.
  rewrite (Q_strncpy_result d s siz Hterm Hsiz Hlen_t). cbn [fst snd].
  split; [reflexivity|].
  set (k := Nat.min (strlen s) (Z.to_nat siz - 1)).
  pose proof (strlen_le s) as Hle.
  assert (Hk : length (firstn k (c_string s)) = k).
  { unfold c_string. rewrite firstn_firstn, length_firstn. subst k. lia. }
  destruct (strlen_prefix (firstn k (c_string s)) (skipn (S k) d)
              (c_string_no_nul s k)) as [Hl Hs].
  eexists. split; [reflexivity|].
  split.
  { rewrite length_app. cbn [length]. rewrite Hk, length_skipn. subst k. lia. }
  split; [exact Hs|].
  split; [rewrite Hl, Hk; subst k; lia|].
  split.
  { rewrite skipn_app, Hk.
    rewrite skipn_all2 by (rewrite Hk; subst k; lia).
    cbn [app].
    replace (Z.to_nat siz - k)%nat with (S (Z.to_nat siz - k - 1)) by (subst k; lia).
    rewrite skipn_cons, skipn_skipn. f_equal. subst k. lia. }
  rewrite Hs. split.
  - intros Hfit. apply firstn_all2. unfold c_string. rewrite length_firstn.
    subst k. lia.
  - intros Heq. apply (f_equal (@length byte)) in Heq. rewrite Hk in Heq.
    unfold c_string in Heq. rewrite length_firstn in Heq. subst k. lia.
Qed.

(** ** The further properties at work *)

(** A seek on [Samples.track] that finds a packet, and one on a file without
    packets. *)
Lemma SeekAudio_result_sound_witness :
  fst (AVI_SeekAudio Demo.lib Demo.session 5 (Demo.world_of Samples.track)) = 0
  /\ stream_index
       (pkt_obj (snd (AVI_SeekAudio Demo.lib Demo.session 5
                        (Demo.world_of Samples.track)))) = 1
  /\ dts (pkt_obj (snd (AVI_SeekAudio Demo.lib Demo.session 5
                          (Demo.world_of Samples.track)))) <= 5
  /\ fst (AVI_SeekAudio Demo.lib Demo.session 5 (Demo.world_of [])) <> 0
  /\ fst (AVI_SeekAudio Demo.lib Demo.session 5 (Demo.world_of []))
     = AVERROR_EOF.
Proof.
  destruct (SeekAudio_result_sound Demo.lib Demo.session 5
              (Demo.world_of Samples.track)) as [Hok _].
  destruct (SeekAudio_result_sound Demo.lib Demo.session 5 (Demo.world_of []))
    as [_ Hbad].
  assert (H0 : fst (AVI_SeekAudio Demo.lib Demo.session 5
                      (Demo.world_of Samples.track)) = 0)
    by (vm_compute; reflexivity).
  assert (H1 : fst (AVI_SeekAudio Demo.lib Demo.session 5 (Demo.world_of [])) <> 0)
    by (vm_compute; discriminate).
  destruct (Hok H0) as (_ & Hs & Hd). destruct (Hbad H1) as [He _].
  repeat split; assumption.
Defined.

(** The seek for the timestamp 5 on [Samples.track]: the packet at 4 is kept,
    the packet at 6 is read and dropped. *)
Lemma SeekAudio_drops_first_later_packet_witness :
  avformat_seek_file Demo.lib (file (Demo.world_of Samples.track))
    (cursor (Demo.world_of Samples.track)) (audio_stream Demo.session)
    INT64_MIN 5 5 AVSEEK_FLAG_ANY
  = (0, [Samples.spkt 4] ++ Samples.spkt 6 :: [Demo.vpkt 2])
  /\ cursor (snd (AVI_SeekAudio Demo.lib Demo.session 5
                    (Demo.world_of Samples.track))) = [Demo.vpkt 2]
  /\ fst (AVI_SeekAudio Demo.lib Demo.session 5 (Demo.world_of Samples.track)) = 0
  /\ pkt_obj (snd (AVI_SeekAudio Demo.lib Demo.session 5
                     (Demo.world_of Samples.track))) = Samples.spkt 4.
Proof.
  assert (Hseek :
    avformat_seek_file Demo.lib (file (Demo.world_of Samples.track))
      (cursor (Demo.world_of Samples.track)) (audio_stream Demo.session)
      INT64_MIN 5 5 AVSEEK_FLAG_ANY
    = (0, [Samples.spkt 4] ++ Samples.spkt 6 :: [Demo.vpkt 2]))
    by (vm_compute; reflexivity).
  assert (Hret : 0 <> AVERROR_EOF) by (vm_compute; discriminate).
  assert (Hpre : none_after (audio_stream Demo.session) 5 [Samples.spkt 4] = true)
    by (vm_compute; reflexivity).
  assert (Hq : stream_index (Samples.spkt 6) = audio_stream Demo.session)
    by (vm_compute; reflexivity).
  assert (Hlate : 5 < dts (Samples.spkt 6)) by (vm_compute; reflexivity).
  split; [exact Hseek|].
  exact (SeekAudio_drops_first_later_packet Demo.lib Demo.session 5
           (Demo.world_of Samples.track) 0 [Samples.spkt 4] (Samples.spkt 6)
           [Demo.vpkt 2] Hseek Hret Hpre Hq Hlate).
Defined.

(** Four bytes a sample at 44100 Hz: the offset 17642 lies in the sample that
    starts at 17640. *)
Lemma audio_offset_timestamp_round_trip_witness :
  AVI_AudioTimestampToOffset Demo.lib
    (AVI_AudioOffsetToTimestamp Demo.lib 17642 4 44100
       {| num := 1; den := 44100 |})
    4 44100 {| num := 1; den := 44100 |} = 17640
  /\ 17640 <= 17642 < 17640 + 4
  /\ AVI_AudioOffsetToTimestamp Demo.lib
       (AVI_AudioTimestampToOffset Demo.lib 4410 4 44100
          {| num := 1; den := 44100 |})
       4 44100 {| num := 1; den := 44100 |} = 4410.
Proof.
  destruct (audio_offset_timestamp_round_trip Demo.lib 4 44100
              {| num := 1; den := 44100 |} eq_refl eq_refl ltac:(lia))
    as [Hoff Hts].
  assert (Hback :
    AVI_AudioTimestampToOffset Demo.lib
      (AVI_AudioOffsetToTimestamp Demo.lib 17642 4 44100
         {| num := 1; den := 44100 |})
      4 44100 {| num := 1; den := 44100 |} = 17640) by (vm_compute; reflexivity).
  assert (Hin : 0 <= 17642 <= INT_MAX) by (unfold INT_MAX; lia).
  specialize (Hoff 17642 Hin). cbv zeta in Hoff. rewrite Hback in Hoff.
  assert (H0 : 0 <= 4410) by lia.
  assert (H1 : 4410 * 4 <= INT_MAX) by (unfold INT_MAX; lia).
  split; [exact Hback|]. split; [exact (proj1 Hoff)|]. exact (Hts 4410 H0 H1).
Defined.

(** The seek for the byte offset 22 of [Samples.track]: the cache starts at
    byte 16, the first byte of the packet at sample 4. *)
Lemma GetAudioChunk_seek_cache_start_witness :
  GetAudioChunk_seek Demo.lib Demo.session (Demo.world_of Samples.track) 22
  = (Some Samples.sought_session, Samples.sought_world)
  /\ dts (pkt_obj Samples.sought_world) = 4
  /\ cached_audio_off Samples.sought_session
     = dts (pkt_obj Samples.sought_world)
       * audio_bytes_per_sample Demo.lib Demo.session
  /\ cached_audio_off Samples.sought_session <= 22
  /\ cached_audio_len Samples.sought_session = 0
  /\ have_audio_cache Samples.sought_session = true.
Proof.
  assert (Hseek :
    GetAudioChunk_seek Demo.lib Demo.session (Demo.world_of Samples.track) 22
    = (Some Samples.sought_session, Samples.sought_world))
    by (vm_compute; reflexivity).
  assert (Hnum : num (stream_time_base Demo.lib (audio_stream Demo.session)) = 1)
    by (vm_compute; reflexivity).
  assert (Hden : den (stream_time_base Demo.lib (audio_stream Demo.session))
                 = rate Demo.session) by (vm_compute; reflexivity).
  assert (Hbps : 0 < audio_bytes_per_sample Demo.lib Demo.session)
    by (vm_compute; reflexivity).
  assert (Hoff : 0 <= 22 <= INT_MAX) by (unfold INT_MAX; lia).
  assert (Hdts : 0 <= dts (pkt_obj Samples.sought_world))
    by (vm_compute; discriminate).
  destruct (GetAudioChunk_seek_cache_start Demo.lib Demo.session
              (Demo.world_of Samples.track) 22 Samples.sought_session
              Samples.sought_world Hnum Hden Hbps Hoff Hseek Hdts)
    as (H1 & H2 & H3 & H4 & _).
  split; [exact Hseek|]. split; [vm_compute; reflexivity|].
  repeat split; assumption.
Defined.

(** A request for the bytes 8000 to 9000 against a cache of the bytes 0 to
    8192: 808 bytes are missing. *)
Lemma GetAudioChunkFromCache_contract_witness :
  cached_audio_len Demo.warm_session = 8192
  /\ fst (AVI_GetAudioChunkFromCache Demo.warm_session Demo.warm_world
            Demo.silence 0 8000 1000) = 808
  /\ (forall i, 0 <= i < 192 ->
        snd (AVI_GetAudioChunkFromCache Demo.warm_session Demo.warm_world
               Demo.silence 0 8000 1000) (0 + i)
        = nth (Z.to_nat (8000 + i)) (cache_block Demo.warm_world) x00)
  /\ (forall j, j < 0 \/ 0 + 192 <= j ->
        snd (AVI_GetAudioChunkFromCache Demo.warm_session Demo.warm_world
               Demo.silence 0 8000 1000) j = Demo.silence j).
Proof.
  assert (Hsize : cached_audio_len Demo.warm_session = 8192)
    by (vm_compute; reflexivity).
  assert (Hpos : 0 <= 8000) by lia.
  assert (Hlen : 0 <= 1000) by lia.
  assert (Hsum : 8000 + 1000 <= INT_MAX) by (unfold INT_MAX; lia).
  assert (Hin : 0 <= cached_audio_len Demo.warm_session <= INT_MAX)
    by (rewrite Hsize; unfold INT_MAX; lia).
  pose proof (GetAudioChunkFromCache_contract Demo.warm_session Demo.warm_world
                Demo.silence 0 8000 1000 Hpos Hlen Hsum Hin) as H.
  cbv zeta in H. rewrite Hsize in H.
  change (Z.max 0 (8000 + 1000 - 8192)) with 808 in H.
  change (Z.max 0 (Z.min 1000 (8192 - 8000))) with 192 in H.
  split; [exact Hsize | exact H].
Defined.

(** The request that runs into the end of [Demo.movie]: what it leaves of
    the session and of the video side. *)
Lemma GetAudioChunk_leaves_video_alone_witness :
  AVI_GetAudioChunk Demo.lib 20 Demo.session (Demo.world_of Demo.movie)
    Demo.silence 0 12000 100
  = Some (0, Samples.tail_session, Samples.tail_world, Demo.silence)
  /\ fields_outside_cache Samples.tail_session = fields_outside_cache Demo.session
  /\ video_side Samples.tail_world = video_side (Demo.world_of Demo.movie).
Proof.
  assert (Hrun :
    AVI_GetAudioChunk Demo.lib 20 Demo.session (Demo.world_of Demo.movie)
      Demo.silence 0 12000 100
    = Some (0, Samples.tail_session, Samples.tail_world, Demo.silence))
    by (vm_compute; reflexivity).
  split; [exact Hrun|].
  exact (GetAudioChunk_leaves_video_alone Demo.lib 20 Demo.session
           (Demo.world_of Demo.movie) Demo.silence 0 12000 100 0
           Samples.tail_session Samples.tail_world Demo.silence Hrun).
Defined.

(** The bytes 4000 to 8000 from the cache, before and after a picture was
    fetched. *)
Lemma GetAudioChunk_cache_hit_after_video_frame_witness :
  exists (out' : memory),
    GetAudioChunk_cache Demo.warm_session Demo.warm_world Demo.silence
      0 4000 4000 = CacheReturn 4000 out'
    /\ AVI_GetAudioChunk Demo.lib 1
         (snd (fst (AVI_GetVideoFrame Demo.lib Demo.warm_session 1 Demo.warm_world)))
         (snd (AVI_GetVideoFrame Demo.lib Demo.warm_session 1 Demo.warm_world))
         Demo.silence 0 4000 4000
       = Some (4000,
               snd (fst (AVI_GetVideoFrame Demo.lib Demo.warm_session 1
                           Demo.warm_world)),
               snd (AVI_GetVideoFrame Demo.lib Demo.warm_session 1 Demo.warm_world),
               out').
Proof.
  destruct (GetAudioChunk_cache Demo.warm_session Demo.warm_world Demo.silence
              0 4000 4000) as [ret out'|Avi' out' a' l'] eqn:E.
  - assert (Hret : ret = 4000).
    { assert (Hv : match GetAudioChunk_cache Demo.warm_session Demo.warm_world
                           Demo.silence 0 4000 4000 with
                   | CacheReturn r _ => r
                   | CacheGoOn _ _ _ _ => 0
                   end = 4000) by (vm_compute; reflexivity).
      rewrite E in Hv. exact Hv. }
    subst ret. exists out'. split; [reflexivity|].
    exact (proj2 (GetAudioChunk_cache_hit_after_video_frame Demo.lib 0
                    Demo.warm_session Demo.warm_world Demo.silence 0 4000 4000
                    1 4000 out' E)).
  - exfalso.
    assert (Hv : match GetAudioChunk_cache Demo.warm_session Demo.warm_world
                         Demo.silence 0 4000 4000 with
                 | CacheReturn _ _ => true
                 | CacheGoOn _ _ _ _ => false
                 end = true) by (vm_compute; reflexivity).
    rewrite E in Hv. discriminate Hv.
Defined.

(** A second call for the target 15 on [Samples.reel]: the seek lands on the
    picture at 10 again, and the call reads on to the picture at 20. *)
Lemma GetVideoFrame_continue_advances_or_holds_witness :
  active Samples.reel_session = true
  /\ fst (fst (AVI_SeekVideo Demo.lib Samples.reel_session 15 Samples.reel_world))
     = 0
  /\ dts (pkt_obj (snd (AVI_SeekVideo Demo.lib Samples.reel_session 15
                          Samples.reel_world))) < 15
  /\ currentframe_ts Samples.reel_session = 10
  /\ currentframe_ts
       (snd (fst (AVI_GetVideoFrame Demo.lib Samples.reel_session 15
                    Samples.reel_world))) = 20
  /\ GetVideoFrame_outcome Demo.lib Samples.reel_session 15 Samples.reel_world
     <> NoPacket.
Proof.
  assert (Hact : active Samples.reel_session = true) by (vm_compute; reflexivity).
  assert (Hret :
    fst (fst (AVI_SeekVideo Demo.lib Samples.reel_session 15 Samples.reel_world))
    = 0) by (vm_compute; reflexivity).
  assert (Hdts :
    dts (pkt_obj (snd (AVI_SeekVideo Demo.lib Samples.reel_session 15
                         Samples.reel_world))) < 15)
    by (vm_compute; reflexivity).
  assert (H10 : currentframe_ts Samples.reel_session = 10)
    by (vm_compute; reflexivity).
  assert (H20 :
    currentframe_ts
      (snd (fst (AVI_GetVideoFrame Demo.lib Samples.reel_session 15
                   Samples.reel_world))) = 20) by (vm_compute; reflexivity).
  destruct (GetVideoFrame_continue_advances_or_holds Demo.lib
              Samples.reel_session 15 Samples.reel_world Hact Hret Hdts)
    as [[_ Hout]|(_ & Hsame & _)].
  - repeat split; assumption.
  - exfalso. rewrite Hsame, H10 in H20. discriminate H20.
Defined.

(** The first picture of [Demo.movie] for the target 1: a restart from the
    keyframe at 1. *)
Lemma GetVideoFrame_keeps_keyframe_order_witness :
  active Demo.session = true
  /\ keyframe_ts Demo.session <= currentframe_ts Demo.session
  /\ fst (fst (AVI_SeekVideo Demo.lib Demo.session 1 (Demo.world_of Demo.movie)))
     = AVERROR EAGAIN
  /\ keyframe_ts
       (snd (fst (AVI_GetVideoFrame Demo.lib Demo.session 1
                    (Demo.world_of Demo.movie))))
     <= currentframe_ts
          (snd (fst (AVI_GetVideoFrame Demo.lib Demo.session 1
                       (Demo.world_of Demo.movie))))
  /\ keyframe_ts
       (snd (fst (AVI_GetVideoFrame Demo.lib Demo.session 1
                    (Demo.world_of Demo.movie))))
     = dts (pkt_obj (snd (AVI_SeekVideo Demo.lib Demo.session 1
                            (Demo.world_of Demo.movie)))).
Proof.
  assert (Hact : active Demo.session = true) by (vm_compute; reflexivity).
  assert (Hinv : keyframe_ts Demo.session <= currentframe_ts Demo.session)
    by (vm_compute; discriminate).
  assert (Hret :
    fst (fst (AVI_SeekVideo Demo.lib Demo.session 1 (Demo.world_of Demo.movie)))
    = AVERROR EAGAIN) by (vm_compute; reflexivity).
  destruct (GetVideoFrame_keeps_keyframe_order Demo.lib Demo.session 1
              (Demo.world_of Demo.movie) Hact Hinv) as [Hle Hnew].
  destruct (Hnew Hret) as [Hkf _].
  repeat split; assumption.
Defined.

(** The capped codec gives frames of at most 4096 bytes. *)
Lemma capped_frames_within : frames_within Samples.capped_lib 4 4096.
Proof.
  intros d p fr. unfold AVI_DecodePacket.
  cbn [avcodec_send_packet avcodec_receive_frame Samples.capped_lib].
  unfold Demo.send_packet, Samples.capped_receive, Demo.receive_frame.
  destruct (Demo.draining d), (is_blank p);
    cbv beta iota zeta
      delta [fst snd Demo.pending Demo.draining Z.ltb Z.compare AVERROR
             AVERROR_EOF EAGAIN Z.opp blank_frame Demo.frame_of];
    cbn [nb_samples]; try lia.
  intros _.
  assert (H : 0 <= Z.of_nat (length (data p)) / 4) by (apply Z.div_pos; lia).
  revert H. generalize (Z.of_nat (length (data p)) / 4). intros q H. lia.
Qed.

(** The pass-through codec has no delay. *)
Lemma Demo_without_delay : decoder_without_delay Demo.lib.
Proof.
  intros d p fr Hb. unfold AVI_DecodePacket.
  cbn [avcodec_send_packet avcodec_receive_frame Demo.lib].
  unfold Demo.send_packet, Demo.receive_frame. rewrite Hb.
  destruct (Demo.draining d);
    cbv beta iota zeta
      delta [fst snd Demo.pending Demo.draining Z.ltb Z.compare AVERROR
             AVERROR_EOF EAGAIN Z.opp];
    lia.
Qed.

(** The request that runs into the end of [Demo.movie], with the capped
    codec: the cache of 4096 bytes lies within its block of 8192. *)
Lemma GetAudioChunk_cache_within_block_witness :
  frames_within Samples.capped_lib
    (audio_bytes_per_sample Samples.capped_lib Demo.session) 4096
  /\ cache_fits 4096 Demo.session (Demo.world_of Demo.movie)
  /\ AVI_GetAudioChunk Samples.capped_lib 20 Demo.session
       (Demo.world_of Demo.movie) Demo.silence 0 12000 100
     = Some (0, Samples.capped_session, Samples.capped_world, Demo.silence)
  /\ cached_audio_len Samples.capped_session = 4096
  /\ cache_fits 4096 Samples.capped_session Samples.capped_world
  /\ cached_audio_buf_len Samples.capped_session = 8192.
Proof.
  assert (HK : 3 * 4096 <= INT_MAX) by (unfold INT_MAX; lia).
  assert (Hfr : frames_within Samples.capped_lib
                  (audio_bytes_per_sample Samples.capped_lib Demo.session) 4096)
    by exact capped_frames_within.
  assert (Hfit : cache_fits 4096 Demo.session (Demo.world_of Demo.movie))
    by (repeat split; vm_compute; discriminate).
  assert (Hrun :
    AVI_GetAudioChunk Samples.capped_lib 20 Demo.session
      (Demo.world_of Demo.movie) Demo.silence 0 12000 100
    = Some (0, Samples.capped_session, Samples.capped_world, Demo.silence))
    by (vm_compute; reflexivity).
  destruct (GetAudioChunk_cache_within_block Samples.capped_lib 4096 20
              Demo.session (Demo.world_of Demo.movie) Demo.silence 0 12000 100
              0 Samples.capped_session Samples.capped_world Demo.silence
              HK Hfr Hfit Hrun) as [H1 H2].
  split; [exact Hfr|]. split; [exact Hfit|]. split; [exact Hrun|].
  split; [vm_compute; reflexivity|]. split; [exact H1|].
  rewrite H2. vm_compute. reflexivity.
Defined.

(** The first round of a refill on [Samples.track], after the seek for the
    byte offset 22: the eight bytes of the packet at sample 4 are written at
    the start of the block. *)
Lemma refill_round_appends_witness :
  cached_audio_len
    (snd (fst (refill_round Demo.lib 4 Samples.sought_session Samples.sought_world)))
  = 0 + 2 * 4
  /\ firstn 8
       (cache_block
          (snd (refill_round Demo.lib 4 Samples.sought_session Samples.sought_world)))
     = data (Samples.spkt 4)
  /\ fst (fst (refill_round Demo.lib 4 Samples.sought_session Samples.sought_world))
     <> LoopReturn0.
Proof.
  assert (Hret :
    0 <= fst (fst (AVI_DecodePacket Demo.lib (audio_dec Samples.sought_world)
                     (pkt_obj Samples.sought_world)
                     (frame_obj Samples.sought_world))))
    by (vm_compute; discriminate).
  assert (Hn :
    0 <= nb_samples
           (snd (AVI_DecodePacket Demo.lib (audio_dec Samples.sought_world)
                   (pkt_obj Samples.sought_world)
                   (frame_obj Samples.sought_world))) * 4)
    by (vm_compute; discriminate).
  assert (Hlen : 0 <= cached_audio_len Samples.sought_session)
    by (vm_compute; discriminate).
  assert (Hroom :
    cached_audio_len Samples.sought_session
    + nb_samples
        (snd (AVI_DecodePacket Demo.lib (audio_dec Samples.sought_world)
                (pkt_obj Samples.sought_world)
                (frame_obj Samples.sought_world))) * 4
    <= cached_audio_buf_len Samples.sought_session)
    by (vm_compute; discriminate).
  assert (Hcap :
    cached_audio_buf_len Samples.sought_session
    <= Z.of_nat (length (cache_block Samples.sought_world)))
    by (vm_compute; discriminate).
  assert (Hint : cached_audio_buf_len Samples.sought_session <= INT_MAX)
    by (vm_compute; discriminate).
  assert (Hswr :
    nb_samples
      (snd (AVI_DecodePacket Demo.lib (audio_dec Samples.sought_world)
              (pkt_obj Samples.sought_world)
              (frame_obj Samples.sought_world))) * 4
    <= Z.of_nat
         (length
            (swr_convert Demo.lib
               (snd (AVI_DecodePacket Demo.lib (audio_dec Samples.sought_world)
                       (pkt_obj Samples.sought_world)
                       (frame_obj Samples.sought_world))))))
    by (vm_compute; discriminate).
  destruct (refill_round_appends Demo.lib 4 Samples.sought_session
              Samples.sought_world Hret Hn Hlen Hroom Hcap Hint Hswr)
    as (H1 & H2 & _ & H4).
  split; [exact H1|]. split; [|exact H4].
  rewrite H2. vm_compute. reflexivity.
Defined.

(** A refill on [Demo.movie] after the seek to its start, with the capped
    codec.  The first two rounds go round again, each with a frame of 4096
    bytes added to the cache, so that two rounds of fuel do not suffice; the
    third round finds the cache full and leaves the loop, within the six
    rounds of the bound. *)
Lemma refill_terminates_witness :
  cache_fits 4096 Samples.started_session Samples.started_world
  /\ offset_fits 4096 Samples.started_session
  /\ length (cursor Samples.started_world) = 4%nat
  /\ fst (fst (refill_round Samples.capped_lib 4 Samples.started_session
                 Samples.started_world)) = LoopAgain
  /\ refill Samples.capped_lib 2 4 Samples.started_session Samples.started_world
     = None
  /\ exists r,
      refill Samples.capped_lib 6 4 Samples.started_session Samples.started_world
      = Some r
      /\ fst (fst r) = LoopBreak
      /\ cached_audio_len (snd (fst r)) = 8192
      /\ cache_fits 4096 (snd (fst r)) (snd r).
Proof.
  assert (HK : 3 * 4096 <= INT_MAX) by (unfold INT_MAX; lia).
  assert (Hfit : cache_fits 4096 Samples.started_session Samples.started_world)
    by (repeat split; vm_compute; discriminate).
  assert (Hoff : offset_fits 4096 Samples.started_session)
    by (split; vm_compute; discriminate).
  destruct (refill_terminates Samples.capped_lib 4096 4 Samples.started_session
              Samples.started_world HK capped_frames_within Hfit Hoff)
    as (r & Hr & _ & Hfit').
  split; [exact Hfit|]. split; [exact Hoff|].
  split; [vm_compute; reflexivity|].
  split; [vm_compute; reflexivity|].
  split; [vm_compute; reflexivity|].
  exists r. split; [exact Hr|].
  assert (Hv :
    option_map (fun x => (fst (fst x), cached_audio_len (snd (fst x))))
      (refill Samples.capped_lib 6 4 Samples.started_session
         Samples.started_world) = Some (LoopBreak, 8192))
    by (vm_compute; reflexivity).
  change (S (S (length (cursor Samples.started_world)))) with 6%nat in Hr.
  rewrite Hr in Hv. cbn [option_map] in Hv.
  apply (f_equal (fun o => match o with Some v => v | None => (LoopAgain, 0) end))
    in Hv.
  apply pair_equal_spec in Hv. destruct Hv as [Hhow Hlen].
  split; [exact Hhow|]. split; [exact Hlen | exact Hfit'].
Defined.

(** A request for the bytes 4000 to 9000 against the cache of the bytes 0 to
    8192: the call delivers the 4192 bytes that the cache held. *)
Lemma GetAudioChunk_partial_hit_short_read_witness :
  have_audio_cache Demo.warm_session = true
  /\ cached_audio_len Demo.warm_session - (4000 - cached_audio_off Demo.warm_session)
     = 4192
  /\ chunk_value
       (AVI_GetAudioChunk Demo.lib 20 Demo.warm_session Demo.warm_world
          Demo.silence 0 4000 5000) = Some 4192
  /\ 0 <= 4192 <= cached_audio_len Demo.warm_session
                  - (4000 - cached_audio_off Demo.warm_session)
  /\ 4192 < 5000.
Proof.
  assert (Hhave : have_audio_cache Demo.warm_session = true)
    by (vm_compute; reflexivity).
  assert (Hsize : in_int (cached_audio_len Demo.warm_session))
    by (split; vm_compute; discriminate).
  assert (Hlen : in_int 5000) by (split; vm_compute; discriminate).
  assert (Hpos : 0 <= 4000 - cached_audio_off Demo.warm_session)
    by (vm_compute; discriminate).
  assert (Hsum : 4000 - cached_audio_off Demo.warm_session + 5000 <= INT_MAX)
    by (vm_compute; discriminate).
  assert (Hheld :
    0 < cached_audio_len Demo.warm_session
        - (4000 - cached_audio_off Demo.warm_session) < 5000)
    by (split; vm_compute; reflexivity).
  destruct (GetAudioChunk_partial_hit_short_read Demo.lib 20 Demo.warm_session
              Demo.warm_world Demo.silence 0 4000 5000 Hhave Hsize Hlen Hpos
              Hsum Hheld) as [_ Hrange].
  assert (Hv : chunk_value
                 (AVI_GetAudioChunk Demo.lib 20 Demo.warm_session Demo.warm_world
                    Demo.silence 0 4000 5000) = Some 4192)
    by (vm_compute; reflexivity).
  destruct (AVI_GetAudioChunk Demo.lib 20 Demo.warm_session Demo.warm_world
              Demo.silence 0 4000 5000) as [r|] eqn:E; [|discriminate Hv].
  destruct (Hrange r eq_refl) as [H1 H2].
  cbn [chunk_value option_map] in Hv.
  apply (f_equal (fun o => match o with Some x => x | None => 0 end)) in Hv.
  cbv beta iota in Hv. rewrite Hv in H1, H2.
  split; [exact Hhave|]. split; [vm_compute; reflexivity|].
  split; [cbn [chunk_value option_map]; rewrite Hv; reflexivity|].
  split; [exact H1 | exact H2].
Defined.

(** The same request, one pass: the function calls itself for the last 4192
    bytes of the buffer of 5000. *)
Lemma GetAudioChunk_pass_writes_inside_witness :
  0 <= cached_audio_len Demo.warm_session <= INT_MAX
  /\ 4000 - cached_audio_off Demo.warm_session + 5000 <= INT_MAX
  /\ option_map (fun x => (snd (fst x), snd x))
       (pass_retry (GetAudioChunk_pass Demo.lib 8 Demo.warm_session
                      Demo.warm_world Demo.silence 0 4000 5000))
     = Some (808, 4192)
  /\ 0 <= 808 /\ 808 + 4192 <= 0 + 5000.
Proof.
  assert (Hlen : 0 <= 5000) by lia.
  assert (Hsize : 0 <= cached_audio_len Demo.warm_session <= INT_MAX)
    by (split; vm_compute; discriminate).
  assert (Hsum : 4000 - cached_audio_off Demo.warm_session + 5000 <= INT_MAX)
    by (vm_compute; discriminate).
  pose proof (GetAudioChunk_pass_writes_inside Demo.lib 8 Demo.warm_session
                Demo.warm_world Demo.silence 0 4000 5000 Hlen Hsize Hsum) as H.
  assert (Hp :
    option_map (fun x => (snd (fst x), snd x))
      (pass_retry (GetAudioChunk_pass Demo.lib 8 Demo.warm_session
                     Demo.warm_world Demo.silence 0 4000 5000))
    = Some (808, 4192)) by (vm_compute; reflexivity).
  split; [exact Hsize|]. split; [exact Hsum|]. split; [exact Hp|].
  destruct (GetAudioChunk_pass Demo.lib 8 Demo.warm_session Demo.warm_world
              Demo.silence 0 4000 5000) as [r|Avi' w' out' a' l'|];
    cbn [pass_retry option_map fst snd] in Hp; try discriminate Hp.
  apply (f_equal (fun o => match o with Some x => x | None => (0, 0) end)) in Hp.
  cbv beta iota in Hp. apply pair_equal_spec in Hp. destruct Hp as [-> ->].
  destruct H as (_ & H1 & H2 & _). split; [exact H1 | exact H2].
Defined.

(** The first request on [Demo.movie], for the bytes 0 to 4000, with the
    capped codec: it is served from the frame of the packet at sample 0. *)
Lemma GetAudioChunk_miss_served_by_refill_witness :
  exists (Avi2 : movie_state) (w2 : avworld Demo.codec_state) (out' : memory),
    AVI_GetAudioChunk Samples.capped_lib 20 Demo.session
      (Demo.world_of Demo.movie) Demo.silence 0 0 4000
    = Some (4000, Avi2, w2, out')
    /\ forall i, 0 <= i < 4000 ->
         out' (0 + i)
         = nth (Z.to_nat (0 - cached_audio_off Samples.started_session + i))
             (data (Demo.apkt 0 1024)) x00.
Proof.
  assert (Hnocache : have_audio_cache Demo.session = false)
    by (vm_compute; reflexivity).
  assert (Hlength : 0 < 4000) by lia.
  assert (Hseek :
    GetAudioChunk_seek Samples.capped_lib Demo.session (Demo.world_of Demo.movie) 0
    = (Some Samples.started_session, Samples.started_world))
    by (vm_compute; reflexivity).
  assert (Hstart : cached_audio_off Samples.started_session <= 0)
    by (vm_compute; discriminate).
  assert (HK : 3 * 4096 <= INT_MAX) by (unfold INT_MAX; lia).
  assert (Hfr : frames_within Samples.capped_lib
                  (audio_bytes_per_sample Samples.capped_lib
                     Samples.started_session) 4096)
    by exact capped_frames_within.
  assert (Hfit : cache_fits 4096 Samples.started_session Samples.started_world)
    by (repeat split; vm_compute; discriminate).
  assert (Hret :
    0 <= fst (fst (AVI_DecodePacket Samples.capped_lib
                     (audio_dec Samples.started_world)
                     (pkt_obj Samples.started_world)
                     (frame_obj Samples.started_world))))
    by (vm_compute; discriminate).
  assert (Hswr :
    nb_samples
      (snd (AVI_DecodePacket Samples.capped_lib
              (audio_dec Samples.started_world)
              (pkt_obj Samples.started_world)
              (frame_obj Samples.started_world)))
    * audio_bytes_per_sample Samples.capped_lib Samples.started_session
    <= Z.of_nat
         (length
            (swr_convert Samples.capped_lib
               (snd (AVI_DecodePacket Samples.capped_lib
                       (audio_dec Samples.started_world)
                       (pkt_obj Samples.started_world)
                       (frame_obj Samples.started_world))))))
    by (vm_compute; discriminate).
  assert (Hin :
    0 + 4000
    <= cached_audio_off Samples.started_session
       + nb_samples
           (snd (AVI_DecodePacket Samples.capped_lib
                   (audio_dec Samples.started_world)
                   (pkt_obj Samples.started_world)
                   (frame_obj Samples.started_world)))
         * audio_bytes_per_sample Samples.capped_lib Samples.started_session)
    by (vm_compute; discriminate).
  assert (Hbytes :
    swr_convert Samples.capped_lib
      (snd (AVI_DecodePacket Samples.capped_lib
              (audio_dec Samples.started_world)
              (pkt_obj Samples.started_world)
              (frame_obj Samples.started_world)))
    = data (Demo.apkt 0 1024)) by (vm_compute; reflexivity).
  destruct (refill Samples.capped_lib 18
              (audio_bytes_per_sample Samples.capped_lib Samples.started_session)
              Samples.started_session Samples.started_world)
    as [[[how Avi2] w2]|] eqn:Hfill.
  2:{ exfalso.
      assert (Hsome :
        match refill Samples.capped_lib 18
                (audio_bytes_per_sample Samples.capped_lib
                   Samples.started_session)
                Samples.started_session Samples.started_world with
        | Some _ => true
        | None => false
        end = true) by (vm_compute; reflexivity).
      rewrite Hfill in Hsome. discriminate Hsome. }
  assert (Hhow : how <> LoopReturn0).
  { assert (Hh :
      option_map (fun x => fst (fst x))
        (refill Samples.capped_lib 18
           (audio_bytes_per_sample Samples.capped_lib Samples.started_session)
           Samples.started_session Samples.started_world)
      = Some LoopBreak) by (vm_compute; reflexivity).
    rewrite Hfill in Hh. cbn [option_map fst] in Hh.
    intros C. rewrite C in Hh. discriminate Hh. }
  destruct (GetAudioChunk_miss_served_by_refill Samples.capped_lib 4096 18
              Demo.session (Demo.world_of Demo.movie) Demo.silence 0 0 4000
              Samples.started_session Samples.started_world how Avi2 w2
              Hnocache Hlength Hseek Hstart HK Hfr Hfit Hret Hswr Hin Hfill Hhow)
    as (out' & Hrun & Hcopy & _).
  exists Avi2, w2, out'. split; [exact Hrun|].
  intros i Hi. rewrite (Hcopy i Hi), Hbytes. reflexivity.
Defined.

(** The request for the bytes 12000 to 12100 of [Demo.movie] on the session
    just opened: the refill meets the end of the file, the call returns 0,
    and the cache it leaves holds the bytes asked for. *)
Lemma GetAudioChunk_end_of_file_returns_zero_witness :
  AVI_GetAudioChunk Demo.lib 20 Demo.session (Demo.world_of Demo.movie)
    Demo.silence 0 12000 100
  = Some (0, Samples.tail_session, Samples.tail_world, Demo.silence)
  /\ audio_eof_position Samples.tail_session <> audio_eof_position Demo.session
  /\ have_audio_cache Samples.tail_session = true
  /\ cache_covers Samples.tail_session 12000 100.
Proof.
  assert (Hrun :
    AVI_GetAudioChunk Demo.lib 20 Demo.session (Demo.world_of Demo.movie)
      Demo.silence 0 12000 100
    = Some (0, Samples.tail_session, Samples.tail_world, Demo.silence))
    by (vm_compute; reflexivity).
  assert (Hne : audio_eof_position Samples.tail_session
                <> audio_eof_position Demo.session)
    by (vm_compute; discriminate).
  destruct (GetAudioChunk_end_of_file_returns_zero Demo.lib Demo_without_delay
              20 Demo.session (Demo.world_of Demo.movie) Demo.silence 0 12000
              100 0 Samples.tail_session Samples.tail_world Demo.silence
              Hrun Hne) as [_ Hhave].
  split; [exact Hrun|]. split; [exact Hne|]. split; [exact Hhave|].
  split; [exact Hhave|]. split; vm_compute; discriminate.
Defined.

(** [Demo.env] opened with audio: what AVI_GetAudioInfo reports. *)
Lemma OpenVideo_audio_format_witness :
  holders_fail Demo.env (Some Demo.movie_name) = false
  /\ image_ready Demo.env = true
  /\ 0 <= fst (AVI_OpenCodecContext Demo.env NULL AVMEDIA_TYPE_AUDIO)
  /\ audio_stream Demo.session = 1
  /\ (channels Demo.session, rate Demo.session, s_fmt Demo.session)
     = (2, 44100, AV_SAMPLE_FMT_S16)
  /\ AVI_GetAudioInfo Demo.lib Demo.session
       {| snd_rate := 0; snd_width := 0; snd_channels := 0; snd_loopStart := 7;
          snd_size := 0 |}
     = (true,
        {| snd_rate := 44100; snd_width := 2; snd_channels := 2;
           snd_loopStart := 0; snd_size := 176400 |}).
Proof.
  assert (Hhold : holders_fail Demo.env (Some Demo.movie_name) = false)
    by (vm_compute; reflexivity).
  assert (Himg : image_ready Demo.env = true) by (vm_compute; reflexivity).
  assert (Haudio : 0 <= fst (AVI_OpenCodecContext Demo.env NULL AVMEDIA_TYPE_AUDIO))
    by (vm_compute; discriminate).
  destruct (OpenVideo_audio_format Demo.lib Demo.env zero_state
              (Some Demo.movie_name) 0
              {| snd_rate := 0; snd_width := 0; snd_channels := 0;
                 snd_loopStart := 7; snd_size := 0 |} Hhold Himg Haudio)
    as (_ & Hidx & Hfmt & _ & _ & _ & Hinfo).
  split; [exact Hhold|]. split; [exact Himg|]. split; [exact Haudio|].
  split; [exact Hidx|]. split; [exact Hfmt | exact Hinfo].
Defined.

(** A movie whose pixel converter is refused and a file that holds sound
    only: the frame asked of the session is the null pointer of the cleared
    structure. *)
Lemma OpenVideo_image_failure_frame_pointer_witness :
  holders_fail Samples.env_no_image (Some Demo.movie_name) = false
  /\ image_ready Samples.env_no_image = false
  /\ GetVideoFrame_outcome Demo.lib
       (AVI_OpenVideo Samples.env_no_image zero_state
          (Some Demo.movie_name) true 0) 1 (Demo.world_of Samples.sound_only)
     = NoPacket
  /\ active (AVI_OpenVideo Samples.env_no_image zero_state
               (Some Demo.movie_name) true 0) = true
  /\ fst (fst (AVI_GetVideoFrame Demo.lib
                 (AVI_OpenVideo Samples.env_no_image zero_state
                    (Some Demo.movie_name) true 0)
                 1 (Demo.world_of Samples.sound_only))) = NULL.
Proof.
  assert (Hhold : holders_fail Samples.env_no_image (Some Demo.movie_name) = false)
    by (vm_compute; reflexivity).
  assert (Himg : image_ready Samples.env_no_image = false)
    by (vm_compute; reflexivity).
  assert (Hout :
    GetVideoFrame_outcome Demo.lib
      (AVI_OpenVideo Samples.env_no_image zero_state
         (Some Demo.movie_name) true 0) 1 (Demo.world_of Samples.sound_only)
    = NoPacket) by (vm_compute; reflexivity).
  assert (Hnot :
    GetVideoFrame_outcome Demo.lib
      (AVI_OpenVideo Samples.env_no_image zero_state
         (Some Demo.movie_name) true 0) 1 (Demo.world_of Samples.sound_only)
    <> Converted) by (rewrite Hout; discriminate).
  destruct (OpenVideo_image_failure_frame_pointer Demo.lib Samples.env_no_image
              zero_state (Some Demo.movie_name) true 0 1
              (Demo.world_of Samples.sound_only) Hhold Himg Hnot)
    as (Hact & _ & _ & Hnull).
  split; [exact Hhold|]. split; [exact Himg|]. split; [exact Hout|].
  split; [exact Hact|]. exact (Hnull eq_refl).
Defined.

(** A file for which no frame holder is to be had: the opening fails with the
    format context in hand, and the closing releases nothing.  The session
    that [Demo.env] gives: the closing releases eight pointers, each once,
    and neither [pkt_seek] nor [swr_ctx]. *)
Lemma CloseVideo_frees_after_OpenVideo_witness :
  holders_fail Samples.env_no_frame (Some Demo.movie_name) = true
  /\ fst (CloseVideo_frees
            (AVI_OpenVideo Samples.env_no_frame zero_state
               (Some Demo.movie_name) true 0)) = []
  /\ In 4096 (owned (AVI_OpenVideo Samples.env_no_frame zero_state
                       (Some Demo.movie_name) true 0))
  /\ holders_fail Demo.env (Some Demo.movie_name) = false
  /\ fst (CloseVideo_frees
            (AVI_OpenVideo Demo.env zero_state (Some Demo.movie_name) true 0))
     = [45056; 36864; 32768; 28672; 20480; 16384; 12288; 4096]
  /\ In 24576 (owned (AVI_OpenVideo Demo.env zero_state
                        (Some Demo.movie_name) true 0))
  /\ ~ In 24576 (fst (CloseVideo_frees
                        (AVI_OpenVideo Demo.env zero_state
                           (Some Demo.movie_name) true 0)))
  /\ In 40960 (owned (AVI_OpenVideo Demo.env zero_state
                        (Some Demo.movie_name) true 0))
  /\ ~ In 40960 (fst (CloseVideo_frees
                        (AVI_OpenVideo Demo.env zero_state
                           (Some Demo.movie_name) true 0))).
Proof.
  assert (Hfail : holders_fail Samples.env_no_frame (Some Demo.movie_name) = true)
    by (vm_compute; reflexivity).
  assert (Hopen : 0 <= fst (avformat_open_input Samples.env_no_frame
                              Demo.movie_name)) by (vm_compute; discriminate).
  assert (Hctx : snd (avformat_open_input Samples.env_no_frame Demo.movie_name)
                 <> NULL) by (vm_compute; discriminate).
  assert (Hhold : holders_fail Demo.env (Some Demo.movie_name) = false)
    by (vm_compute; reflexivity).
  assert (Himg : image_ready Demo.env = true) by (vm_compute; reflexivity).
  assert (Haudio : 0 <= fst (AVI_OpenCodecContext Demo.env NULL AVMEDIA_TYPE_AUDIO))
    by (vm_compute; discriminate).
  destruct (CloseVideo_frees_after_OpenVideo Samples.env_no_frame zero_state
              Demo.movie_name true 0) as (_ & Hleak & _).
  destruct (Hleak Hfail Hopen Hctx) as [Hnone Hown].
  destruct (CloseVideo_frees_after_OpenVideo Demo.env zero_state
              Demo.movie_name true 0) as (_ & _ & Hgood).
  destruct (Hgood Hhold Himg eq_refl Haudio) as (Hfreed & Hseek & Hnseek & Hswr).
  assert (Hout1 :
    ~ In (av_packet_alloc_pkt_seek Demo.env)
        [Mem_Malloc Demo.env (MAX_RAW_SAMPLES Demo.env);
         snd (fst (av_image_alloc Demo.env)); sws_getContext Demo.env;
         av_frame_alloc Demo.env; av_packet_alloc_pkt Demo.env;
         snd (AVI_OpenCodecContext Demo.env NULL AVMEDIA_TYPE_AUDIO);
         snd (AVI_OpenCodecContext Demo.env NULL AVMEDIA_TYPE_VIDEO);
         snd (avformat_open_input Demo.env Demo.movie_name)]).
  { vm_compute. intros Hin.
    repeat (destruct Hin as [Hin|Hin]; [discriminate Hin|]). exact Hin. }
  assert (Hout2 :
    ~ In (swr_alloc_set_opts Demo.env)
        [Mem_Malloc Demo.env (MAX_RAW_SAMPLES Demo.env);
         snd (fst (av_image_alloc Demo.env)); sws_getContext Demo.env;
         av_frame_alloc Demo.env; av_packet_alloc_pkt Demo.env;
         snd (AVI_OpenCodecContext Demo.env NULL AVMEDIA_TYPE_AUDIO);
         snd (AVI_OpenCodecContext Demo.env NULL AVMEDIA_TYPE_VIDEO);
         snd (avformat_open_input Demo.env Demo.movie_name)]).
  { vm_compute. intros Hin.
    repeat (destruct Hin as [Hin|Hin]; [discriminate Hin|]). exact Hin. }
  assert (Hnn : swr_alloc_set_opts Demo.env <> NULL) by (vm_compute; discriminate).
  destruct (Hswr Hnn Hout2) as [Hswr1 Hswr2].
  split; [exact Hfail|]. split; [exact Hnone|]. split; [exact Hown|].
  split; [exact Hhold|].
  split; [rewrite Hfreed; vm_compute; reflexivity|].
  split; [exact Hseek|]. split; [exact (Hnseek Hout1)|].
  split; [exact Hswr1 | exact Hswr2].
Defined.

(** A movie loaded into the empty pool of an initialised loader, and freed
    again. *)
Lemma LoadVideo_null_or_active_witness :
  49152 <> NULL
  /\ Mem_IsAllocatedExt (mempool Samples.ready) 49152 = false
  /\ fst (AVI_LoadVideo Samples.disk Demo.env 49152 Samples.ready
            Samples.clip_name true) = 49152
  /\ mempool (snd (AVI_LoadVideo Samples.disk Demo.env 49152 Samples.ready
                     Samples.clip_name true))
     = [(49152, Demo.session)]
  /\ fst (AVI_LoadVideo Samples.disk Samples.env_no_frame 49152 Samples.ready
            Samples.clip_name true) = NULL
  /\ snd (AVI_LoadVideo Samples.disk Samples.env_no_frame 49152 Samples.ready
            Samples.clip_name true) = Samples.ready.
Proof.
  assert (Hblock : 49152 <> NULL) by (vm_compute; discriminate).
  assert (Hfresh : Mem_IsAllocatedExt (mempool Samples.ready) 49152 = false)
    by reflexivity.
  split; [exact Hblock|]. split; [exact Hfresh|].
  destruct (LoadVideo_null_or_active Samples.disk Demo.env 49152 Samples.ready
              Samples.clip_name true Hblock Hfresh)
    as [[Hnull _]|(fullpath & Hpath & _ & Hptr & _ & Hst)].
  { exfalso. vm_compute in Hnull. discriminate Hnull. }
  destruct (LoadVideo_null_or_active Samples.disk Samples.env_no_frame 49152
              Samples.ready Samples.clip_name true Hblock Hfresh)
    as [[Hnull Hsame]|(fullpath' & _ & _ & _ & Hact & _)].
  2:{ exfalso. vm_compute in Hact. discriminate Hact. }
  split; [exact Hptr|]. split; [rewrite Hst; vm_compute; reflexivity|].
  split; [exact Hnull | exact Hsame].
Defined.

Lemma LoadVideo_FreeVideo_round_trip_witness :
  49152 <> NULL
  /\ Mem_IsAllocatedExt (mempool Samples.ready) 49152 = false
  /\ AVI_FreeVideo
       (snd (AVI_LoadVideo Samples.disk Demo.env 49152 Samples.ready
               Samples.clip_name true))
       (fst (AVI_LoadVideo Samples.disk Demo.env 49152 Samples.ready
               Samples.clip_name true))
     = Samples.ready
  /\ fst (AVI_LoadVideo Samples.disk Demo.env 49152 Samples.ready
            Samples.clip_name true) <> NULL.
Proof.
  assert (Hblock : 49152 <> NULL) by (vm_compute; discriminate).
  assert (Hfresh : Mem_IsAllocatedExt (mempool Samples.ready) 49152 = false)
    by reflexivity.
  destruct (LoadVideo_FreeVideo_round_trip Samples.disk Demo.env 49152
              Samples.ready Samples.clip_name true Hblock Hfresh) as [Hback _].
  split; [exact Hblock|]. split; [exact Hfresh|]. split; [exact Hback|].
  vm_compute. discriminate.
Defined.

(** A pool of two sessions, one of them freed twice. *)
Lemma FreeVideo_idempotent_witness :
  Mem_IsAllocatedExt
    (mempool (AVI_FreeVideo
                {| avi_initialized := true;
                   mempool := [(49152, Demo.session); (53248, zero_state)] |}
                49152)) 49152 = false
  /\ In (53248, zero_state)
       (mempool (AVI_FreeVideo
                   {| avi_initialized := true;
                      mempool := [(49152, Demo.session); (53248, zero_state)] |}
                   49152))
  /\ AVI_FreeVideo
       (AVI_FreeVideo
          {| avi_initialized := true;
             mempool := [(49152, Demo.session); (53248, zero_state)] |} 49152)
       49152
     = AVI_FreeVideo
         {| avi_initialized := true;
            mempool := [(49152, Demo.session); (53248, zero_state)] |} 49152.
Proof.
  destruct (FreeVideo_idempotent
              {| avi_initialized := true;
                 mempool := [(49152, Demo.session); (53248, zero_state)] |}
              49152) as (Htwice & Hgone & Hkeep & _).
  assert (Hblock : 49152 <> NULL) by (vm_compute; discriminate).
  assert (Hother : fst (53248, zero_state) <> 49152) by (vm_compute; discriminate).
  split; [exact (Hgone Hblock)|]. split; [|exact Htwice].
  apply (Hkeep (53248, zero_state) Hother). right. left. reflexivity.
Defined.

(** "movie" copied into four bytes of a buffer of eight dots: "mov", the
    NUL, and the dots from the fifth byte on; the value returned is 5, not
    less than 4, which tells of the truncation. *)
Lemma Q_strncpy_contract_witness :
  terminated Samples.movie_bytes = true
  /\ fst (Q_strncpy (Some Samples.dots) (Some Samples.movie_bytes) 4) = 5
  /\ snd (Q_strncpy (Some Samples.dots) (Some Samples.movie_bytes) 4)
     = Some [x6d; x6f; x76; x00; x2e; x2e; x2e; x2e]
  /\ c_string [x6d; x6f; x76; x00; x2e; x2e; x2e; x2e] = [x6d; x6f; x76]
  /\ ~ (5 < 4).
Proof.
  assert (Hterm : terminated Samples.movie_bytes = true) by reflexivity.
  assert (Hsiz : 0 < 4 <= Z.of_nat (length Samples.dots))
    by (split; vm_compute; congruence).
  assert (Hlen : Z.of_nat (strlen Samples.movie_bytes) + 1 < 2 ^ 64)
    by (vm_compute; reflexivity).
  destruct (Q_strncpy_contract Samples.dots Samples.movie_bytes 4 Hterm Hsiz Hlen)
    as (Hret & d' & Hd & _ & Hstr & _ & _ & _).
  assert (Hv : snd (Q_strncpy (Some Samples.dots) (Some Samples.movie_bytes) 4)
               = Some [x6d; x6f; x76; x00; x2e; x2e; x2e; x2e])
    by (vm_compute; reflexivity).
  rewrite Hv in Hd.
  apply (f_equal (fun o => match o with Some x => x | None => [] end)) in Hd.
  cbv beta iota in Hd. subst d'.
  split; [exact Hterm|]. split; [rewrite Hret; reflexivity|].
  split; [exact Hv|]. split; [rewrite Hstr; reflexivity | lia].
Defined.

(** [Demo.env], opened without audio. *)
Lemma OpenVideo_video_state_witness :
  holders_fail Demo.env (Some Demo.movie_name) = false
  /\ image_ready Demo.env = true
  /\ AVI_GetVideoInfo Demo.lib
       (AVI_OpenVideo Demo.env zero_state (Some Demo.movie_name) false 0)
       (Some 0) (Some 0) (Some 0)
     = (true, Some 2, Some 2, Some 10000)
  /\ keyframe_ts (AVI_OpenVideo Demo.env zero_state (Some Demo.movie_name) false 0)
     = AV_NOPTS_VALUE.
Proof.
  assert (Hhold : holders_fail Demo.env (Some Demo.movie_name) = false)
    by (vm_compute; reflexivity).
  assert (Himg : image_ready Demo.env = true) by (vm_compute; reflexivity).
  destruct (OpenVideo_video_state Demo.lib Demo.env zero_state
              (Some Demo.movie_name) false 0 0 0 0 Hhold Himg)
    as (Hinfo & _ & Hkf & _).
  split; [exact Hhold|]. split; [exact Himg|]. split; [exact Hinfo | exact Hkf].
Defined.
